(** * Rollback indices in TPM NVRAM: firmware/lib/rollback_index.c

    A shallow embedding of the anti-rollback core.  The C functions become
    computations in a small state-and-log monad: the state is the TPM
    together with the file's one global variable, the log is the list of
    TPM commands issued, each with the status the TPM answered.  The TPM
    command layer (tlcl) is an interface: every theorem about the code
    holds for every implementation of it. *)

From Stdlib Require Import ZArith List Lia.
From Stdlib.Strings Require Import Byte.
From stdpp Require Import base decidable option list gmap.
Import ListNotations.
Local Open Scope Z_scope.

(** ** Machine integers and bytes *)

Definition to_uint32 (z : Z) : Z := z mod 2 ^ 32.
Definition to_uint16 (z : Z) : Z := z mod 2 ^ 16.

(** [int] is 32 bits wide and two's complement; a shift that leaves the
    range wraps, as the compilers of this firmware make it. *)
Definition to_int32 (z : Z) : Z := (z + 2 ^ 31) mod 2 ^ 32 - 2 ^ 31.

Definition Z_of_byte (b : byte) : Z := Z.of_N (Byte.to_N b).

Definition byte_of_Z (z : Z) : byte :=
  match Byte.of_N (Z.to_N (z mod 256)) with
  | Some b => b
  | None => x00
  end.

(** The bytes of a [uint32_t] object, as a cast of its address to a byte
    pointer sees them (little-endian), and the value of a 4-byte object
    read as [uint32_t]. *)
Definition uint32_bytes (x : Z) : list byte :=
  [byte_of_Z x; byte_of_Z (Z.shiftr x 8);
   byte_of_Z (Z.shiftr x 16); byte_of_Z (Z.shiftr x 24)].

Definition uint32_of_bytes (l : list byte) : Z :=
  Z_of_byte (nth 0 l x00)
  + Z.shiftl (Z_of_byte (nth 1 l x00)) 8
  + Z.shiftl (Z_of_byte (nth 2 l x00)) 16
  + Z.shiftl (Z_of_byte (nth 3 l x00)) 24.

(** A caller's buffer of [len] bytes after the TPM layer has filled it from
    the reply [out]; bytes the reply does not supply read as zero. *)
Definition fill_buffer (len : Z) (out : list byte) : list byte :=
  take (Z.to_nat len) (out ++ repeat x00 (Z.to_nat len)).

(** Modelled from the spec: Memcmp (utility.h) is missing from the
    sources; the spec calls it a memory compare, so it is zero exactly when
    the first [n] bytes agree, and otherwise the difference of the first
    two bytes that differ. *)
Fixpoint Memcmp (s1 s2 : list byte) (n : nat) : Z :=
  match n with
  | O => 0
  | S n' =>
      let c1 := Z_of_byte (hd x00 s1) in
      let c2 := Z_of_byte (hd x00 s2) in
      if c1 =? c2 then Memcmp (tl s1) (tl s2) n' else c1 - c2
  end.

(** ** The TPM command layer (tlcl.h) *)

Inductive tlcl_cmd : Type :=
| LibInit
| Startup
| ContinueSelfTest
| AssertPhysicalPresence
| GetFlags
| SetEnable
| SetDeactivated (flag : Z)
| ForceClear
| SetNvLocked
| DefineSpace (index perm size : Z)
| Write (index : Z) (data : list byte) (length : Z)
| Read (index length : Z)
| GetPermissions (index : Z)
| SetGlobalLock
| LockPhysicalPresence.

(** What a command stores through its output pointers. *)
Definition out_of (c : tlcl_cmd) : Type :=
  match c with
  | Read _ _ => list byte
  | GetFlags => (byte * byte)%type
  | GetPermissions _ => Z
  | _ => unit
  end.

(** A TPM: each command answers a status and its outputs, and moves the
    device to a new state. *)
Class Tlcl (tpm : Type) : Type :=
  tlcl_exec : forall c : tlcl_cmd, tpm -> Z * out_of c * tpm.

Record event : Type := Ev { ev_cmd : tlcl_cmd; ev_rc : Z }.

(** Modelled from the spec: tss_constants.h is missing from the sources;
    every TPM primitive returns a 32-bit status where zero is success. *)
Definition TPM_SUCCESS : Z := 0.

(** The other constants of rollback_index.h and tss_constants.h, headers
    missing from the sources, are parameters of the development. *)
Class Constants : Type := {
  TPM_E_MAXNVWRITES : Z;
  TPM_E_BADINDEX : Z;
  TPM_E_ALREADY_INITIALIZED : Z;
  TPM_E_INTERNAL_INCONSISTENCY : Z;
  TPM_E_MUST_REBOOT : Z;
  TPM_E_CORRUPTED_STATE : Z;
  TPM_NV_PER_PPWRITE : Z;
  TPM_NV_PER_GLOBALLOCK : Z;
  FIRMWARE_VERSIONS_NV_INDEX : Z;
  KERNEL_VERSIONS_NV_INDEX : Z;
  TPM_IS_INITIALIZED_NV_INDEX : Z;
  KERNEL_VERSIONS_BACKUP_NV_INDEX : Z;
  KERNEL_MUST_USE_BACKUP_NV_INDEX : Z;
  DEVELOPER_MODE_NV_INDEX : Z;
  KERNEL_SPACE_UID : list byte
}.

Definition sizeof_uint32 : Z := 4.

Section Code.
Context {tpm : Type} {T : Tlcl tpm} {K : Constants}.

(** Modelled from the spec: the macros of rollback_index.h are missing
    from the sources; KERNEL_VERSIONS stores a 4-byte counter followed by
    the fixed UID byte string, and starts with a zero counter. *)
Definition KERNEL_SPACE_UID_SIZE : Z := Z.of_nat (length KERNEL_SPACE_UID).
Definition KERNEL_SPACE_SIZE : Z := sizeof_uint32 + KERNEL_SPACE_UID_SIZE.
Definition KERNEL_SPACE_INIT_DATA : list byte :=
  [x00; x00; x00; x00] ++ KERNEL_SPACE_UID.

(** *** State, log and monad *)

Record machine : Type := Machine {
  tpm_state : tpm;
  g_rollback_recovery_mode : Z
}.

Definition M (A : Type) : Type := machine -> A * machine * list event.

Definition ret {A} (a : A) : M A := fun s => (a, s, []).

Definition bind {A B} (m : M A) (k : A -> M B) : M B :=
  fun s =>
    let '(a, s1, e1) := m s in
    let '(b, s2, e2) := k a s1 in
    (b, s2, e1 ++ e2).

Definition set_recovery_mode (v : Z) : M unit :=
  fun s => (tt, Machine (tpm_state s) v, []).

Definition get_recovery_mode : M Z :=
  fun s => (g_rollback_recovery_mode s, s, []).

(** One TPM command: run it on the device and log it with its status. *)
Definition call (c : tlcl_cmd) : M (Z * out_of c) :=
  fun s =>
    let '(rc, o, t) := tlcl_exec c (tpm_state s) in
    ((rc, o), Machine t (g_rollback_recovery_mode s), [Ev c rc]).

Definition status_of (c : tlcl_cmd) : M Z :=
  bind (call c) (fun r => ret (fst r)).

(** The macro RETURN_ON_FAILURE: leave the function with the status of
    the command unless it is TPM_SUCCESS.  [early] builds the function's
    result from that status; [k] is the rest of the function body. *)
Definition return_on_failure {A B} (c : M (Z * A)) (early : Z -> B)
    (k : A -> M B) : M B :=
  bind c (fun r =>
    if fst r =? TPM_SUCCESS then k (snd r) else ret (early (fst r))).

Definition no_out (c : M Z) : M (Z * unit) :=
  bind c (fun r => ret (r, tt)).
End Code.

Arguments machine : clear implicits.
Arguments M : clear implicits.

Declare Scope tpm_scope.
Delimit Scope tpm_scope with tpm.
Notation "'let*' x := c 'in' k" := (bind c (fun x => k))
  (at level 10, x name, c at level 100, k at level 200) : tpm_scope.
Notation "'RETURN_ON_FAILURE' ( c ) ;; k" :=
  (return_on_failure (no_out c) (fun r : Z => r) (fun _ => k))
  (at level 10, c at level 100, k at level 200) : tpm_scope.
Notation "'RETURN_ON_FAILURE' ( c ) 'as' x ;; k" :=
  (return_on_failure c (fun r : Z => r) (fun x => k))
  (at level 10, x name, c at level 100, k at level 200) : tpm_scope.
Local Open Scope tpm_scope.

Section Rollback.
Context {tpm : Type} {T : Tlcl tpm} {K : Constants}.
Local Abbreviation M := (M tpm).

(** *** tlcl.h *)
Definition TlclLibInit : M unit := let* _ := call LibInit in ret tt.
Definition TlclStartup : M Z := status_of Startup.
Definition TlclContinueSelfTest : M Z := status_of ContinueSelfTest.
Definition TlclAssertPhysicalPresence : M Z :=
  status_of AssertPhysicalPresence.
Definition TlclGetFlags : M (Z * (byte * byte)) := call GetFlags.
Definition TlclSetEnable : M Z := status_of SetEnable.
Definition TlclSetDeactivated (flag : Z) : M Z :=
  status_of (SetDeactivated flag).
Definition TlclForceClear : M Z := status_of ForceClear.
Definition TlclSetNvLocked : M Z := status_of SetNvLocked.
Definition TlclDefineSpace (index perm size : Z) : M Z :=
  status_of (DefineSpace index perm size).
Definition TlclWrite (index : Z) (data : list byte) (length : Z) : M Z :=
  status_of (Write index data length).
Definition TlclRead (index length : Z) : M (Z * list byte) :=
  let* r := call (Read index length) in ret (fst r, fill_buffer length (snd r)).
Definition TlclGetPermissions (index : Z) : M (Z * Z) :=
  call (GetPermissions index).
Definition TlclSetGlobalLock : M Z := status_of SetGlobalLock.
Definition TlclLockPhysicalPresence : M Z :=
  status_of LockPhysicalPresence.

(** *** rollback_index.c *)

Definition TPMClearAndReenable : M Z :=
  RETURN_ON_FAILURE (TlclForceClear);;
  RETURN_ON_FAILURE (TlclSetEnable);;
  RETURN_ON_FAILURE (TlclSetDeactivated 0);;
  ret TPM_SUCCESS.

Definition SafeWrite (index : Z) (data : list byte) (length : Z) : M Z :=
  let* result := TlclWrite index data length in
  if result =? TPM_E_MAXNVWRITES then
    RETURN_ON_FAILURE (TPMClearAndReenable);;
    TlclWrite index data length
  else
    ret result.

Definition InitializeKernelVersionsSpaces : M Z :=
  RETURN_ON_FAILURE (TlclDefineSpace KERNEL_VERSIONS_NV_INDEX
                      TPM_NV_PER_PPWRITE KERNEL_SPACE_SIZE);;
  RETURN_ON_FAILURE (SafeWrite KERNEL_VERSIONS_NV_INDEX
                      KERNEL_SPACE_INIT_DATA KERNEL_SPACE_SIZE);;
  ret TPM_SUCCESS.

(** [initialized] is the value of [*initialized] on entry; the second
    component of the result is its value on exit. *)
Definition GetSpacesInitialized (initialized : Z) : M (Z * Z) :=
  let* r := TlclRead TPM_IS_INITIALIZED_NV_INDEX sizeof_uint32 in
  let result := fst r in
  if result =? TPM_SUCCESS then ret (result, 1)
  else if result =? TPM_E_BADINDEX then ret (TPM_SUCCESS, 0)
  else ret (result, initialized).

Definition InitializeSpaces : M Z :=
  let zero := 0 in
  let firmware_perm := Z.lor TPM_NV_PER_GLOBALLOCK TPM_NV_PER_PPWRITE in
  RETURN_ON_FAILURE (TlclSetNvLocked);;
  RETURN_ON_FAILURE (TlclDefineSpace FIRMWARE_VERSIONS_NV_INDEX
                      firmware_perm sizeof_uint32);;
  RETURN_ON_FAILURE (SafeWrite FIRMWARE_VERSIONS_NV_INDEX
                      (uint32_bytes zero) sizeof_uint32);;
  RETURN_ON_FAILURE (InitializeKernelVersionsSpaces);;
  RETURN_ON_FAILURE (TlclDefineSpace KERNEL_VERSIONS_BACKUP_NV_INDEX
                      firmware_perm sizeof_uint32);;
  RETURN_ON_FAILURE (SafeWrite KERNEL_VERSIONS_BACKUP_NV_INDEX
                      (uint32_bytes zero) sizeof_uint32);;
  RETURN_ON_FAILURE (TlclDefineSpace KERNEL_MUST_USE_BACKUP_NV_INDEX
                      firmware_perm sizeof_uint32);;
  RETURN_ON_FAILURE (SafeWrite KERNEL_MUST_USE_BACKUP_NV_INDEX
                      (uint32_bytes zero) sizeof_uint32);;
  RETURN_ON_FAILURE (TlclDefineSpace DEVELOPER_MODE_NV_INDEX
                      firmware_perm sizeof_uint32);;
  RETURN_ON_FAILURE (SafeWrite DEVELOPER_MODE_NV_INDEX
                      (uint32_bytes zero) sizeof_uint32);;
  RETURN_ON_FAILURE (TlclDefineSpace TPM_IS_INITIALIZED_NV_INDEX
                      firmware_perm sizeof_uint32);;
  ret TPM_SUCCESS.

Definition SetDistrustKernelSpaceAtNextBoot (distrust : Z) : M Z :=
  RETURN_ON_FAILURE (TlclRead KERNEL_MUST_USE_BACKUP_NV_INDEX
                             sizeof_uint32) as buf;;
  let must_use_backup := uint32_of_bytes buf in
  if negb (must_use_backup =? distrust) then
    RETURN_ON_FAILURE (SafeWrite KERNEL_MUST_USE_BACKUP_NV_INDEX
                        (uint32_bytes distrust) sizeof_uint32);;
    ret TPM_SUCCESS
  else ret TPM_SUCCESS.

Definition RecoverKernelSpace : M Z :=
  let zero := 0 in
  RETURN_ON_FAILURE (TlclRead KERNEL_MUST_USE_BACKUP_NV_INDEX
                              sizeof_uint32) as buf0;;
  let must_use_backup := uint32_of_bytes buf0 in
  RETURN_ON_FAILURE (TlclRead KERNEL_VERSIONS_NV_INDEX
                                KERNEL_SPACE_SIZE) as buffer;;
  RETURN_ON_FAILURE (TlclGetPermissions KERNEL_VERSIONS_NV_INDEX) as perms;;
  if negb (perms =? TPM_NV_PER_PPWRITE)
     || (Memcmp (drop (Z.to_nat sizeof_uint32) buffer) KERNEL_SPACE_UID
           (Z.to_nat KERNEL_SPACE_UID_SIZE) =? 0)
  then ret TPM_E_CORRUPTED_STATE
  else if negb (must_use_backup =? 0) then
    RETURN_ON_FAILURE (TlclRead KERNEL_VERSIONS_BACKUP_NV_INDEX
                                sizeof_uint32) as buf1;;
    let backup_combined_versions := uint32_of_bytes buf1 in
    RETURN_ON_FAILURE (SafeWrite KERNEL_VERSIONS_NV_INDEX
                        (uint32_bytes backup_combined_versions)
                        sizeof_uint32);;
    RETURN_ON_FAILURE (SafeWrite KERNEL_MUST_USE_BACKUP_NV_INDEX
                        (uint32_bytes zero) 0);;
    ret TPM_SUCCESS
  else ret TPM_SUCCESS.

Definition BackupKernelSpace : M Z :=
  RETURN_ON_FAILURE (TlclRead KERNEL_VERSIONS_NV_INDEX
                              sizeof_uint32) as buf0;;
  let kernel_versions := uint32_of_bytes buf0 in
  RETURN_ON_FAILURE (TlclRead KERNEL_VERSIONS_BACKUP_NV_INDEX
                              sizeof_uint32) as buf1;;
  let backup_versions := uint32_of_bytes buf1 in
  if kernel_versions =? backup_versions then ret TPM_SUCCESS
  else if kernel_versions <? backup_versions then
    ret TPM_E_INTERNAL_INCONSISTENCY
  else
    RETURN_ON_FAILURE (SafeWrite KERNEL_VERSIONS_BACKUP_NV_INDEX
                        (uint32_bytes kernel_versions) sizeof_uint32);;
    ret TPM_SUCCESS.

Definition CheckDeveloperModeTransition (current_developer : Z) : M Z :=
  RETURN_ON_FAILURE (TlclRead DEVELOPER_MODE_NV_INDEX sizeof_uint32) as buf;;
  let past_developer := uint32_of_bytes buf in
  if negb (past_developer =? current_developer) then
    RETURN_ON_FAILURE (TPMClearAndReenable);;
    RETURN_ON_FAILURE (SafeWrite DEVELOPER_MODE_NV_INDEX
                        (uint32_bytes current_developer) sizeof_uint32);;
    ret TPM_SUCCESS
  else ret TPM_SUCCESS.

(** The part of SetupTPM after the kernel space has been recovered. *)
Definition SetupTPM_tail (recovery_mode developer_mode : Z) : M Z :=
  RETURN_ON_FAILURE (BackupKernelSpace);;
  RETURN_ON_FAILURE
    (SetDistrustKernelSpaceAtNextBoot (to_uint32 recovery_mode));;
  RETURN_ON_FAILURE
    (CheckDeveloperModeTransition (to_uint32 developer_mode));;
  let* _ := (if negb (recovery_mode =? 0) then set_recovery_mode 1
        else ret tt) in
  ret TPM_SUCCESS.

Definition SetupTPM (recovery_mode developer_mode : Z) : M Z :=
  let* _ := TlclLibInit in
  RETURN_ON_FAILURE (TlclStartup);;
  RETURN_ON_FAILURE (TlclContinueSelfTest);;
  RETURN_ON_FAILURE (TlclAssertPhysicalPresence);;
  RETURN_ON_FAILURE (TlclGetFlags) as flags;;
  let disable := Z_of_byte (fst flags) in
  let deactivated := Z_of_byte (snd flags) in
  if negb (disable =? 0) || negb (deactivated =? 0) then
    RETURN_ON_FAILURE (TlclSetEnable);;
    RETURN_ON_FAILURE (TlclSetDeactivated 0);;
    ret TPM_E_MUST_REBOOT
  else
    let* recovered := RecoverKernelSpace in
    if negb (recovered =? TPM_SUCCESS) then
      let initialized := 0 in
      RETURN_ON_FAILURE (GetSpacesInitialized initialized) as initialized;;
      if negb (initialized =? 0) then ret TPM_E_ALREADY_INITIALIZED
      else
        RETURN_ON_FAILURE (InitializeSpaces);;
        RETURN_ON_FAILURE (RecoverKernelSpace);;
        SetupTPM_tail recovery_mode developer_mode
    else SetupTPM_tail recovery_mode developer_mode.

Definition RollbackFirmwareSetup (developer_mode : Z) : M Z :=
  SetupTPM 0 developer_mode.

(** [key_version] and [version] are the values of the two output
    objects on entry; the result carries their values on exit. *)
Definition RollbackFirmwareRead (key_version version : Z)
    : M (Z * (Z * Z)) :=
  return_on_failure (TlclRead FIRMWARE_VERSIONS_NV_INDEX sizeof_uint32)
    (fun r => (r, (key_version, version)))
    (fun buf =>
       let firmware_versions := uint32_of_bytes buf in
       ret (TPM_SUCCESS,
            (to_uint16 (Z.shiftr firmware_versions 16),
             to_uint16 (Z.land firmware_versions 65535)))).

(** [key_version << 16] is computed in [int], after the integer
    promotion of the 16-bit argument; so is the [&] with [version]. *)
Definition combined_version (key_version version : Z) : Z :=
  to_uint32 (Z.land (to_int32 (Z.shiftl key_version 16)) version).

Definition RollbackFirmwareWrite (key_version version : Z) : M Z :=
  SafeWrite FIRMWARE_VERSIONS_NV_INDEX
    (uint32_bytes (combined_version key_version version)) sizeof_uint32.

Definition RollbackFirmwareLock : M Z := TlclSetGlobalLock.

Definition RollbackKernelRecovery (developer_mode : Z) : M Z :=
  let* _ := SetupTPM 1 developer_mode in
  if developer_mode =? 0 then
    RETURN_ON_FAILURE (TlclSetGlobalLock);;
    ret TPM_SUCCESS
  else ret TPM_SUCCESS.

Definition RollbackKernelRead (key_version version : Z)
    : M (Z * (Z * Z)) :=
  let* g := get_recovery_mode in
  if negb (g =? 0) then ret (TPM_SUCCESS, (0, 0))
  else
    return_on_failure (TlclRead KERNEL_VERSIONS_NV_INDEX sizeof_uint32)
      (fun r => (r, (key_version, version)))
      (fun buf =>
         let kernel_versions := uint32_of_bytes buf in
         ret (TPM_SUCCESS,
              (to_uint16 (Z.shiftr kernel_versions 16),
               to_uint16 (Z.land kernel_versions 65535)))).

Definition RollbackKernelWrite (key_version version : Z) : M Z :=
  let* g := get_recovery_mode in
  if g =? 0 then
    SafeWrite KERNEL_VERSIONS_NV_INDEX
      (uint32_bytes (combined_version key_version version)) sizeof_uint32
  else ret TPM_SUCCESS.

Definition RollbackKernelLock : M Z :=
  let* g := get_recovery_mode in
  if g =? 0 then TlclLockPhysicalPresence else ret TPM_SUCCESS.
End Rollback.

(** The three parts of a run. *)
Definition status {tpm A} (x : A * machine tpm * list event) : A := x.1.1.
Definition final {tpm A} (x : A * machine tpm * list event) : machine tpm :=
  x.1.2.
Definition log {tpm A} (x : A * machine tpm * list event) : list event := x.2.

(** ** A reference TPM

    The TPM layer is an external collaborator.  To run the code on concrete
    inputs we use a small device: NVRAM spaces with permissions and
    contents, the two flags of GetFlags, and a queue of injected faults
    that makes the coming commands fail with a given status.  The
    theorems about the code hold for every TPM; this one serves the
    examples. *)

(** The values of the upstream headers (rollback_index.h, tss_constants.h). *)
Definition vboot_constants : Constants := {|
  TPM_E_MAXNVWRITES := 0x48;
  TPM_E_BADINDEX := 0x2;
  TPM_E_ALREADY_INITIALIZED := 0x5000;
  TPM_E_INTERNAL_INCONSISTENCY := 0x5001;
  TPM_E_MUST_REBOOT := 0x5002;
  TPM_E_CORRUPTED_STATE := 0x5003;
  TPM_NV_PER_PPWRITE := 0x1;
  TPM_NV_PER_GLOBALLOCK := 0x8000;
  FIRMWARE_VERSIONS_NV_INDEX := 0x1001;
  KERNEL_VERSIONS_NV_INDEX := 0x1002;
  TPM_IS_INITIALIZED_NV_INDEX := 0x1003;
  KERNEL_VERSIONS_BACKUP_NV_INDEX := 0x1004;
  KERNEL_MUST_USE_BACKUP_NV_INDEX := 0x1005;
  DEVELOPER_MODE_NV_INDEX := 0x1006;
  KERNEL_SPACE_UID := [x47; x52; x57; x4c]
|}.

Record nv_space : Type := NvSpace { sp_perm : Z; sp_data : list byte }.

Record ref_tpm : Type := RefTpm {
  nvram : gmap Z nv_space;
  flag_disable : byte;
  flag_deactivated : byte;
  faults : list (option Z)
}.

Definition ref_default_out (c : tlcl_cmd) : out_of c :=
  match c with
  | Read _ _ => []
  | GetFlags => (x00, x00)
  | GetPermissions _ => 0
  | _ => tt
  end.

Definition ref_set_nvram (t : ref_tpm) (m : gmap Z nv_space) : ref_tpm :=
  RefTpm m (flag_disable t) (flag_deactivated t) (faults t).

Definition ref_bad_index : Z := 0x2.
Definition ref_bad_size : Z := 0x1f.

(** The device without faults. *)
Definition ref_normal (c : tlcl_cmd) (t : ref_tpm) : Z * out_of c * ref_tpm :=
  match c return Z * out_of c * ref_tpm with
  | GetFlags => (TPM_SUCCESS, (flag_disable t, flag_deactivated t), t)
  | SetEnable =>
      (TPM_SUCCESS, tt, RefTpm (nvram t) x00 (flag_deactivated t) (faults t))
  | SetDeactivated f =>
      (TPM_SUCCESS, tt, RefTpm (nvram t) (flag_disable t) (byte_of_Z f)
                               (faults t))
  | DefineSpace i p sz =>
      (TPM_SUCCESS, tt,
       ref_set_nvram t
         (<[i := NvSpace p (repeat x00 (Z.to_nat sz))]> (nvram t)))
  | Write i d len =>
      match nvram t !! i with
      | Some sp =>
          if (0 <=? len) && (len <=? Z.of_nat (length (sp_data sp)))
             && (len <=? Z.of_nat (length d))
          then (TPM_SUCCESS, tt,
                ref_set_nvram t
                  (<[i := NvSpace (sp_perm sp)
                            (take (Z.to_nat len) d
                             ++ drop (Z.to_nat len) (sp_data sp))]> (nvram t)))
          else (ref_bad_size, tt, t)
      | None => (ref_bad_index, tt, t)
      end
  | Read i len =>
      match nvram t !! i with
      | Some sp =>
          if (0 <=? len) && (len <=? Z.of_nat (length (sp_data sp)))
          then (TPM_SUCCESS, take (Z.to_nat len) (sp_data sp), t)
          else (ref_bad_size, [], t)
      | None => (ref_bad_index, [], t)
      end
  | GetPermissions i =>
      match nvram t !! i with
      | Some sp => (TPM_SUCCESS, sp_perm sp, t)
      | None => (ref_bad_index, 0, t)
      end
  | LibInit => (TPM_SUCCESS, tt, t)
  | Startup => (TPM_SUCCESS, tt, t)
  | ContinueSelfTest => (TPM_SUCCESS, tt, t)
  | AssertPhysicalPresence => (TPM_SUCCESS, tt, t)
  | ForceClear => (TPM_SUCCESS, tt, t)
  | SetNvLocked => (TPM_SUCCESS, tt, t)
  | SetGlobalLock => (TPM_SUCCESS, tt, t)
  | LockPhysicalPresence => (TPM_SUCCESS, tt, t)
  end.

(** The device with its faults: a queued [Some rc] with [rc] not success
    makes the next command fail with [rc] and without effect; any other
    entry lets the next command through. *)
Definition ref_exec (c : tlcl_cmd) (t : ref_tpm) : Z * out_of c * ref_tpm :=
  match faults t with
  | Some rc :: rest =>
      if rc =? TPM_SUCCESS
      then ref_normal c
             (RefTpm (nvram t) (flag_disable t) (flag_deactivated t) rest)
      else (rc, ref_default_out c,
            RefTpm (nvram t) (flag_disable t) (flag_deactivated t) rest)
  | None :: rest =>
      ref_normal c (RefTpm (nvram t) (flag_disable t) (flag_deactivated t) rest)
  | [] => ref_normal c t
  end.

Definition ref_tlcl : Tlcl ref_tpm := ref_exec.

(** A device fresh from the factory, and one with the given spaces. *)
Definition ref_empty : ref_tpm := RefTpm ∅ x00 x00 [].

Definition ref_with (spaces : list (Z * nv_space)) (fl : list (option Z))
    : ref_tpm :=
  RefTpm (list_to_map spaces) x00 x00 fl.

Definition boot (t : ref_tpm) : machine ref_tpm := Machine t 0.

(** ** Outcomes of SafeWrite *)

Section Outcomes.
Context {K : Constants}.

(** Every way a call of SafeWrite can go: the status it returns and the
    commands it issues. *)
Inductive SafeWrite_outcome (index : Z) (data : list byte) (length : Z)
    : Z -> list event -> Prop :=
| SafeWrite_plain rc :
    rc <> TPM_E_MAXNVWRITES ->
    SafeWrite_outcome index data length rc [Ev (Write index data length) rc]
| SafeWrite_ForceClear_failed rc :
    rc <> TPM_SUCCESS ->
    SafeWrite_outcome index data length rc
      [Ev (Write index data length) TPM_E_MAXNVWRITES; Ev ForceClear rc]
| SafeWrite_SetEnable_failed rc :
    rc <> TPM_SUCCESS ->
    SafeWrite_outcome index data length rc
      [Ev (Write index data length) TPM_E_MAXNVWRITES;
       Ev ForceClear TPM_SUCCESS; Ev SetEnable rc]
| SafeWrite_SetDeactivated_failed rc :
    rc <> TPM_SUCCESS ->
    SafeWrite_outcome index data length rc
      [Ev (Write index data length) TPM_E_MAXNVWRITES;
       Ev ForceClear TPM_SUCCESS; Ev SetEnable TPM_SUCCESS;
       Ev (SetDeactivated 0) rc]
| SafeWrite_retried rc :
    SafeWrite_outcome index data length rc
      [Ev (Write index data length) TPM_E_MAXNVWRITES;
       Ev ForceClear TPM_SUCCESS; Ev SetEnable TPM_SUCCESS;
       Ev (SetDeactivated 0) TPM_SUCCESS;
       Ev (Write index data length) rc].

(** The outcomes the specification allows: a write that does not answer
    MaxNVWrites is returned as it is; one that does is always followed by
    the whole clear sequence and one retry, whose status is returned. *)
Inductive SafeWrite_outcome_as_stated (index : Z) (data : list byte)
    (length : Z) : Z -> list event -> Prop :=
| SafeWrite_stated_plain rc :
    rc <> TPM_E_MAXNVWRITES ->
    SafeWrite_outcome_as_stated index data length rc
      [Ev (Write index data length) rc]
| SafeWrite_stated_retried a b c rc :
    SafeWrite_outcome_as_stated index data length rc
      [Ev (Write index data length) TPM_E_MAXNVWRITES;
       Ev ForceClear a; Ev SetEnable b; Ev (SetDeactivated 0) c;
       Ev (Write index data length) rc].
End Outcomes.

(** ** The public interface and what a computation may touch *)

Section Interface.
Context {tpm : Type} {T : Tlcl tpm} {K : Constants}.

(** The functions of the file that are not static. *)
Inductive api_call : Type :=
| CallRecoverKernelSpace
| CallRollbackFirmwareSetup (developer_mode : Z)
| CallRollbackFirmwareRead (key_version version : Z)
| CallRollbackFirmwareWrite (key_version version : Z)
| CallRollbackFirmwareLock
| CallRollbackKernelRecovery (developer_mode : Z)
| CallRollbackKernelRead (key_version version : Z)
| CallRollbackKernelWrite (key_version version : Z)
| CallRollbackKernelLock.

(** The machine after one call of the interface. *)
Definition run_api (a : api_call) (s : machine tpm) : machine tpm :=
  match a with
  | CallRecoverKernelSpace => final (RecoverKernelSpace s)
  | CallRollbackFirmwareSetup d => final (RollbackFirmwareSetup d s)
  | CallRollbackFirmwareRead kv v => final (RollbackFirmwareRead kv v s)
  | CallRollbackFirmwareWrite kv v => final (RollbackFirmwareWrite kv v s)
  | CallRollbackFirmwareLock => final (RollbackFirmwareLock s)
  | CallRollbackKernelRecovery d => final (RollbackKernelRecovery d s)
  | CallRollbackKernelRead kv v => final (RollbackKernelRead kv v s)
  | CallRollbackKernelWrite kv v => final (RollbackKernelWrite kv v s)
  | CallRollbackKernelLock => final (RollbackKernelLock s)
  end.

(** [respects G P m]: a run of [m] moves the global flag along [G] and
    issues only commands in [P]. *)
Definition respects {A} (G : Z -> Z -> Prop) (P : tlcl_cmd -> Prop)
    (m : M tpm A) : Prop :=
  forall s,
    G (g_rollback_recovery_mode s) (g_rollback_recovery_mode (final (m s)))
    /\ Forall (fun e => P (ev_cmd e)) (log (m s)).

(** The flag keeps its value or becomes 1. *)
Definition may_set (g g' : Z) : Prop := g' = g \/ g' = 1.

Definition any_cmd (c : tlcl_cmd) : Prop := True.

Definition not_a_lock (c : tlcl_cmd) : Prop :=
  c <> SetGlobalLock /\ c <> LockPhysicalPresence.

(** Commands that define or write the space [idx]. *)
Definition targets (idx : Z) (c : tlcl_cmd) : Prop :=
  match c with
  | DefineSpace i _ _ => i = idx
  | Write i _ _ => i = idx
  | _ => False
  end.

(** The successful definitions and initial writes of the five spaces that
    come before the tombstone, in the order of InitializeSpaces. *)
Definition provisioning_log : list event :=
  let firmware_perm := Z.lor TPM_NV_PER_GLOBALLOCK TPM_NV_PER_PPWRITE in
  [Ev (DefineSpace FIRMWARE_VERSIONS_NV_INDEX firmware_perm sizeof_uint32)
      TPM_SUCCESS;
   Ev (Write FIRMWARE_VERSIONS_NV_INDEX (uint32_bytes 0) sizeof_uint32)
      TPM_SUCCESS;
   Ev (DefineSpace KERNEL_VERSIONS_NV_INDEX TPM_NV_PER_PPWRITE
         KERNEL_SPACE_SIZE) TPM_SUCCESS;
   Ev (Write KERNEL_VERSIONS_NV_INDEX KERNEL_SPACE_INIT_DATA
         KERNEL_SPACE_SIZE) TPM_SUCCESS;
   Ev (DefineSpace KERNEL_VERSIONS_BACKUP_NV_INDEX firmware_perm
         sizeof_uint32) TPM_SUCCESS;
   Ev (Write KERNEL_VERSIONS_BACKUP_NV_INDEX (uint32_bytes 0) sizeof_uint32)
      TPM_SUCCESS;
   Ev (DefineSpace KERNEL_MUST_USE_BACKUP_NV_INDEX firmware_perm
         sizeof_uint32) TPM_SUCCESS;
   Ev (Write KERNEL_MUST_USE_BACKUP_NV_INDEX (uint32_bytes 0) sizeof_uint32)
      TPM_SUCCESS;
   Ev (DefineSpace DEVELOPER_MODE_NV_INDEX firmware_perm sizeof_uint32)
      TPM_SUCCESS;
   Ev (Write DEVELOPER_MODE_NV_INDEX (uint32_bytes 0) sizeof_uint32)
      TPM_SUCCESS].
(** TPM_IS_INITIALIZED is a space of its own. *)
Definition tombstone_index_fresh : Prop :=
  FIRMWARE_VERSIONS_NV_INDEX <> TPM_IS_INITIALIZED_NV_INDEX
  /\ KERNEL_VERSIONS_NV_INDEX <> TPM_IS_INITIALIZED_NV_INDEX
  /\ KERNEL_VERSIONS_BACKUP_NV_INDEX <> TPM_IS_INITIALIZED_NV_INDEX
  /\ KERNEL_MUST_USE_BACKUP_NV_INDEX <> TPM_IS_INITIALIZED_NV_INDEX
  /\ DEVELOPER_MODE_NV_INDEX <> TPM_IS_INITIALIZED_NV_INDEX.

Definition before_tombstone (e : event) : Prop :=
  ~ targets TPM_IS_INITIALIZED_NV_INDEX (ev_cmd e).

(** The shape of a log of InitializeSpaces with status [r]: commands that
    do not touch TPM_IS_INITIALIZED, then either a failure, or the
    definition of TPM_IS_INITIALIZED as the last command, after the whole
    provisioning log. *)
Definition tombstone_last (evs : list event) (r : Z) : Prop :=
  exists pre,
    Forall before_tombstone pre
    /\ ((evs = pre /\ r <> TPM_SUCCESS)
        \/ (evs = pre ++ [Ev (DefineSpace TPM_IS_INITIALIZED_NV_INDEX
                                (Z.lor TPM_NV_PER_GLOBALLOCK
                                       TPM_NV_PER_PPWRITE)
                                sizeof_uint32) r]
            /\ sublist provisioning_log pre)).

(** What is left to run of InitializeSpaces, when the events [done] have
    been logged. *)
Definition finishes_provisioning (k : M tpm Z) (done : list event) : Prop :=
  forall s acc,
    Forall before_tombstone acc -> sublist done acc ->
    tombstone_last (acc ++ log (k s)) (status (k s)).
(** The bytes of a KERNEL_VERSIONS buffer that are compared with
    KERNEL_SPACE_UID: those after the 4-byte counter. *)
Definition kernel_space_tag (buffer : list byte) : list byte :=
  take (length KERNEL_SPACE_UID) (drop (Z.to_nat sizeof_uint32) buffer).
(** Commands that define or write a space. *)
Definition changes_nvram (c : tlcl_cmd) : Prop :=
  match c with
  | DefineSpace _ _ _ | Write _ _ _ => True
  | _ => False
  end.

(** The contract of a TPM whose NVRAM holds what was written to it:
    [nv t i] is the content of space [i] in state [t].  A successful read
    fills the buffer from the start of the space; a successful write
    replaces the start of the space; a write leaves the other spaces
    alone; the other commands, defining a space apart, leave every space
    alone. *)
Record nv_contract (nv : tpm -> Z -> list byte) : Prop := {
  nv_read : forall t i len out t',
    tlcl_exec (Read i len) t = (TPM_SUCCESS, out, t') ->
    fill_buffer len out = take (Z.to_nat len) (nv t i);
  nv_write : forall t i d len o t',
    tlcl_exec (Write i d len) t = (TPM_SUCCESS, o, t') ->
    nv t' i = take (Z.to_nat len) d ++ drop (Z.to_nat len) (nv t i);
  nv_write_frame : forall t i d len rc o t' j,
    tlcl_exec (Write i d len) t = (rc, o, t') ->
    j <> i -> nv t' j = nv t j;
  nv_frame : forall c t rc o t' j,
    tlcl_exec c t = (rc, o, t') ->
    ~ changes_nvram c -> nv t' j = nv t j
}.
End Interface.

(** The content of a space of the reference TPM. *)
Definition ref_nv (t : ref_tpm) (i : Z) : list byte :=
  match nvram t !! i with
  | Some sp => sp_data sp
  | None => []
  end.

(** ** Logs of the interface, and logs that stop at the first failure *)

Section Logs.
Context {tpm : Type} {T : Tlcl tpm} {K : Constants}.

(** The commands issued by one call of the interface. *)
Definition api_log (a : api_call) (s : machine tpm) : list event :=
  match a with
  | CallRecoverKernelSpace => log (RecoverKernelSpace s)
  | CallRollbackFirmwareSetup d => log (RollbackFirmwareSetup d s)
  | CallRollbackFirmwareRead kv v => log (RollbackFirmwareRead kv v s)
  | CallRollbackFirmwareWrite kv v => log (RollbackFirmwareWrite kv v s)
  | CallRollbackFirmwareLock => log (RollbackFirmwareLock s)
  | CallRollbackKernelRecovery d => log (RollbackKernelRecovery d s)
  | CallRollbackKernelRead kv v => log (RollbackKernelRead kv v s)
  | CallRollbackKernelWrite kv v => log (RollbackKernelWrite kv v s)
  | CallRollbackKernelLock => log (RollbackKernelLock s)
  end.

(** A command after which a function built from RETURN_ON_FAILURE and
    SafeWrite goes on: one that succeeded, or a write that answered
    MaxNVWrites. *)
Definition tolerated (e : event) : Prop :=
  ev_rc e = TPM_SUCCESS
  \/ (exists index data length, ev_cmd e = Write index data length)
     /\ ev_rc e = TPM_E_MAXNVWRITES.

(** The function returned the status [r] of the last command it issued,
    and went on only after tolerated commands. *)
Definition stops_at_failure (r : Z) (evs : list event) : Prop :=
  exists pre c, evs = pre ++ [Ev c r] /\ Forall tolerated pre.

(** A failed write leaves the NVRAM as it was. *)
Definition failed_write_keeps (nv : tpm -> Z -> list byte) : Prop :=
  forall t i d len rc o t' j,
    tlcl_exec (Write i d len) t = (rc, o, t') ->
    rc <> TPM_SUCCESS -> nv t' j = nv t j.

(** The counter held by space [i]. *)
Definition counter (nv : tpm -> Z -> list byte) (s : machine tpm) (i : Z)
    : Z :=
  uint32_of_bytes (nv (tpm_state s) i).
(** [outcome Q m]: [Q] relates the recovery flag before a run of [m] to
    the status and the machine after it. *)
Definition outcome (Q : Z -> Z -> machine tpm -> Prop) (m : M tpm Z)
    : Prop :=
  forall s, Q (g_rollback_recovery_mode s) (status (m s)) (final (m s)).

(** [Q] asks nothing of a failure that leaves the flag alone. *)
Definition fails_freely (Q : Z -> Z -> machine tpm -> Prop) : Prop :=
  forall r s, r <> TPM_SUCCESS -> Q (g_rollback_recovery_mode s) r s.

(** The recovery flag after SetupTPM: untouched by a failure, and after a
    success untouched when [recovery_mode] is 0 and 1 otherwise. *)
Definition flag_after (recovery_mode : Z) (g r : Z) (s' : machine tpm)
    : Prop :=
  (r <> TPM_SUCCESS -> g_rollback_recovery_mode s' = g)
  /\ (r = TPM_SUCCESS ->
      g_rollback_recovery_mode s' = if recovery_mode =? 0 then g else 1).

(** The NVRAM after a successful SetupTPM. *)
Definition nvram_after (nv : tpm -> Z -> list byte)
    (recovery_mode developer_mode : Z) (g r : Z) (s' : machine tpm)
    : Prop :=
  r = TPM_SUCCESS ->
  counter nv s' KERNEL_VERSIONS_BACKUP_NV_INDEX
    <= counter nv s' KERNEL_VERSIONS_NV_INDEX
  /\ counter nv s' KERNEL_MUST_USE_BACKUP_NV_INDEX
     = to_uint32 recovery_mode
  /\ counter nv s' DEVELOPER_MODE_NV_INDEX = to_uint32 developer_mode.
(** The four spaces SetupTPM reads and writes are different spaces. *)
Definition setup_indices_distinct : Prop :=
  KERNEL_VERSIONS_NV_INDEX <> KERNEL_VERSIONS_BACKUP_NV_INDEX
  /\ KERNEL_VERSIONS_NV_INDEX <> KERNEL_MUST_USE_BACKUP_NV_INDEX
  /\ KERNEL_VERSIONS_BACKUP_NV_INDEX <> KERNEL_MUST_USE_BACKUP_NV_INDEX
  /\ KERNEL_VERSIONS_NV_INDEX <> DEVELOPER_MODE_NV_INDEX
  /\ KERNEL_VERSIONS_BACKUP_NV_INDEX <> DEVELOPER_MODE_NV_INDEX
  /\ KERNEL_MUST_USE_BACKUP_NV_INDEX <> DEVELOPER_MODE_NV_INDEX.
(** A command that writes to no space outside [l] and defines none. *)
Definition touches_only (l : list Z) (c : tlcl_cmd) : Prop :=
  match c with
  | Write i _ _ => In i l
  | DefineSpace _ _ _ => False
  | _ => True
  end.
(** The enable check as the specification words it: SetEnable and
    SetDeactivated(0) are both called. *)
Definition enable_check_as_stated (evs : list event) : Prop :=
  (exists rc, Ev SetEnable rc ∈ evs)
  /\ (exists rc, Ev (SetDeactivated 0) rc ∈ evs).
End Logs.

(** ** Devices used in the examples *)

Section Devices.
Local Existing Instance ref_tlcl.
Local Existing Instance vboot_constants.

(** A provisioned device: the six spaces with their initial contents. *)
Definition provisioned_spaces : list (Z * nv_space) :=
  [(FIRMWARE_VERSIONS_NV_INDEX, NvSpace 0x8001 (uint32_bytes 0));
   (KERNEL_VERSIONS_NV_INDEX, NvSpace 0x1 KERNEL_SPACE_INIT_DATA);
   (KERNEL_VERSIONS_BACKUP_NV_INDEX, NvSpace 0x8001 (uint32_bytes 0));
   (KERNEL_MUST_USE_BACKUP_NV_INDEX, NvSpace 0x8001 (uint32_bytes 0));
   (DEVELOPER_MODE_NV_INDEX, NvSpace 0x8001 (uint32_bytes 0));
   (TPM_IS_INITIALIZED_NV_INDEX, NvSpace 0x8001 (uint32_bytes 0))].

Definition provisioned_tpm : ref_tpm := ref_with provisioned_spaces [].

(** A device whose firmware space has reached the write limit and whose
    ForceClear then fails with status 1. *)
Definition worn_out_tpm : ref_tpm :=
  ref_with [(FIRMWARE_VERSIONS_NV_INDEX,
             NvSpace 0x8001 [x00; x00; x00; x00])]
           [Some TPM_E_MAXNVWRITES; Some 1].
(** A device whose disable flag is set. *)
Definition disabled_tpm : ref_tpm := RefTpm ∅ x01 x00 [].

(** A device left distrusted by a recovery boot: the flag is 1, the primary
    counter is 9, the backup is 5, and the bytes after the counter are not
    KERNEL_SPACE_UID. *)
Definition distrusted_tpm : ref_tpm :=
  ref_with
    [(KERNEL_VERSIONS_NV_INDEX,
      NvSpace 0x1 (uint32_bytes 9 ++ [x58; x58; x58; x58]));
     (KERNEL_VERSIONS_BACKUP_NV_INDEX, NvSpace 0x8001 (uint32_bytes 5));
     (KERNEL_MUST_USE_BACKUP_NV_INDEX, NvSpace 0x8001 (uint32_bytes 1))]
    [].

(** The machine after RecoverKernelSpace on that device. *)
Definition distrusted_tpm_recovered : ref_tpm :=
  ref_with
    [(KERNEL_VERSIONS_NV_INDEX,
      NvSpace 0x1 (uint32_bytes 5 ++ [x58; x58; x58; x58]));
     (KERNEL_VERSIONS_BACKUP_NV_INDEX, NvSpace 0x8001 (uint32_bytes 5));
     (KERNEL_MUST_USE_BACKUP_NV_INDEX, NvSpace 0x8001 (uint32_bytes 1))]
    [].

(** A device whose primary counter, 7, is ahead of its backup, 5. *)
Definition ahead_tpm : ref_tpm :=
  ref_with
    [(KERNEL_VERSIONS_NV_INDEX, NvSpace 0x1 (uint32_bytes 7));
     (KERNEL_VERSIONS_BACKUP_NV_INDEX, NvSpace 0x8001 (uint32_bytes 5))]
    [].
(** A device whose kernel space was redefined without KERNEL_SPACE_UID
    and left distrusted: primary counter 9, backup 5, flag 1, developer
    mode 0. *)
Definition tampered_tpm : ref_tpm :=
  ref_with
    [(KERNEL_VERSIONS_NV_INDEX,
      NvSpace 0x1 (uint32_bytes 9 ++ [x58; x58; x58; x58]));
     (KERNEL_VERSIONS_BACKUP_NV_INDEX, NvSpace 0x8001 (uint32_bytes 5));
     (KERNEL_MUST_USE_BACKUP_NV_INDEX, NvSpace 0x8001 (uint32_bytes 1));
     (DEVELOPER_MODE_NV_INDEX, NvSpace 0x8001 (uint32_bytes 0))]
    [].

(** A device holding the firmware versions (2, 7). *)
Definition versioned_tpm : ref_tpm :=
  ref_with
    [(FIRMWARE_VERSIONS_NV_INDEX, NvSpace 0x8001 (uint32_bytes 0x20007));
     (KERNEL_VERSIONS_NV_INDEX,
      NvSpace 0x1 (uint32_bytes 0x50003 ++ KERNEL_SPACE_UID))]
    [].
(** A disabled device on which SetEnable fails with status 7. *)
Definition enable_fails_tpm : ref_tpm :=
  RefTpm ∅ x01 x00 [None; None; None; None; None; Some 7].
End Devices.

(** * Properties *)

(** ** Running the monad *)

Section Run.
Context {tpm : Type} {T : Tlcl tpm} {K : Constants}.
Implicit Types s : machine tpm.

Lemma run_bind {A B} (m : M tpm A) (k : A -> M tpm B) s :
  bind m k s =
  (status (k (status (m s)) (final (m s))),
   final (k (status (m s)) (final (m s))),
   log (m s) ++ log (k (status (m s)) (final (m s)))).
Proof.
  unfold bind, status, final, log.
  destruct (m s) as [[a s1] e1]; simpl.
  destruct (k a s1) as [[b s2] e2]; reflexivity.
Qed.

Lemma run_call c s :
  call c s =
  ((tlcl_exec c (tpm_state s)).1,
   Machine (tlcl_exec c (tpm_state s)).2 (g_rollback_recovery_mode s),
   [Ev c (tlcl_exec c (tpm_state s)).1.1]).
Proof.
  unfold call. destruct (tlcl_exec c (tpm_state s)) as [[rc o] t].
  reflexivity.
Qed.

Lemma run_status_of c s :
  status_of c s =
  ((tlcl_exec c (tpm_state s)).1.1,
   Machine (tlcl_exec c (tpm_state s)).2 (g_rollback_recovery_mode s),
   [Ev c (tlcl_exec c (tpm_state s)).1.1]).
Proof.
  unfold status_of. rewrite run_bind, run_call. reflexivity.
Qed.

(** RETURN_ON_FAILURE, when the command fails and when it succeeds. *)
Lemma run_rof_fail {A B} (c : M tpm (Z * A)) (early : Z -> B) k s :
  (status (c s)).1 <> TPM_SUCCESS ->
  return_on_failure c early k s =
  (early (status (c s)).1, final (c s), log (c s)).
Proof.
  intros Hne. unfold return_on_failure. rewrite run_bind.
  destruct (Z.eqb_spec (status (c s)).1 TPM_SUCCESS) as [|_]; [done|].
  unfold ret, status, final, log; simpl. by rewrite app_nil_r.
Qed.

Lemma run_rof_ok {A B} (c : M tpm (Z * A)) (early : Z -> B) k s :
  (status (c s)).1 = TPM_SUCCESS ->
  return_on_failure c early k s =
  (status (k (status (c s)).2 (final (c s))),
   final (k (status (c s)).2 (final (c s))),
   log (c s) ++ log (k (status (c s)).2 (final (c s)))).
Proof.
  intros He. unfold return_on_failure. rewrite run_bind, He. reflexivity.
Qed.

Lemma run_no_out (c : M tpm Z) s :
  no_out c s = ((status (c s), tt), final (c s), log (c s)).
Proof.
  unfold no_out. rewrite run_bind. unfold ret, status, final, log; simpl.
  by rewrite app_nil_r.
Qed.

Lemma rof_ok {A B} (c : M tpm (Z * A)) (early : Z -> B) k s a s1 e1 :
  c s = ((TPM_SUCCESS, a), s1, e1) ->
  return_on_failure c early k s =
  (status (k a s1), final (k a s1), e1 ++ log (k a s1)).
Proof.
  intros E. rewrite run_rof_ok; rewrite E; reflexivity.
Qed.

Lemma rof_fail {A B} (c : M tpm (Z * A)) (early : Z -> B) k s rc a s1 e1 :
  c s = ((rc, a), s1, e1) -> rc <> TPM_SUCCESS ->
  return_on_failure c early k s = (early rc, s1, e1).
Proof.
  intros E Hne. rewrite run_rof_fail; rewrite E; done.
Qed.

Lemma exec_call c s rc o t :
  tlcl_exec c (tpm_state s) = (rc, o, t) ->
  call c s = ((rc, o), Machine t (g_rollback_recovery_mode s), [Ev c rc]).
Proof. intros E. rewrite run_call, E. reflexivity. Qed.

Lemma exec_status_of c s rc o t :
  tlcl_exec c (tpm_state s) = (rc, o, t) ->
  no_out (status_of c) s =
  ((rc, tt), Machine t (g_rollback_recovery_mode s), [Ev c rc]).
Proof.
  intros E. rewrite run_no_out, run_status_of, E. reflexivity.
Qed.

Lemma exec_LibInit s rc o t :
  tlcl_exec LibInit (tpm_state s) = (rc, o, t) ->
  TlclLibInit s =
  (tt, Machine t (g_rollback_recovery_mode s), [Ev LibInit rc]).
Proof.
  intros E. unfold TlclLibInit. rewrite run_bind, run_call, E. reflexivity.
Qed.

Lemma exec_TlclRead index length s rc (out : list byte) t :
  tlcl_exec (Read index length) (tpm_state s) = (rc, out, t) ->
  TlclRead index length s =
  ((rc, fill_buffer length out), Machine t (g_rollback_recovery_mode s),
   [Ev (Read index length) rc]).
Proof.
  intros E. unfold TlclRead. rewrite run_bind, run_call, E. reflexivity.
Qed.

(** A function that ends with RETURN_ON_FAILURE and [return TPM_SUCCESS]
    returns the status of its last command. *)
Lemma rof_last (c : M tpm Z) s :
  (RETURN_ON_FAILURE (c);; ret TPM_SUCCESS) s =
  (status (c s), final (c s), log (c s)).
Proof.
  destruct (Z.eq_dec (status (c s)) TPM_SUCCESS) as [Hok|Hne].
  - erewrite rof_ok; last first.
    { rewrite run_no_out, Hok. reflexivity. }
    unfold ret. cbn [status final log fst snd]. by rewrite Hok, app_nil_r.
  - erewrite rof_fail; [done | by rewrite run_no_out | done].
Qed.

Lemma rof_step_ok (c k : M tpm Z) s :
  status (c s) = TPM_SUCCESS ->
  (RETURN_ON_FAILURE (c);; k) s =
  (status (k (final (c s))), final (k (final (c s))),
   log (c s) ++ log (k (final (c s)))).
Proof.
  intros Hok. erewrite rof_ok; [done|].
  rewrite run_no_out, Hok. reflexivity.
Qed.

Lemma run_eta {A} (x : A * machine tpm * list event) :
  x = (status x, final x, log x).
Proof. by destruct x as [[a s1] e]. Qed.
End Run.

(** ** SafeWrite and GetSpacesInitialized *)

(** Unfold a function body down to the TPM commands and split on every
    answer of the device and every test of the code. *)
Ltac unfold_monad :=
  unfold return_on_failure, no_out, status_of, call, bind, ret,
    get_recovery_mode, set_recovery_mode, status, final, log in *;
  cbn beta iota zeta delta [fst snd] in *.

Ltac split_run :=
  repeat match goal with
  | |- context [tlcl_exec ?c ?t] =>
      let E := fresh "E" in
      destruct (tlcl_exec c t) as [[? ?] ?] eqn:E;
      cbn beta iota zeta delta [fst snd tpm_state g_rollback_recovery_mode]
  | |- context [Z.eqb ?a ?b] =>
      destruct (Z.eqb_spec a b);
      cbn beta iota zeta delta [fst snd negb orb andb tpm_state
                                g_rollback_recovery_mode]
  end.

Section Helpers.
Context {tpm : Type} {T : Tlcl tpm} {K : Constants}.
Implicit Types s : machine tpm.

Lemma TPMClearAndReenable_cases s :
  let r := TPMClearAndReenable s in
  (status r <> TPM_SUCCESS /\
   (log r = [Ev ForceClear (status r)] \/
    log r = [Ev ForceClear TPM_SUCCESS; Ev SetEnable (status r)] \/
    log r = [Ev ForceClear TPM_SUCCESS; Ev SetEnable TPM_SUCCESS;
             Ev (SetDeactivated 0) (status r)])) \/
  (status r = TPM_SUCCESS /\
   log r = [Ev ForceClear TPM_SUCCESS; Ev SetEnable TPM_SUCCESS;
            Ev (SetDeactivated 0) TPM_SUCCESS]).
Proof.
  unfold TPMClearAndReenable, TlclForceClear, TlclSetEnable,
    TlclSetDeactivated.
  unfold_monad. split_run; subst; simpl; auto 6.
Qed.

(** The first command of SafeWrite is the write itself. *)
Lemma SafeWrite_first index data length s :
  exists rest,
    log (SafeWrite index data length s) =
    Ev (Write index data length)
       (status (TlclWrite index data length s)) :: rest.
Proof.
  unfold SafeWrite, TPMClearAndReenable, TlclForceClear, TlclSetEnable,
    TlclSetDeactivated, TlclWrite.
  unfold_monad. split_run; subst; simpl; eauto.
Qed.

Lemma SafeWrite_cases index data length s :
  SafeWrite_outcome index data length
    (status (SafeWrite index data length s))
    (log (SafeWrite index data length s)).
Proof.
  unfold SafeWrite, TPMClearAndReenable, TlclForceClear, TlclSetEnable,
    TlclSetDeactivated, TlclWrite.
  unfold_monad. split_run; subst; simpl; try congruence;
    first [ by apply SafeWrite_plain
          | by apply SafeWrite_ForceClear_failed
          | by apply SafeWrite_SetEnable_failed
          | by apply SafeWrite_SetDeactivated_failed
          | by apply SafeWrite_retried ].
Qed.
End Helpers.

Section SafeWriteClaims.
Context {tpm : Type} {T : Tlcl tpm} {K : Constants}.
Implicit Types s : machine tpm.

(** C7 (amended): SafeWrite starts with the write.  If the write answers
    anything but MaxNVWrites, that status is returned and nothing else is
    issued.  If it answers MaxNVWrites, the clear sequence ForceClear,
    SetEnable, SetDeactivated(0) is started; the first step that fails
    ends SafeWrite with that step's status and without a retry; when all
    three succeed the write is retried exactly once and the status of the
    retry is returned, whatever it is. *)
Theorem SafeWrite_retry_policy index data length s :
  SafeWrite_outcome index data length
    (status (SafeWrite index data length s))
    (log (SafeWrite index data length s))
  /\ hd_error (log (SafeWrite index data length s)) =
     Some (Ev (Write index data length)
              (status (TlclWrite index data length s))).
Proof.
  split; [apply SafeWrite_cases|].
  destruct (SafeWrite_first index data length s) as [rest ->].
  reflexivity.
Qed.

(** C10: GetSpacesInitialized issues one read of TPM_IS_INITIALIZED.  If
    the read succeeds the result is success with [*initialized] = 1; if it
    answers BadIndex the result is success with [*initialized] = 0; any
    other status is returned and [*initialized] keeps its value. *)
Theorem GetSpacesInitialized_cases initialized s :
  TPM_E_BADINDEX <> TPM_SUCCESS ->
  let rd := TlclRead TPM_IS_INITIALIZED_NV_INDEX sizeof_uint32 s in
  let r := GetSpacesInitialized initialized s in
  final r = final rd
  /\ log r =
     [Ev (Read TPM_IS_INITIALIZED_NV_INDEX sizeof_uint32) (status rd).1]
  /\ ((status rd).1 = TPM_SUCCESS -> status r = (TPM_SUCCESS, 1))
  /\ ((status rd).1 = TPM_E_BADINDEX -> status r = (TPM_SUCCESS, 0))
  /\ ((status rd).1 <> TPM_SUCCESS -> (status rd).1 <> TPM_E_BADINDEX ->
      status r = ((status rd).1, initialized)).
Proof.
  intros Hbad. unfold GetSpacesInitialized, TlclRead.
  unfold_monad. split_run; subst; simpl; repeat split; congruence.
Qed.
End SafeWriteClaims.

Section SafeWriteExamples.
Local Existing Instance ref_tlcl.
Local Existing Instance vboot_constants.

(** C7, as stated, fails: when the write answers MaxNVWrites and
    ForceClear fails, SafeWrite returns the status of ForceClear; it
    neither completes the clear sequence nor retries the write. *)
Lemma SafeWrite_no_retry_after_failed_clear :
  let r := SafeWrite FIRMWARE_VERSIONS_NV_INDEX (uint32_bytes 7)
             sizeof_uint32 (boot worn_out_tpm) in
  (status (TlclWrite FIRMWARE_VERSIONS_NV_INDEX (uint32_bytes 7)
             sizeof_uint32 (boot worn_out_tpm)) = TPM_E_MAXNVWRITES
   /\ status r = 1
   /\ log r = [Ev (Write FIRMWARE_VERSIONS_NV_INDEX (uint32_bytes 7)
                    sizeof_uint32) TPM_E_MAXNVWRITES;
               Ev ForceClear 1])
  /\ ~ SafeWrite_outcome_as_stated FIRMWARE_VERSIONS_NV_INDEX
        (uint32_bytes 7) sizeof_uint32 (status r) (log r).
Proof.
  split; [by vm_compute|].
  vm_compute. intros H. inversion H.
Qed.

Lemma GetSpacesInitialized_cases_witness :
  TPM_E_BADINDEX <> TPM_SUCCESS
  /\ status (GetSpacesInitialized 5 (boot ref_empty)) = (TPM_SUCCESS, 0).
Proof.
  split; [by vm_compute|].
  apply (GetSpacesInitialized_cases 5 (boot ref_empty)); by vm_compute.
Defined.
End SafeWriteExamples.

(** ** The combined version written by the Write functions *)

Section CombinedVersion.
Context {tpm : Type} {T : Tlcl tpm} {K : Constants}.
Implicit Types s : machine tpm.

Lemma to_int32_low_bits z i :
  0 <= i < 16 -> Z.testbit (to_int32 (Z.shiftl z 16)) i = false.
Proof.
  intros Hi. unfold to_int32.
  rewrite <- (Z.mod_pow2_bits_low _ 16) by lia.
  replace (((Z.shiftl z 16 + 2 ^ 31) mod 2 ^ 32 - 2 ^ 31) mod 2 ^ 16)
    with 0; [apply Z.bits_0|].
  rewrite Z.shiftl_mul_pow2 by lia.
  pose proof (Z.div_mod (z * 2 ^ 16 + 2 ^ 31) (2 ^ 32) ltac:(lia)) as Hd.
  set (q := (z * 2 ^ 16 + 2 ^ 31) / 2 ^ 32) in *.
  replace ((z * 2 ^ 16 + 2 ^ 31) mod 2 ^ 32 - 2 ^ 31)
    with ((z - q * 2 ^ 16) * 2 ^ 16) by lia.
  by rewrite Z.mod_mul.
Qed.

Lemma combined_version_zero key_version version :
  0 <= version < 2 ^ 16 -> combined_version key_version version = 0.
Proof.
  intros Hv. unfold combined_version.
  replace (Z.land (to_int32 (Z.shiftl key_version 16)) version) with 0;
    [reflexivity|].
  symmetry. apply Z.bits_inj'. intros i Hi.
  rewrite Z.land_spec, Z.bits_0.
  destruct (Z.lt_ge_cases i 16).
  - rewrite to_int32_low_bits by lia. reflexivity.
  - rewrite (Z.bits_above_log2 version i), andb_false_r; [done|lia|].
    destruct (Z.eq_dec version 0) as [->|]; [simpl; lia|].
    apply Z.log2_lt_pow2; [lia|].
    apply Z.lt_le_trans with (2 ^ 16); [lia|].
    apply Z.pow_le_mono_r; lia.
Qed.

(** C1 (what the code does): for all 16-bit arguments the value handed
    to SafeWrite by RollbackFirmwareWrite, and by RollbackKernelWrite
    outside recovery mode, is 0, because the two halves are combined
    with a bitwise AND; it is not (key_version << 16) | version. *)
Theorem Rollback_Write_writes_zero key_version version s :
  0 <= key_version < 2 ^ 16 ->
  0 <= version < 2 ^ 16 ->
  RollbackFirmwareWrite key_version version s =
    SafeWrite FIRMWARE_VERSIONS_NV_INDEX (uint32_bytes 0) sizeof_uint32 s
  /\ (g_rollback_recovery_mode s = 0 ->
      RollbackKernelWrite key_version version s =
        SafeWrite KERNEL_VERSIONS_NV_INDEX (uint32_bytes 0)
          sizeof_uint32 s).
Proof.
  intros _ Hv. unfold RollbackFirmwareWrite, RollbackKernelWrite.
  rewrite (combined_version_zero _ _ Hv). split; [reflexivity|].
  intros Hg. rewrite run_bind. unfold get_recovery_mode at 1 2 3.
  unfold status, final, log; simpl. rewrite Hg. simpl.
  by destruct (SafeWrite _ _ _ s) as [[r s'] e].
Qed.
End CombinedVersion.

Section CombinedVersionExamples.
Local Existing Instance ref_tlcl.
Local Existing Instance vboot_constants.

Lemma Rollback_Write_writes_zero_witness :
  log (RollbackFirmwareWrite 1 2 (boot provisioned_tpm)) =
    [Ev (Write FIRMWARE_VERSIONS_NV_INDEX [x00; x00; x00; x00] 4)
        TPM_SUCCESS]
  /\ log (RollbackKernelWrite 1 2 (boot provisioned_tpm)) =
    [Ev (Write KERNEL_VERSIONS_NV_INDEX [x00; x00; x00; x00] 4)
        TPM_SUCCESS]
  /\ uint32_bytes (Z.lor (Z.shiftl 1 16) 2) = [x02; x00; x01; x00].
Proof.
  destruct (Rollback_Write_writes_zero 1 2 (boot provisioned_tpm))
    as [Hf Hk]; [lia | lia |].
  rewrite Hf, Hk by reflexivity.
  repeat split; by vm_compute.
Defined.
End CombinedVersionExamples.

(** ** What the functions touch *)

Section Respects.
Context {tpm : Type} {T : Tlcl tpm} {K : Constants}.
Context (G : Z -> Z -> Prop) `{!PreOrder G} (P : tlcl_cmd -> Prop).
Implicit Types s : machine tpm.

Lemma respects_ret {A} (a : A) : respects G P (ret (tpm:=tpm) a).
Proof. intros s. split; [reflexivity | constructor]. Qed.

Lemma respects_bind {A B} (m : M tpm A) (k : A -> M tpm B) :
  respects G P m -> (forall a, respects G P (k a)) ->
  respects G P (bind m k).
Proof.
  intros Hm Hk s. rewrite run_bind. unfold final at 1, log at 1. simpl.
  destruct (Hm s) as [Hg1 Hl1].
  destruct (Hk (status (m s)) (final (m s))) as [Hg2 Hl2].
  split; [by etrans | by apply Forall_app].
Qed.

Lemma respects_call c : P c -> respects G P (call c).
Proof.
  intros Hc s. rewrite run_call. unfold final, log. simpl.
  split; [reflexivity | by repeat constructor].
Qed.

Lemma respects_status_of c : P c -> respects G P (status_of c).
Proof.
  intros Hc. apply respects_bind; [by apply respects_call|].
  intros a. apply respects_ret.
Qed.

Lemma respects_no_out (c : M tpm Z) :
  respects G P c -> respects G P (no_out c).
Proof.
  intros Hc. apply respects_bind; [done|]. intros a. apply respects_ret.
Qed.

Lemma respects_rof {A B} (c : M tpm (Z * A)) (early : Z -> B) k :
  respects G P c -> (forall a, respects G P (k a)) ->
  respects G P (return_on_failure c early k).
Proof.
  intros Hc Hk. apply respects_bind; [done|]. intros r.
  destruct (fst r =? TPM_SUCCESS); [apply Hk | apply respects_ret].
Qed.

Lemma respects_if {A} (b : bool) (m1 m2 : M tpm A) :
  respects G P m1 -> respects G P m2 ->
  respects G P (if b then m1 else m2).
Proof. by destruct b. Qed.

Lemma respects_get : respects G P (get_recovery_mode (tpm:=tpm)).
Proof. intros s. split; [reflexivity | constructor]. Qed.
End Respects.

(** Break a function body into its commands; what is left is to show that
    each command is allowed. *)
Ltac respects_step :=
  first
    [ match goal with |- PreOrder _ => exact _ end
    | apply respects_ret
    | apply respects_get
    | apply respects_rof
    | apply respects_no_out
    | apply respects_bind
    | apply respects_status_of
    | match goal with
      | |- respects ?G ?P (call ?c) => apply (respects_call G P c)
      end
    | apply respects_if ].

Ltac respects_with known :=
  unfold TlclLibInit, TlclStartup, TlclContinueSelfTest,
    TlclAssertPhysicalPresence, TlclGetFlags, TlclSetEnable,
    TlclSetDeactivated, TlclForceClear, TlclSetNvLocked, TlclDefineSpace,
    TlclWrite, TlclRead, TlclGetPermissions, TlclSetGlobalLock,
    TlclLockPhysicalPresence;
  repeat (intros; cbv beta zeta; first [known | respects_step]).

#[local] Instance may_set_preorder : PreOrder may_set.
Proof.
  split.
  - intros g. by left.
  - intros x y z [->| ->] [->| ->]; unfold may_set; auto.
Qed.

Section RespectsCode.
Context {tpm : Type} {T : Tlcl tpm} {K : Constants}.
Context (G : Z -> Z -> Prop) `{!PreOrder G} (P : tlcl_cmd -> Prop).
Context (HP : forall c, c <> SetGlobalLock -> c <> LockPhysicalPresence ->
                        P c).
Implicit Types s : machine tpm.

Local Ltac allowed := apply HP; discriminate.

Lemma TPMClearAndReenable_respects : respects G P TPMClearAndReenable.
Proof. unfold TPMClearAndReenable. respects_with allowed. Qed.

Local Ltac known1 :=
  first [apply TPMClearAndReenable_respects | allowed].

Lemma SafeWrite_respects index data length :
  respects G P (SafeWrite index data length).
Proof. unfold SafeWrite. respects_with known1. Qed.

Local Ltac known2 := first [apply SafeWrite_respects | known1].

Lemma GetSpacesInitialized_respects initialized :
  respects G P (GetSpacesInitialized initialized).
Proof. unfold GetSpacesInitialized. respects_with allowed. Qed.

Lemma InitializeSpaces_respects : respects G P InitializeSpaces.
Proof.
  unfold InitializeSpaces, InitializeKernelVersionsSpaces.
  respects_with known2.
Qed.

Lemma SetDistrustKernelSpaceAtNextBoot_respects distrust :
  respects G P (SetDistrustKernelSpaceAtNextBoot distrust).
Proof. unfold SetDistrustKernelSpaceAtNextBoot. respects_with known2. Qed.

Lemma RecoverKernelSpace_respects : respects G P RecoverKernelSpace.
Proof. unfold RecoverKernelSpace. respects_with known2. Qed.

Lemma BackupKernelSpace_respects : respects G P BackupKernelSpace.
Proof. unfold BackupKernelSpace. respects_with known2. Qed.

Lemma CheckDeveloperModeTransition_respects current_developer :
  respects G P (CheckDeveloperModeTransition current_developer).
Proof. unfold CheckDeveloperModeTransition. respects_with known2. Qed.

Lemma SetupTPM_tail_respects recovery_mode developer_mode :
  (recovery_mode <> 0 -> forall g, G g 1) ->
  respects G P (SetupTPM_tail recovery_mode developer_mode).
Proof.
  intros Hset. unfold SetupTPM_tail.
  apply respects_rof;
    [done | by apply respects_no_out, BackupKernelSpace_respects
    | intros _].
  apply respects_rof;
    [done
    | by apply respects_no_out, SetDistrustKernelSpaceAtNextBoot_respects
    | intros _].
  apply respects_rof;
    [done
    | by apply respects_no_out, CheckDeveloperModeTransition_respects
    | intros _].
  apply respects_bind; [done| |intros; by apply respects_ret].
  destruct (Z.eqb_spec recovery_mode 0) as [|Hne]; simpl;
    [by apply respects_ret|].
  intros s. split; [apply (Hset Hne) | constructor].
Qed.

Lemma SetupTPM_respects recovery_mode developer_mode :
  (recovery_mode <> 0 -> forall g, G g 1) ->
  respects G P (SetupTPM recovery_mode developer_mode).
Proof.
  intros Hset. unfold SetupTPM.
  respects_with
    ltac:(first [ by apply SetupTPM_tail_respects
                | apply RecoverKernelSpace_respects
                | apply InitializeSpaces_respects
                | apply GetSpacesInitialized_respects
                | allowed ]).
Qed.
End RespectsCode.

(** ** The recovery-mode flag and RollbackKernelRecovery *)

Section RecoveryMode.
Context {tpm : Type} {T : Tlcl tpm} {K : Constants}.
Implicit Types s : machine tpm.

Lemma keeps_flag {A} (m : M tpm A) s :
  respects eq any_cmd m ->
  g_rollback_recovery_mode (final (m s)) = g_rollback_recovery_mode s.
Proof. intros H. by destruct (H s) as [<- _]. Qed.

Lemma SetupTPM_flag recovery_mode developer_mode s :
  g_rollback_recovery_mode (final (SetupTPM recovery_mode developer_mode s))
    <> g_rollback_recovery_mode s ->
  recovery_mode <> 0
  /\ g_rollback_recovery_mode
       (final (SetupTPM recovery_mode developer_mode s)) = 1.
Proof.
  intros Hne. destruct (Z.eq_dec recovery_mode 0) as [->|Hrec].
  - exfalso. apply Hne. apply keeps_flag.
    apply SetupTPM_respects; [exact _ | done | done].
  - split; [done|].
    destruct (SetupTPM_respects may_set any_cmd ltac:(done)
                recovery_mode developer_mode ltac:(by right) s)
      as [[Hg|Hg] _]; [by symmetry in Hg | done].
Qed.

(** C5: while the recovery-mode flag is set, RollbackKernelRead answers
    success with both versions 0, RollbackKernelWrite and
    RollbackKernelLock answer success, and none of the three issues a TPM
    command or changes the machine.  The flag changes only in SetupTPM
    called with a non-zero recovery argument, where it becomes 1; among
    the functions of the interface only RollbackKernelRecovery changes
    it. *)
Theorem recovery_mode_flag_effect :
  (forall s key_version version,
     g_rollback_recovery_mode s <> 0 ->
     RollbackKernelRead key_version version s =
       ((TPM_SUCCESS, (0, 0)), s, [])
     /\ RollbackKernelWrite key_version version s = (TPM_SUCCESS, s, [])
     /\ RollbackKernelLock s = (TPM_SUCCESS, s, []))
  /\ (forall recovery_mode developer_mode s,
        g_rollback_recovery_mode
          (final (SetupTPM recovery_mode developer_mode s))
          <> g_rollback_recovery_mode s ->
        recovery_mode <> 0
        /\ g_rollback_recovery_mode
             (final (SetupTPM recovery_mode developer_mode s)) = 1)
  /\ (forall a s,
        g_rollback_recovery_mode (run_api a s)
          <> g_rollback_recovery_mode s ->
        exists developer_mode, a = CallRollbackKernelRecovery developer_mode).
Proof.
  split; [|split].
  - intros s kv v Hg.
    unfold RollbackKernelRead, RollbackKernelWrite, RollbackKernelLock.
    rewrite !run_bind. unfold get_recovery_mode, status, final, log; simpl.
    destruct (Z.eqb_spec (g_rollback_recovery_mode s) 0); [done|].
    simpl. by rewrite ?app_nil_r.
  - apply SetupTPM_flag.
  - intros a s Hne.
    assert (Hall : forall c : tlcl_cmd,
               c <> SetGlobalLock -> c <> LockPhysicalPresence -> any_cmd c)
      by done.
    destruct a; simpl in Hne; eauto; exfalso; apply Hne; apply keeps_flag.
    + apply RecoverKernelSpace_respects; [exact _ | done].
    + apply SetupTPM_respects; [exact _ | done | done].
    + unfold RollbackFirmwareRead. respects_with ltac:(exact I).
    + unfold RollbackFirmwareWrite.
      apply SafeWrite_respects; [exact _ | done].
    + unfold RollbackFirmwareLock. respects_with ltac:(exact I).
    + unfold RollbackKernelRead. respects_with ltac:(exact I).
    + unfold RollbackKernelWrite.
      respects_with
        ltac:(first [ apply SafeWrite_respects; [exact _ | done]
                    | exact I ]).
    + unfold RollbackKernelLock. respects_with ltac:(exact I).
Qed.

(** C6: RollbackKernelRecovery runs SetupTPM with recovery = 1 and drops
    its status.  SetupTPM itself never issues SetGlobalLock.  With
    developer_mode = 0 the only further command is SetGlobalLock, whose
    status is the result; otherwise there is no further command and the
    result is success. *)
Theorem RollbackKernelRecovery_ignores_SetupTPM developer_mode s :
  let setup := SetupTPM 1 developer_mode s in
  let lock := TlclSetGlobalLock (final setup) in
  Forall (fun e => ev_cmd e <> SetGlobalLock) (log setup)
  /\ (developer_mode = 0 ->
      RollbackKernelRecovery developer_mode s =
        (status lock, final lock,
         log setup ++ [Ev SetGlobalLock (status lock)]))
  /\ (developer_mode <> 0 ->
      RollbackKernelRecovery developer_mode s =
        (TPM_SUCCESS, final setup, log setup)).
Proof.
  intros setup lock. split; [|split].
  - destruct (SetupTPM_respects may_set not_a_lock ltac:(done)
                1 developer_mode ltac:(by right) s) as [_ Hl].
    eapply Forall_impl; [exact Hl|]. by intros e [? _].
  - intros ->. unfold RollbackKernelRecovery. rewrite run_bind.
    fold setup. simpl.
    unfold lock, TlclSetGlobalLock. unfold_monad.
    destruct (tlcl_exec SetGlobalLock _) as [[rc o] t]; simpl.
    destruct (Z.eqb_spec rc TPM_SUCCESS) as [->|]; by rewrite ?app_nil_r.
  - intros Hdev. unfold RollbackKernelRecovery. rewrite run_bind.
    fold setup. destruct (Z.eqb_spec developer_mode 0); [done|].
    unfold ret, status, final, log; simpl. by rewrite app_nil_r.
Qed.
End RecoveryMode.

(** ** SetupTPM: the enable and activate check *)

(** One successful command under RETURN_ON_FAILURE, given the answer [E]
    of the device. *)
Ltac exec_ok c E :=
  erewrite rof_ok
    by (first [eapply (exec_status_of c) | eapply (exec_call c)]; exact E);
  cbn [status final log fst snd app tpm_state g_rollback_recovery_mode].

Ltac read_ok E :=
  erewrite rof_ok by (eapply exec_TlclRead; exact E);
  cbn [status final log fst snd app tpm_state g_rollback_recovery_mode].

Section MustReboot.
Context {tpm : Type} {T : Tlcl tpm} {K : Constants}.
Implicit Types s : machine tpm.

Lemma Z_of_byte_zero b : Z_of_byte b = 0 <-> b = x00.
Proof. split; [|by intros ->]. by destruct b. Qed.

Lemma rof_log_prefix {A B} (c : M tpm (Z * A)) (early : Z -> B) k s :
  exists rest, log (return_on_failure c early k s) = log (c s) ++ rest.
Proof.
  unfold return_on_failure. rewrite run_bind. unfold log at 1. simpl.
  eauto.
Qed.

Lemma RecoverKernelSpace_first s :
  exists rc rest,
    log (RecoverKernelSpace s) =
    Ev (Read KERNEL_MUST_USE_BACKUP_NV_INDEX sizeof_uint32) rc :: rest.
Proof.
  unfold RecoverKernelSpace. cbv zeta.
  match goal with
  | |- context [return_on_failure ?c ?e ?k s] =>
      destruct (rof_log_prefix c e k s) as [rest ->]
  end.
  unfold TlclRead. rewrite run_bind, run_call.
  unfold log, ret; simpl. eauto.
Qed.

(** C8 (amended): once Startup, ContinueSelfTest, AssertPhysicalPresence
    and GetFlags have succeeded: if GetFlags reports disable or
    deactivated, the next command is SetEnable; if SetEnable fails its
    status is returned and SetDeactivated is not called; if it succeeds
    SetDeactivated(0) follows as the last command, and its failure is
    returned; when both succeed SetupTPM returns MustReboot having issued
    nothing else and leaving the recovery flag alone.  If GetFlags reports
    neither flag, the command after GetFlags is the first read of
    RecoverKernelSpace. *)
Theorem SetupTPM_enable_check recovery_mode developer_mode g
    (t0 t1 t2 t3 t4 t5 : tpm) r0 (disable deactivated : byte) :
  tlcl_exec LibInit t0 = (r0, tt, t1) ->
  tlcl_exec Startup t1 = (TPM_SUCCESS, tt, t2) ->
  tlcl_exec ContinueSelfTest t2 = (TPM_SUCCESS, tt, t3) ->
  tlcl_exec AssertPhysicalPresence t3 = (TPM_SUCCESS, tt, t4) ->
  tlcl_exec GetFlags t4 = (TPM_SUCCESS, (disable, deactivated), t5) ->
  let prologue :=
    [Ev LibInit r0; Ev Startup TPM_SUCCESS; Ev ContinueSelfTest TPM_SUCCESS;
     Ev AssertPhysicalPresence TPM_SUCCESS; Ev GetFlags TPM_SUCCESS] in
  let run := SetupTPM recovery_mode developer_mode (Machine t0 g) in
  (disable <> x00 \/ deactivated <> x00 ->
   (exists rc rest, log run = prologue ++ Ev SetEnable rc :: rest)
   /\ (forall t6,
        tlcl_exec SetEnable t5 = (TPM_SUCCESS, tt, t6) ->
        exists rc,
          log run = prologue ++ [Ev SetEnable TPM_SUCCESS;
                                 Ev (SetDeactivated 0) rc])
   /\ (forall t6 t7,
        tlcl_exec SetEnable t5 = (TPM_SUCCESS, tt, t6) ->
        tlcl_exec (SetDeactivated 0) t6 = (TPM_SUCCESS, tt, t7) ->
        run = (TPM_E_MUST_REBOOT, Machine t7 g,
               prologue ++ [Ev SetEnable TPM_SUCCESS;
                            Ev (SetDeactivated 0) TPM_SUCCESS]))
   /\ (forall rc t6,
        tlcl_exec SetEnable t5 = (rc, tt, t6) -> rc <> TPM_SUCCESS ->
        run = (rc, Machine t6 g, prologue ++ [Ev SetEnable rc]))
   /\ forall t6 rc t7,
        tlcl_exec SetEnable t5 = (TPM_SUCCESS, tt, t6) ->
        tlcl_exec (SetDeactivated 0) t6 = (rc, tt, t7) ->
        rc <> TPM_SUCCESS ->
        run = (rc, Machine t7 g,
               prologue ++ [Ev SetEnable TPM_SUCCESS;
                            Ev (SetDeactivated 0) rc]))
  /\ (disable = x00 -> deactivated = x00 ->
      exists rc rest,
        log run =
        prologue
        ++ Ev (Read KERNEL_MUST_USE_BACKUP_NV_INDEX sizeof_uint32) rc
           :: rest).
Proof.
  intros E0 E1 E2 E3 E4 prologue run. subst prologue run.
  unfold SetupTPM, TlclStartup, TlclContinueSelfTest,
    TlclAssertPhysicalPresence, TlclGetFlags, TlclSetEnable,
    TlclSetDeactivated.
  rewrite run_bind, (exec_LibInit (Machine t0 g) _ _ _ E0).
  cbn [status final log fst snd app tpm_state g_rollback_recovery_mode].
  exec_ok Startup E1. exec_ok ContinueSelfTest E2.
  exec_ok AssertPhysicalPresence E3. exec_ok GetFlags E4.
  split.
  - intros Hflag.
    assert (Hb : negb (Z_of_byte disable =? 0)
                 || negb (Z_of_byte deactivated =? 0) = true).
    { apply orb_true_iff.
      destruct Hflag as [H|H]; [left|right]; apply negb_true_iff;
        apply Z.eqb_neq; by rewrite Z_of_byte_zero. }
    rewrite Hb. split; [|split; [|split; [|split]]].
    + match goal with
      | |- context [return_on_failure ?c ?e ?k ?s] =>
          destruct (rof_log_prefix c e k s) as [rest ->]
      end.
      rewrite run_no_out, run_status_of. cbn [log snd app]. eauto.
    + intros t6 E5. exec_ok SetEnable E5.
      unfold return_on_failure.
      rewrite run_bind, run_no_out, run_status_of.
      cbn [status final log fst snd app].
      destruct (_ =? TPM_SUCCESS); unfold ret; cbn [snd app]; eauto.
    + intros t6 t7 E5 E6.
      exec_ok SetEnable E5. exec_ok (SetDeactivated 0) E6.
      reflexivity.
    + intros rc t6 E5 Hrc.
      erewrite rof_fail;
        [reflexivity | eapply (exec_status_of SetEnable); exact E5 | done].
    + intros t6 rc t7 E5 E6 Hrc. exec_ok SetEnable E5.
      erewrite rof_fail;
        [reflexivity
        | eapply (exec_status_of (SetDeactivated 0)); exact E6 | done].
  - intros -> ->.
    change (negb (Z_of_byte "000" =? 0) || negb (Z_of_byte "000" =? 0))
      with false. cbv iota.
    destruct (RecoverKernelSpace_first (Machine t5 g)) as (rc & rest & Hl).
    rewrite run_bind. unfold log in *. cbn [snd]. rewrite Hl.
    cbn [app]. eauto.
Qed.
End MustReboot.

(** ** InitializeSpaces: the tombstone comes last *)

Section Tombstone.
Context {tpm : Type} {T : Tlcl tpm} {K : Constants}.
Context (Hfresh : tombstone_index_fresh).
Implicit Types s : machine tpm.

Lemma finishes_step (c k : M tpm Z) (done new : list event) :
  (forall s, Forall before_tombstone (log (c s))) ->
  (forall s, status (c s) = TPM_SUCCESS -> sublist new (log (c s))) ->
  finishes_provisioning k (done ++ new) ->
  finishes_provisioning (RETURN_ON_FAILURE (c);; k) done.
Proof.
  intros Hlog Hnew Hk s acc Hacc Hdone.
  destruct (Z.eq_dec (status (c s)) TPM_SUCCESS) as [Hok|Hfail].
  - erewrite rof_ok; last first.
    { rewrite run_no_out, Hok. reflexivity. }
    cbn [status log fst snd]. rewrite app_assoc.
    apply Hk; [by apply Forall_app | by apply sublist_app; auto].
  - erewrite rof_fail; [|by rewrite run_no_out|done].
    cbn [status log fst snd].
    exists (acc ++ log (c s)). split; [by apply Forall_app | by left].
Qed.

Lemma finishes_tombstone :
  finishes_provisioning
    (RETURN_ON_FAILURE
       (TlclDefineSpace TPM_IS_INITIALIZED_NV_INDEX
          (Z.lor TPM_NV_PER_GLOBALLOCK TPM_NV_PER_PPWRITE) sizeof_uint32);;
     ret TPM_SUCCESS)
    provisioning_log.
Proof.
  intros s acc Hacc Hdone. unfold TlclDefineSpace.
  unfold_monad.
  destruct (tlcl_exec _ _) as [[rc o] t]; simpl.
  exists acc. split; [done|]. right.
  destruct (Z.eqb_spec rc TPM_SUCCESS) as [->|]; simpl;
    by rewrite ?app_nil_r.
Qed.

Lemma TlclDefineSpace_log index perm size s :
  log (TlclDefineSpace index perm size s) =
  [Ev (DefineSpace index perm size)
      (status (TlclDefineSpace index perm size s))].
Proof.
  unfold TlclDefineSpace. rewrite run_status_of. reflexivity.
Qed.

Lemma SafeWrite_before_tombstone index data length s :
  index <> TPM_IS_INITIALIZED_NV_INDEX ->
  Forall before_tombstone (log (SafeWrite index data length s)).
Proof.
  intros Hne.
  destruct (SafeWrite_cases index data length s);
    repeat constructor; unfold before_tombstone; simpl; auto.
Qed.

Lemma SafeWrite_success_log index data length s :
  status (SafeWrite index data length s) = TPM_SUCCESS ->
  sublist [Ev (Write index data length) TPM_SUCCESS]
    (log (SafeWrite index data length s)).
Proof.
  intros Hok.
  destruct (SafeWrite_cases index data length s) as [rc| | | |rc];
    try done; subst rc.
  - reflexivity.
  - do 4 apply sublist_cons. reflexivity.
Qed.

Lemma finishes_define index perm size k done :
  index <> TPM_IS_INITIALIZED_NV_INDEX ->
  finishes_provisioning k
    (done ++ [Ev (DefineSpace index perm size) TPM_SUCCESS]) ->
  finishes_provisioning
    (RETURN_ON_FAILURE (TlclDefineSpace index perm size);; k) done.
Proof.
  intros Hne. apply finishes_step.
  - intros s. rewrite TlclDefineSpace_log.
    repeat constructor. unfold before_tombstone. simpl. done.
  - intros s Hok. rewrite TlclDefineSpace_log, Hok. reflexivity.
Qed.

Lemma finishes_write index data length k done :
  index <> TPM_IS_INITIALIZED_NV_INDEX ->
  finishes_provisioning k
    (done ++ [Ev (Write index data length) TPM_SUCCESS]) ->
  finishes_provisioning
    (RETURN_ON_FAILURE (SafeWrite index data length);; k) done.
Proof.
  intros Hne. apply finishes_step.
  - intros s. by apply SafeWrite_before_tombstone.
  - apply SafeWrite_success_log.
Qed.

Lemma finishes_kernel_versions k done :
  finishes_provisioning k
    (done ++ [Ev (DefineSpace KERNEL_VERSIONS_NV_INDEX TPM_NV_PER_PPWRITE
                    KERNEL_SPACE_SIZE) TPM_SUCCESS;
              Ev (Write KERNEL_VERSIONS_NV_INDEX KERNEL_SPACE_INIT_DATA
                    KERNEL_SPACE_SIZE) TPM_SUCCESS]) ->
  finishes_provisioning
    (RETURN_ON_FAILURE (InitializeKernelVersionsSpaces);; k) done.
Proof.
  destruct Hfresh as (_ & Hkv & _).
  assert (Hrun : forall s,
    let r := InitializeKernelVersionsSpaces s in
    Forall before_tombstone (log r)
    /\ (status r = TPM_SUCCESS ->
        sublist [Ev (DefineSpace KERNEL_VERSIONS_NV_INDEX TPM_NV_PER_PPWRITE
                       KERNEL_SPACE_SIZE) TPM_SUCCESS;
                 Ev (Write KERNEL_VERSIONS_NV_INDEX KERNEL_SPACE_INIT_DATA
                       KERNEL_SPACE_SIZE) TPM_SUCCESS] (log r))).
  { intros s.
    pose proof (finishes_define KERNEL_VERSIONS_NV_INDEX TPM_NV_PER_PPWRITE
                  KERNEL_SPACE_SIZE) as Hd.
    unfold InitializeKernelVersionsSpaces; cbv zeta.
    set (c1 := TlclDefineSpace _ _ _).
    destruct (Z.eq_dec (status (c1 s)) TPM_SUCCESS) as [H1|H1].
    2:{ erewrite rof_fail; [|by rewrite run_no_out|done].
        cbn [status log fst snd]. subst c1. rewrite TlclDefineSpace_log.
        split; [|done]. repeat constructor. unfold before_tombstone.
        simpl. done. }
    erewrite rof_ok; last first.
    { rewrite run_no_out, H1. reflexivity. }
    cbn [status log fst snd].
    set (s1 := final (c1 s)). set (c2 := SafeWrite _ _ _).
    assert (Hl1 : log (c1 s) =
                  [Ev (DefineSpace KERNEL_VERSIONS_NV_INDEX
                         TPM_NV_PER_PPWRITE KERNEL_SPACE_SIZE) TPM_SUCCESS]).
    { subst c1. by rewrite TlclDefineSpace_log, H1. }
    rewrite Hl1.
    destruct (Z.eq_dec (status (c2 s1)) TPM_SUCCESS) as [H2|H2].
    2:{ erewrite rof_fail; [|by rewrite run_no_out|done].
        cbn [status log fst snd]. split; [|done].
        constructor; [unfold before_tombstone; simpl; done|].
        by apply SafeWrite_before_tombstone. }
    erewrite rof_ok; last first.
    { rewrite run_no_out, H2. reflexivity. }
    unfold ret. cbn [status log fst snd]. rewrite app_nil_r. split.
    - constructor; [unfold before_tombstone; simpl; done|].
      by apply SafeWrite_before_tombstone.
    - intros _. apply sublist_skip. by apply SafeWrite_success_log. }
  apply finishes_step; intros s; by destruct (Hrun s).
Qed.

Lemma InitializeSpaces_tombstone_last s :
  tombstone_last (log (InitializeSpaces s)) (status (InitializeSpaces s)).
Proof.
  destruct Hfresh as (Hfw & Hkv & Hkb & Hmu & Hdev).
  change (log (InitializeSpaces s)) with ([] ++ log (InitializeSpaces s)).
  revert s. cut (finishes_provisioning InitializeSpaces []).
  { intros H s. apply H; [constructor | reflexivity]. }
  unfold InitializeSpaces; cbv zeta.
  apply finishes_step with (new := []).
  { intros s. unfold TlclSetNvLocked. rewrite run_status_of.
    repeat constructor. unfold before_tombstone. simpl. tauto. }
  { intros. apply sublist_nil_l. }
  rewrite app_nil_r.
  apply finishes_define; [done|]. apply finishes_write; [done|].
  apply finishes_kernel_versions.
  apply finishes_define; [done|]. apply finishes_write; [done|].
  apply finishes_define; [done|]. apply finishes_write; [done|].
  apply finishes_define; [done|]. apply finishes_write; [done|].
  repeat rewrite <- app_assoc. apply finishes_tombstone.
Qed.

Lemma tombstone_split (pre pre' post : list event) (E E' : event) :
  Forall before_tombstone pre -> ~ before_tombstone E' ->
  pre' ++ E' :: post = pre ++ [E] ->
  pre' = pre /\ post = [] /\ E' = E.
Proof.
  intros Hpre HE'. revert pre'.
  induction Hpre as [|a pre0 Ha Hpre0 IH]; intros pre' Heq.
  - destruct pre' as [|x [|y l]]; simpl in Heq; simplify_eq; done.
  - destruct pre' as [|x l]; simpl in Heq; simplify_eq; [done|].
    destruct (IH l) as (-> & -> & ->); done.
Qed.
End Tombstone.

Section TombstoneClaim.
Context {tpm : Type} {T : Tlcl tpm} {K : Constants}.
Implicit Types s : machine tpm.

(** C9: InitializeSpaces never writes to TPM_IS_INITIALIZED, and wherever
    its log shows the definition of TPM_IS_INITIALIZED, that is its last
    command, the result is the status of that definition, and the log
    before it holds, in order, the successful definition and the
    successful initial write of FIRMWARE_VERSIONS, KERNEL_VERSIONS,
    KERNEL_VERSIONS_BACKUP, KERNEL_MUST_USE_BACKUP and DEVELOPER_MODE.  A
    successful InitializeSpaces ends with that definition. *)
Theorem InitializeSpaces_tombstone s :
  tombstone_index_fresh ->
  let r := InitializeSpaces s in
  (forall e data length,
     e ∈ log r ->
     ev_cmd e <> Write TPM_IS_INITIALIZED_NV_INDEX data length)
  /\ (forall pre post perm size rc,
        log r =
          pre ++ Ev (DefineSpace TPM_IS_INITIALIZED_NV_INDEX perm size) rc
              :: post ->
        post = [] /\ status r = rc /\ sublist provisioning_log pre)
  /\ (status r = TPM_SUCCESS ->
      exists pre,
        log r =
          pre ++ [Ev (DefineSpace TPM_IS_INITIALIZED_NV_INDEX
                        (Z.lor TPM_NV_PER_GLOBALLOCK TPM_NV_PER_PPWRITE)
                        sizeof_uint32) TPM_SUCCESS]).
Proof.
  intros Hfresh r.
  destruct (InitializeSpaces_tombstone_last Hfresh s)
    as (pre0 & Hpre0 & Hshape).
  fold r in Hshape.
  assert (Hdef : forall perm size rc,
            ~ before_tombstone
                (Ev (DefineSpace TPM_IS_INITIALIZED_NV_INDEX perm size) rc)).
  { intros perm size rc H. by apply H. }
  split; [|split].
  - intros e data length He Hcmd.
    assert (Hin : e ∈ pre0 -> False).
    { intros Hin. rewrite Forall_forall in Hpre0.
      apply (Hpre0 e Hin). rewrite Hcmd. reflexivity. }
    destruct Hshape as [[Hl _]|[Hl _]]; rewrite Hl in He.
    + done.
    + apply elem_of_app in He as [He|He]; [done|].
      apply list_elem_of_singleton in He. by subst e.
  - intros pre post perm size rc Hl.
    destruct Hshape as [[Hl' _]|[Hl' Hsub]]; rewrite Hl' in Hl.
    + exfalso. rewrite Forall_forall in Hpre0.
      apply (Hdef perm size rc). apply Hpre0. rewrite Hl.
      apply elem_of_app. right. by left.
    + symmetry in Hl.
      apply tombstone_split in Hl as (-> & -> & Heq); [|done|done].
      by simplify_eq.
  - intros Hok.
    destruct Hshape as [[_ Hne]|[Hl _]]; [done|].
    exists pre0. by rewrite Hl, Hok.
Qed.
End TombstoneClaim.

(** ** Bytes, words and Memcmp *)

Lemma Z_of_byte_range b : 0 <= Z_of_byte b < 256.
Proof.
  unfold Z_of_byte. pose proof (Byte.to_N_bounded b). lia.
Qed.

Lemma Z_of_byte_inj a b : Z_of_byte a = Z_of_byte b -> a = b.
Proof.
  unfold Z_of_byte. intros H. apply N2Z.inj in H.
  pose proof (Byte.of_to_N a) as Ha. rewrite H, Byte.of_to_N in Ha.
  congruence.
Qed.

Lemma Z_of_byte_of_Z z : Z_of_byte (byte_of_Z z) = z mod 256.
Proof.
  unfold Z_of_byte, byte_of_Z.
  pose proof (Z.mod_pos_bound z 256 ltac:(lia)) as Hb.
  destruct (Byte.of_N (Z.to_N (z mod 256))) as [b|] eqn:E.
  - apply Byte.to_of_N in E. rewrite E. lia.
  - apply Byte.of_N_None_iff in E. lia.
Qed.

Lemma uint32_of_bytes_range l : 0 <= uint32_of_bytes l < 2 ^ 32.
Proof.
  unfold uint32_of_bytes. rewrite !Z.shiftl_mul_pow2 by lia.
  pose proof (Z_of_byte_range (nth 0 l x00)).
  pose proof (Z_of_byte_range (nth 1 l x00)).
  pose proof (Z_of_byte_range (nth 2 l x00)).
  pose proof (Z_of_byte_range (nth 3 l x00)).
  lia.
Qed.

Lemma uint32_roundtrip x :
  0 <= x < 2 ^ 32 -> uint32_of_bytes (uint32_bytes x) = x.
Proof.
  intros Hx. unfold uint32_of_bytes, uint32_bytes. simpl nth.
  rewrite !Z_of_byte_of_Z, !Z.shiftl_mul_pow2, !Z.shiftr_div_pow2 by lia.
  change (2 ^ 8) with 256. change (2 ^ 16) with (256 * 256).
  change (2 ^ 24) with (256 * 256 * 256).
  change (2 ^ 32) with (256 * 256 * 256 * 256) in Hx.
  rewrite <- !Z.div_div by lia.
  pose proof (Z.div_mod x 256 ltac:(lia)).
  pose proof (Z.div_mod (x / 256) 256 ltac:(lia)).
  pose proof (Z.div_mod (x / 256 / 256) 256 ltac:(lia)).
  assert (0 <= x / 256 / 256 / 256 < 256).
  { split; [repeat apply Z.div_pos; lia|].
    repeat (apply Z.div_lt_upper_bound; [lia|]). lia. }
  rewrite (Z.mod_small (x / 256 / 256 / 256)) by lia. lia.
Qed.

Lemma uint32_of_bytes_take l :
  uint32_of_bytes (take 4 l) = uint32_of_bytes l.
Proof. by destruct l as [|a [|b [|c [|d l]]]]. Qed.

Lemma uint32_of_bytes_app d rest :
  length d = 4%nat -> uint32_of_bytes (d ++ rest) = uint32_of_bytes d.
Proof. by destruct d as [|a [|b [|c [|e [|f d]]]]]. Qed.

Lemma length_fill_buffer len out :
  length (fill_buffer len out) = Z.to_nat len.
Proof.
  unfold fill_buffer.
  rewrite length_take, length_app, repeat_length. lia.
Qed.

Lemma Memcmp_zero s1 s2 n :
  (n <= length s1)%nat -> (n <= length s2)%nat ->
  Memcmp s1 s2 n = 0 <-> take n s1 = take n s2.
Proof.
  revert s1 s2. induction n as [|n IH]; intros s1 s2 H1 H2; [done|].
  destruct s1 as [|a s1]; [simpl in H1; lia|].
  destruct s2 as [|b s2]; [simpl in H2; lia|].
  simpl in *. destruct (Z.eqb_spec (Z_of_byte a) (Z_of_byte b)) as [E|E].
  - apply Z_of_byte_inj in E as ->. rewrite IH by lia.
    split; [by intros -> | by intros [= ->]].
  - split; [lia | intros [= -> _]; done].
Qed.

(** ** RecoverKernelSpace *)

Section Recover.
Context {tpm : Type} {T : Tlcl tpm} {K : Constants}.
Implicit Types s : machine tpm.

Lemma uid_check buffer :
  length buffer = Z.to_nat KERNEL_SPACE_SIZE ->
  (Memcmp (drop (Z.to_nat sizeof_uint32) buffer) KERNEL_SPACE_UID
     (Z.to_nat KERNEL_SPACE_UID_SIZE) =? 0) = true
  <-> kernel_space_tag buffer = KERNEL_SPACE_UID.
Proof.
  intros Hlen. unfold kernel_space_tag, KERNEL_SPACE_SIZE,
    KERNEL_SPACE_UID_SIZE, sizeof_uint32 in *.
  rewrite Nat2Z.id. rewrite Z.eqb_eq, Memcmp_zero.
  - by rewrite firstn_all.
  - rewrite length_drop. lia.
  - done.
Qed.

(** C2 (what the code does): when the two reads and the permissions query
    succeed, RecoverKernelSpace returns CorruptedState at once if the
    permissions are not physical-presence-write or if the bytes after the
    counter are equal to KERNEL_SPACE_UID; a space with the right
    permissions whose bytes differ from KERNEL_SPACE_UID passes the
    check. *)
Theorem RecoverKernelSpace_uid_check (t0 t1 t2 t3 : tpm) g
    (out0 out1 : list byte) (perms : Z) :
  tlcl_exec (Read KERNEL_MUST_USE_BACKUP_NV_INDEX sizeof_uint32) t0
    = (TPM_SUCCESS, out0, t1) ->
  tlcl_exec (Read KERNEL_VERSIONS_NV_INDEX KERNEL_SPACE_SIZE) t1
    = (TPM_SUCCESS, out1, t2) ->
  tlcl_exec (GetPermissions KERNEL_VERSIONS_NV_INDEX) t2
    = (TPM_SUCCESS, perms, t3) ->
  let tag := kernel_space_tag (fill_buffer KERNEL_SPACE_SIZE out1) in
  let run := RecoverKernelSpace (Machine t0 g) in
  let checks :=
    [Ev (Read KERNEL_MUST_USE_BACKUP_NV_INDEX sizeof_uint32) TPM_SUCCESS;
     Ev (Read KERNEL_VERSIONS_NV_INDEX KERNEL_SPACE_SIZE) TPM_SUCCESS;
     Ev (GetPermissions KERNEL_VERSIONS_NV_INDEX) TPM_SUCCESS] in
  (perms <> TPM_NV_PER_PPWRITE \/ tag = KERNEL_SPACE_UID ->
   run = (TPM_E_CORRUPTED_STATE, Machine t3 g, checks))
  /\ (perms = TPM_NV_PER_PPWRITE -> tag <> KERNEL_SPACE_UID ->
      uint32_of_bytes (fill_buffer sizeof_uint32 out0) = 0 ->
      run = (TPM_SUCCESS, Machine t3 g, checks)).
Proof.
  intros E0 E1 E2 tag run checks. subst tag run checks.
  unfold RecoverKernelSpace; cbv zeta.
  read_ok E0. read_ok E1. exec_ok (GetPermissions KERNEL_VERSIONS_NV_INDEX) E2.
  pose proof (uid_check (fill_buffer KERNEL_SPACE_SIZE out1)
                (length_fill_buffer _ _)) as Huid.
  destruct (Memcmp _ _ _ =? 0) eqn:Hcmp.
  - split.
    + intros _. by rewrite orb_true_r.
    + intros _ Hne. exfalso. apply Hne. by apply Huid.
  - rewrite orb_false_r. split.
    + intros [Hp|Ht].
      * by destruct (Z.eqb_spec perms TPM_NV_PER_PPWRITE).
      * apply Huid in Ht. done.
    + intros -> _ ->. by rewrite Z.eqb_refl.
Qed.

(** C3 (what the code does): when the distrust flag read is non-zero and
    the checks pass, RecoverKernelSpace reads the 4-byte backup and hands
    it to SafeWrite for KERNEL_VERSIONS; when that succeeds it calls
    SafeWrite for KERNEL_MUST_USE_BACKUP with length 0: the write it
    issues carries no byte, and no 4-byte write to KERNEL_MUST_USE_BACKUP
    is issued. *)
Theorem RecoverKernelSpace_restore (t0 t1 t2 t3 t4 : tpm) g
    (out0 out1 out2 : list byte) :
  tlcl_exec (Read KERNEL_MUST_USE_BACKUP_NV_INDEX sizeof_uint32) t0
    = (TPM_SUCCESS, out0, t1) ->
  tlcl_exec (Read KERNEL_VERSIONS_NV_INDEX KERNEL_SPACE_SIZE) t1
    = (TPM_SUCCESS, out1, t2) ->
  tlcl_exec (GetPermissions KERNEL_VERSIONS_NV_INDEX) t2
    = (TPM_SUCCESS, TPM_NV_PER_PPWRITE, t3) ->
  kernel_space_tag (fill_buffer KERNEL_SPACE_SIZE out1)
    <> KERNEL_SPACE_UID ->
  uint32_of_bytes (fill_buffer sizeof_uint32 out0) <> 0 ->
  tlcl_exec (Read KERNEL_VERSIONS_BACKUP_NV_INDEX sizeof_uint32) t3
    = (TPM_SUCCESS, out2, t4) ->
  let backup := uint32_of_bytes (fill_buffer sizeof_uint32 out2) in
  let restore :=
    SafeWrite KERNEL_VERSIONS_NV_INDEX (uint32_bytes backup) sizeof_uint32
      (Machine t4 g) in
  status restore = TPM_SUCCESS ->
  let clear :=
    SafeWrite KERNEL_MUST_USE_BACKUP_NV_INDEX (uint32_bytes 0) 0
      (final restore) in
  RecoverKernelSpace (Machine t0 g) =
    (status clear, final clear,
     [Ev (Read KERNEL_MUST_USE_BACKUP_NV_INDEX sizeof_uint32) TPM_SUCCESS;
      Ev (Read KERNEL_VERSIONS_NV_INDEX KERNEL_SPACE_SIZE) TPM_SUCCESS;
      Ev (GetPermissions KERNEL_VERSIONS_NV_INDEX) TPM_SUCCESS;
      Ev (Read KERNEL_VERSIONS_BACKUP_NV_INDEX sizeof_uint32) TPM_SUCCESS]
     ++ log restore ++ log clear)
  /\ hd_error (log clear) =
       Some (Ev (Write KERNEL_MUST_USE_BACKUP_NV_INDEX (uint32_bytes 0) 0)
               (status (TlclWrite KERNEL_MUST_USE_BACKUP_NV_INDEX
                          (uint32_bytes 0) 0 (final restore))))
  /\ Forall (fun e => forall data,
               ev_cmd e <>
               Write KERNEL_MUST_USE_BACKUP_NV_INDEX data sizeof_uint32)
       (log clear).
Proof.
  intros E0 E1 E2 Htag Hflag E3 backup restore Hok clear.
  split; [|split].
  - unfold RecoverKernelSpace; cbv zeta.
    read_ok E0. read_ok E1.
    exec_ok (GetPermissions KERNEL_VERSIONS_NV_INDEX) E2.
    pose proof (uid_check (fill_buffer KERNEL_SPACE_SIZE out1)
                  (length_fill_buffer _ _)) as Huid.
    destruct (Memcmp _ _ _ =? 0) eqn:Hcmp; [exfalso; by apply Htag, Huid|].
    rewrite Z.eqb_refl. cbn [negb orb].
    destruct (Z.eqb_spec (uint32_of_bytes (fill_buffer sizeof_uint32 out0)) 0)
      as [|_]; [done|]. cbn [negb].
    read_ok E3. fold backup.
    rewrite (rof_step_ok _ _ _ Hok). fold restore.
    rewrite rof_last. fold clear. cbn [status final log fst snd].
    reflexivity.
  - destruct (SafeWrite_first KERNEL_MUST_USE_BACKUP_NV_INDEX
                (uint32_bytes 0) 0 (final restore)) as [rest Hl].
    fold clear in Hl. by rewrite Hl.
  - subst clear.
    destruct (SafeWrite_cases KERNEL_MUST_USE_BACKUP_NV_INDEX
                (uint32_bytes 0) 0 (final restore));
      repeat constructor; simpl; intros data; discriminate.
Qed.
End Recover.

(** ** BackupKernelSpace *)

Section Backup.
Context {tpm : Type} {T : Tlcl tpm} {K : Constants}.
Implicit Types s : machine tpm.

(** After a successful SafeWrite on a TPM that keeps the contract, the
    space starts with the data written and the other spaces are as
    before. *)
Lemma SafeWrite_nv nv index data len s :
  nv_contract nv ->
  (Z.to_nat len <= length data)%nat ->
  status (SafeWrite index data len s) = TPM_SUCCESS ->
  take (Z.to_nat len)
    (nv (tpm_state (final (SafeWrite index data len s))) index)
    = take (Z.to_nat len) data
  /\ forall j, j <> index ->
       nv (tpm_state (final (SafeWrite index data len s))) j
       = nv (tpm_state s) j.
Proof.
  intros C Hlen.
  assert (Htake : forall t o t',
            tlcl_exec (Write index data len) t = (TPM_SUCCESS, o, t') ->
            take (Z.to_nat len) (nv t' index) = take (Z.to_nat len) data).
  { intros t o t' E. rewrite (nv_write _ C _ _ _ _ _ _ E).
    rewrite take_app_le by (rewrite length_take; lia).
    rewrite take_take. f_equal. lia. }
  unfold SafeWrite, TPMClearAndReenable, TlclForceClear, TlclSetEnable,
    TlclSetDeactivated, TlclWrite.
  unfold_monad. split_run; simpl; intros Hok; subst; try congruence;
    (split; [by eapply Htake|]); intros j Hj.
  all: repeat match goal with
       | H : tlcl_exec (Write _ _ _) _ = _ |- _ =>
           rewrite (nv_write_frame _ C _ _ _ _ _ _ _ j H Hj); clear H
       | H : tlcl_exec _ _ = _ |- _ =>
           rewrite (nv_frame _ C _ _ _ _ _ j H) by (simpl; tauto); clear H
       end.
  all: reflexivity.
Qed.

(** C4: when both reads succeed with the values primary and backup,
    BackupKernelSpace returns success without another command if they are
    equal, returns InternalInconsistency without another command if
    primary < backup, and otherwise hands primary to SafeWrite for
    KERNEL_VERSIONS_BACKUP and returns its status.  On a TPM that keeps
    the NVRAM contract, after a successful BackupKernelSpace the counter
    in KERNEL_VERSIONS_BACKUP is at most the one in KERNEL_VERSIONS. *)
Theorem BackupKernelSpace_cases (t0 t1 t2 : tpm) g (out0 out1 : list byte) :
  tlcl_exec (Read KERNEL_VERSIONS_NV_INDEX sizeof_uint32) t0
    = (TPM_SUCCESS, out0, t1) ->
  tlcl_exec (Read KERNEL_VERSIONS_BACKUP_NV_INDEX sizeof_uint32) t1
    = (TPM_SUCCESS, out1, t2) ->
  let primary := uint32_of_bytes (fill_buffer sizeof_uint32 out0) in
  let backup := uint32_of_bytes (fill_buffer sizeof_uint32 out1) in
  let run := BackupKernelSpace (Machine t0 g) in
  let reads :=
    [Ev (Read KERNEL_VERSIONS_NV_INDEX sizeof_uint32) TPM_SUCCESS;
     Ev (Read KERNEL_VERSIONS_BACKUP_NV_INDEX sizeof_uint32) TPM_SUCCESS] in
  (primary = backup -> run = (TPM_SUCCESS, Machine t2 g, reads))
  /\ (primary < backup ->
      run = (TPM_E_INTERNAL_INCONSISTENCY, Machine t2 g, reads))
  /\ (primary > backup ->
      let write :=
        SafeWrite KERNEL_VERSIONS_BACKUP_NV_INDEX (uint32_bytes primary)
          sizeof_uint32 (Machine t2 g) in
      run = (status write, final write, reads ++ log write)
      /\ hd_error (log write) =
           Some (Ev (Write KERNEL_VERSIONS_BACKUP_NV_INDEX
                       (uint32_bytes primary) sizeof_uint32)
                   (status (TlclWrite KERNEL_VERSIONS_BACKUP_NV_INDEX
                              (uint32_bytes primary) sizeof_uint32
                              (Machine t2 g)))))
  /\ (forall nv,
        nv_contract nv ->
        KERNEL_VERSIONS_NV_INDEX <> KERNEL_VERSIONS_BACKUP_NV_INDEX ->
        TPM_E_INTERNAL_INCONSISTENCY <> TPM_SUCCESS ->
        status run = TPM_SUCCESS ->
        uint32_of_bytes
          (nv (tpm_state (final run)) KERNEL_VERSIONS_BACKUP_NV_INDEX)
        <= uint32_of_bytes
             (nv (tpm_state (final run)) KERNEL_VERSIONS_NV_INDEX)).
Proof.
  intros E0 E1 primary backup run reads.
  assert (Hrun :
    run =
    if primary =? backup then (TPM_SUCCESS, Machine t2 g, reads)
    else if primary <? backup
         then (TPM_E_INTERNAL_INCONSISTENCY, Machine t2 g, reads)
         else
           let write :=
             SafeWrite KERNEL_VERSIONS_BACKUP_NV_INDEX (uint32_bytes primary)
               sizeof_uint32 (Machine t2 g) in
           (status write, final write, reads ++ log write)).
  { subst run. unfold BackupKernelSpace.
    read_ok E0. read_ok E1. fold primary backup.
    destruct (primary =? backup); [done|].
    destruct (primary <? backup); [done|].
    rewrite rof_last. reflexivity. }
  split; [|split; [|split]].
  - intros Heq. apply Z.eqb_eq in Heq. by rewrite Hrun, Heq.
  - intros Hlt. rewrite Hrun.
    destruct (Z.eqb_spec primary backup); [lia|].
    destruct (Z.ltb_spec primary backup); [done|lia].
  - intros Hgt write. split.
    + rewrite Hrun.
      destruct (Z.eqb_spec primary backup); [lia|].
      destruct (Z.ltb_spec primary backup); [lia|done].
    + destruct (SafeWrite_first KERNEL_VERSIONS_BACKUP_NV_INDEX
                  (uint32_bytes primary) sizeof_uint32 (Machine t2 g))
        as [rest Hl].
      fold write in Hl. by rewrite Hl.
  - intros nv C Hidx Hcode Hok.
    pose proof (nv_read _ C _ _ _ _ _ E0) as R0.
    pose proof (nv_read _ C _ _ _ _ _ E1) as R1.
    assert (F1 : forall j, nv t1 j = nv t0 j).
    { intros j. apply (nv_frame _ C _ _ _ _ _ j E0). simpl. tauto. }
    assert (F2 : forall j, nv t2 j = nv t1 j).
    { intros j. apply (nv_frame _ C _ _ _ _ _ j E1). simpl. tauto. }
    assert (Hp : uint32_of_bytes (nv t2 KERNEL_VERSIONS_NV_INDEX) = primary).
    { subst primary. rewrite R0, F2, F1. apply eq_sym, uint32_of_bytes_take. }
    assert (Hb : uint32_of_bytes (nv t2 KERNEL_VERSIONS_BACKUP_NV_INDEX)
                 = backup).
    { subst backup. rewrite R1, F2. apply eq_sym, uint32_of_bytes_take. }
    rewrite Hrun in Hok |- *.
    destruct (Z.eqb_spec primary backup) as [Heq|Hne].
    { cbn [final fst snd tpm_state]. rewrite Hp, Hb. lia. }
    destruct (Z.ltb_spec primary backup) as [Hlt|Hge]; [done|].
    cbv zeta in Hok |- *. cbn [status final fst snd] in Hok |- *.
    destruct (SafeWrite_nv nv KERNEL_VERSIONS_BACKUP_NV_INDEX
                (uint32_bytes primary) sizeof_uint32 (Machine t2 g) C
                ltac:(unfold sizeof_uint32, uint32_bytes; simpl; lia) Hok)
      as [Hw Hframe].
    rewrite (Hframe KERNEL_VERSIONS_NV_INDEX Hidx).
    cbn [tpm_state]. rewrite Hp.
    rewrite <- uint32_of_bytes_take.
    change 4%nat with (Z.to_nat sizeof_uint32). rewrite Hw.
    change (Z.to_nat sizeof_uint32) with 4%nat.
    rewrite uint32_of_bytes_take, uint32_roundtrip; [lia|].
    apply uint32_of_bytes_range.
Qed.
End Backup.

(** ** The reference TPM keeps the NVRAM contract *)

Lemma ref_exec_cases c t :
  (exists rc t0,
     rc <> TPM_SUCCESS /\ nvram t0 = nvram t
     /\ ref_exec c t = (rc, ref_default_out c, t0))
  \/ (exists t0, nvram t0 = nvram t /\ ref_exec c t = ref_normal c t0).
Proof.
  unfold ref_exec. destruct (faults t) as [|[rc|] rest].
  - right. by exists t.
  - destruct (Z.eqb_spec rc TPM_SUCCESS); [right|left].
    + by eexists (RefTpm _ _ _ _).
    + by eexists rc, (RefTpm _ _ _ _).
  - right. by eexists (RefTpm _ _ _ _).
Qed.

Lemma ref_normal_frame c t rc o t' j :
  ref_normal c t = (rc, o, t') -> ~ changes_nvram c ->
  ref_nv t' j = ref_nv t j.
Proof.
  intros E Hc. unfold ref_nv.
  destruct c; simpl in *; try tauto; try by simplify_eq.
  - destruct (nvram t !! index); [|by simplify_eq].
    destruct (_ && _); by simplify_eq.
  - destruct (nvram t !! index); by simplify_eq.
Qed.

Lemma ref_normal_write t i d len rc o t' :
  ref_normal (Write i d len) t = (rc, o, t') ->
  (rc = TPM_SUCCESS ->
   ref_nv t' i = take (Z.to_nat len) d ++ drop (Z.to_nat len) (ref_nv t i))
  /\ (forall j, j <> i -> ref_nv t' j = ref_nv t j).
Proof.
  unfold ref_nv. simpl. intros E.
  destruct (nvram t !! i) as [sp|] eqn:Hi.
  - destruct (_ && _); simplify_eq; simpl.
    + split.
      * intros _. by rewrite lookup_insert_eq.
      * intros j Hj. by rewrite lookup_insert_ne.
    + split; [done|]. intros j Hj. reflexivity.
  - simplify_eq. split; [done|]. intros j Hj. reflexivity.
Qed.

Lemma ref_normal_read t i len out t' :
  ref_normal (Read i len) t = (TPM_SUCCESS, out, t') ->
  fill_buffer len out = take (Z.to_nat len) (ref_nv t i).
Proof.
  unfold ref_nv. simpl. intros E.
  destruct (nvram t !! i) as [sp|]; [|by simplify_eq].
  destruct (Z.leb_spec 0 len) as [H1|]; [|by simplify_eq].
  destruct (Z.leb_spec len (Z.of_nat (length (sp_data sp)))) as [H2|];
    [|by simplify_eq].
  simpl in E. simplify_eq. unfold fill_buffer.
  rewrite take_app_le by (rewrite length_take; lia).
  rewrite take_take. f_equal. lia.
Qed.

Lemma ref_nv_contract : nv_contract (T:=ref_tlcl) ref_nv.
Proof.
  split; unfold tlcl_exec, ref_tlcl.
  - intros t i len out t' E.
    destruct (ref_exec_cases (Read i len) t)
      as [(rc & t0 & Hrc & _ & E')|(t0 & Hnv & E')];
      rewrite E' in E; [by simplify_eq|].
    apply ref_normal_read in E. unfold ref_nv in *. by rewrite <- Hnv.
  - intros t i d len o t' E.
    destruct (ref_exec_cases (Write i d len) t)
      as [(rc & t0 & Hrc & _ & E')|(t0 & Hnv & E')];
      rewrite E' in E; [by simplify_eq|].
    apply ref_normal_write in E as [E _].
    rewrite E by done. unfold ref_nv. by rewrite Hnv.
  - intros t i d len rc o t' j E Hj.
    destruct (ref_exec_cases (Write i d len) t)
      as [(rc' & t0 & Hrc & Hnv & E')|(t0 & Hnv & E')];
      rewrite E' in E.
    + simplify_eq. unfold ref_nv. by rewrite Hnv.
    + apply ref_normal_write in E as [_ E].
      rewrite E by done. unfold ref_nv. by rewrite Hnv.
  - intros c t rc o t' j E Hc.
    destruct (ref_exec_cases c t)
      as [(rc' & t0 & Hrc & Hnv & E')|(t0 & Hnv & E')];
      rewrite E' in E.
    + simplify_eq. unfold ref_nv. by rewrite Hnv.
    + rewrite (ref_normal_frame _ _ _ _ _ j E Hc).
      unfold ref_nv. by rewrite Hnv.
Qed.

(** ** The theorems at concrete devices *)

Section Examples.
Local Existing Instance ref_tlcl.
Local Existing Instance vboot_constants.

Lemma SafeWrite_retry_policy_witness :
  SafeWrite_outcome FIRMWARE_VERSIONS_NV_INDEX (uint32_bytes 7)
    sizeof_uint32 1
    [Ev (Write FIRMWARE_VERSIONS_NV_INDEX (uint32_bytes 7) sizeof_uint32)
        TPM_E_MAXNVWRITES;
     Ev ForceClear 1].
Proof.
  exact (proj1 (SafeWrite_retry_policy FIRMWARE_VERSIONS_NV_INDEX
                  (uint32_bytes 7) sizeof_uint32 (boot worn_out_tpm))).
Defined.

Lemma recovery_mode_flag_effect_witness :
  g_rollback_recovery_mode (Machine provisioned_tpm 1) <> 0
  /\ RollbackKernelRead 3 4 (Machine provisioned_tpm 1) =
       ((TPM_SUCCESS, (0, 0)), Machine provisioned_tpm 1, []).
Proof.
  assert (H : g_rollback_recovery_mode (Machine provisioned_tpm 1) <> 0)
    by (simpl; lia).
  split; [exact H|].
  exact (proj1 (proj1 recovery_mode_flag_effect
                  (Machine provisioned_tpm 1) 3 4 H)).
Defined.

Lemma RollbackKernelRecovery_ignores_SetupTPM_witness :
  status (SetupTPM 1 1 (boot ref_empty)) = TPM_E_CORRUPTED_STATE
  /\ status (RollbackKernelRecovery 1 (boot ref_empty)) = TPM_SUCCESS.
Proof.
  split; [by vm_compute|].
  destruct (RollbackKernelRecovery_ignores_SetupTPM 1 (boot ref_empty))
    as (_ & _ & H).
  rewrite H by lia. reflexivity.
Defined.

Lemma SetupTPM_enable_check_witness :
  SetupTPM 0 0 (boot disabled_tpm) =
  (TPM_E_MUST_REBOOT, boot ref_empty,
   [Ev LibInit TPM_SUCCESS; Ev Startup TPM_SUCCESS;
    Ev ContinueSelfTest TPM_SUCCESS; Ev AssertPhysicalPresence TPM_SUCCESS;
    Ev GetFlags TPM_SUCCESS; Ev SetEnable TPM_SUCCESS;
    Ev (SetDeactivated 0) TPM_SUCCESS]).
Proof.
  destruct (SetupTPM_enable_check 0 0 0 disabled_tpm disabled_tpm
              disabled_tpm disabled_tpm disabled_tpm disabled_tpm
              TPM_SUCCESS x01 x00
              eq_refl eq_refl eq_refl eq_refl eq_refl) as [H _].
  destruct H as (_ & _ & H & _); [left; discriminate|].
  exact (H ref_empty ref_empty eq_refl eq_refl).
Defined.

Lemma InitializeSpaces_tombstone_witness :
  tombstone_index_fresh
  /\ sublist provisioning_log
       (take 11 (log (InitializeSpaces (boot ref_empty)))).
Proof.
  assert (H : tombstone_index_fresh) by (repeat split; discriminate).
  split; [exact H|].
  destruct (InitializeSpaces_tombstone (boot ref_empty) H) as (_ & H2 & _).
  destruct (H2 (take 11 (log (InitializeSpaces (boot ref_empty)))) []
              0x8001 4 TPM_SUCCESS) as (_ & _ & Hs); [by vm_compute|].
  exact Hs.
Defined.

Lemma RecoverKernelSpace_uid_check_witness :
  RecoverKernelSpace (boot provisioned_tpm) =
  (TPM_E_CORRUPTED_STATE, boot provisioned_tpm,
   [Ev (Read KERNEL_MUST_USE_BACKUP_NV_INDEX sizeof_uint32) TPM_SUCCESS;
    Ev (Read KERNEL_VERSIONS_NV_INDEX KERNEL_SPACE_SIZE) TPM_SUCCESS;
    Ev (GetPermissions KERNEL_VERSIONS_NV_INDEX) TPM_SUCCESS]).
Proof.
  destruct (RecoverKernelSpace_uid_check provisioned_tpm provisioned_tpm
              provisioned_tpm provisioned_tpm 0
              (uint32_bytes 0) KERNEL_SPACE_INIT_DATA TPM_NV_PER_PPWRITE
              eq_refl eq_refl eq_refl) as [H _].
  apply H. right. reflexivity.
Defined.

Lemma RecoverKernelSpace_restore_witness :
  RecoverKernelSpace (boot distrusted_tpm) =
    (TPM_SUCCESS, boot distrusted_tpm_recovered,
     [Ev (Read KERNEL_MUST_USE_BACKUP_NV_INDEX sizeof_uint32) TPM_SUCCESS;
      Ev (Read KERNEL_VERSIONS_NV_INDEX KERNEL_SPACE_SIZE) TPM_SUCCESS;
      Ev (GetPermissions KERNEL_VERSIONS_NV_INDEX) TPM_SUCCESS;
      Ev (Read KERNEL_VERSIONS_BACKUP_NV_INDEX sizeof_uint32) TPM_SUCCESS;
      Ev (Write KERNEL_VERSIONS_NV_INDEX (uint32_bytes 5) sizeof_uint32)
         TPM_SUCCESS;
      Ev (Write KERNEL_MUST_USE_BACKUP_NV_INDEX (uint32_bytes 0) 0)
         TPM_SUCCESS])
  /\ ref_nv distrusted_tpm_recovered KERNEL_MUST_USE_BACKUP_NV_INDEX
     = uint32_bytes 1.
Proof.
  split; [|by vm_compute].
  destruct (RecoverKernelSpace_restore distrusted_tpm distrusted_tpm
              distrusted_tpm distrusted_tpm distrusted_tpm 0
              (uint32_bytes 1) (uint32_bytes 9 ++ [x58; x58; x58; x58])
              (uint32_bytes 5)
              eq_refl eq_refl eq_refl) as [H _];
    [by vm_compute | by vm_compute | reflexivity | by vm_compute |].
  etrans; [exact H|]. by vm_compute.
Defined.

Lemma BackupKernelSpace_cases_witness :
  status (BackupKernelSpace (boot ahead_tpm)) = TPM_SUCCESS
  /\ uint32_of_bytes
       (ref_nv (tpm_state (final (BackupKernelSpace (boot ahead_tpm))))
          KERNEL_VERSIONS_BACKUP_NV_INDEX)
     <= uint32_of_bytes
          (ref_nv (tpm_state (final (BackupKernelSpace (boot ahead_tpm))))
             KERNEL_VERSIONS_NV_INDEX).
Proof.
  assert (Hok : status (BackupKernelSpace (boot ahead_tpm)) = TPM_SUCCESS)
    by (by vm_compute).
  split; [exact Hok|].
  destruct (BackupKernelSpace_cases ahead_tpm ahead_tpm ahead_tpm 0
              (uint32_bytes 7) (uint32_bytes 5) eq_refl eq_refl)
    as (_ & _ & _ & H).
  apply (H ref_nv ref_nv_contract); [discriminate | discriminate | exact Hok].
Defined.

(** C8, as stated, fails: GetFlags succeeds and reports the disable
    flag, SetEnable fails with status 7, and SetupTPM returns 7 at once;
    SetDeactivated(0) is never called. *)
Lemma SetupTPM_no_SetDeactivated_after_failed_SetEnable :
  let r := SetupTPM 0 0 (boot enable_fails_tpm) in
  flag_disable enable_fails_tpm <> x00
  /\ status r = 7
  /\ log r =
     [Ev LibInit TPM_SUCCESS; Ev Startup TPM_SUCCESS;
      Ev ContinueSelfTest TPM_SUCCESS; Ev AssertPhysicalPresence TPM_SUCCESS;
      Ev GetFlags TPM_SUCCESS; Ev SetEnable 7]
  /\ ~ enable_check_as_stated (log r).
Proof.
  intros r.
  assert (Hl : log r =
     [Ev LibInit TPM_SUCCESS; Ev Startup TPM_SUCCESS;
      Ev ContinueSelfTest TPM_SUCCESS; Ev AssertPhysicalPresence TPM_SUCCESS;
      Ev GetFlags TPM_SUCCESS; Ev SetEnable 7]) by (by vm_compute).
  split; [discriminate|]. split; [by vm_compute|]. split; [exact Hl|].
  intros [_ [rc H]]. rewrite Hl in H.
  repeat (apply elem_of_cons in H as [H|H]; [discriminate H|]).
  by apply elem_of_nil in H.
Qed.

(** On a device fresh from the factory the normal boot provisions the
    spaces and then rejects them: the kernel space it has just written
    carries KERNEL_SPACE_UID. *)
Example cold_boot_is_rejected :
  status (RollbackFirmwareSetup 0 (boot ref_empty)) = TPM_E_CORRUPTED_STATE.
Proof. by vm_compute. Qed.
End Examples.

(** * Further properties of the code *)

(** ** Functions that stop at the first failure *)

Section StopAtFailure.
Context {tpm : Type} {T : Tlcl tpm} {K : Constants}.
Implicit Types s : machine tpm.

(** X1: TPMClearAndReenable issues ForceClear, SetEnable and
    SetDeactivated(0) in this order, stops at the first of them that
    fails and returns its status; it returns success exactly when it has
    issued all three and all three succeeded. *)
Theorem TPMClearAndReenable_stops_at_first_failure s :
  let r := TPMClearAndReenable s in
  (log r = [Ev ForceClear (status r)] /\ status r <> TPM_SUCCESS)
  \/ (log r = [Ev ForceClear TPM_SUCCESS; Ev SetEnable (status r)]
      /\ status r <> TPM_SUCCESS)
  \/ log r = [Ev ForceClear TPM_SUCCESS; Ev SetEnable TPM_SUCCESS;
              Ev (SetDeactivated 0) (status r)].
Proof.
  unfold TPMClearAndReenable, TlclForceClear, TlclSetEnable,
    TlclSetDeactivated.
  unfold_monad. split_run; subst; simpl; auto.
Qed.

Lemma stops_status_of c s :
  stops_at_failure (status (status_of c s)) (log (status_of c s)).
Proof.
  rewrite run_status_of. exists [], c. split; [done | constructor].
Qed.

Lemma stops_SafeWrite index data length s :
  stops_at_failure (status (SafeWrite index data length s))
    (log (SafeWrite index data length s)).
Proof.
  assert (Hmax : tolerated (Ev (Write index data length) TPM_E_MAXNVWRITES))
    by (right; simpl; eauto).
  assert (Hok : forall c, tolerated (Ev c TPM_SUCCESS)) by (by left).
  pose (w := Ev (Write index data length) TPM_E_MAXNVWRITES).
  destruct (SafeWrite_cases index data length s) as [rc H|rc H|rc H|rc H|rc].
  - exists [], (Write index data length). by split.
  - exists [w], ForceClear. split; [done|].
    repeat (apply List.Forall_cons; [first [exact Hmax | apply Hok]|]).
    done.
  - exists [w; Ev ForceClear TPM_SUCCESS], SetEnable. split; [done|].
    repeat (apply List.Forall_cons; [first [exact Hmax | apply Hok]|]).
    done.
  - exists [w; Ev ForceClear TPM_SUCCESS; Ev SetEnable TPM_SUCCESS],
           (SetDeactivated 0).
    split; [done|].
    repeat (apply List.Forall_cons; [first [exact Hmax | apply Hok]|]).
    done.
  - exists [w; Ev ForceClear TPM_SUCCESS; Ev SetEnable TPM_SUCCESS;
            Ev (SetDeactivated 0) TPM_SUCCESS],
           (Write index data length).
    split; [done|].
    repeat (apply List.Forall_cons; [first [exact Hmax | apply Hok]|]).
    done.
Qed.

Lemma stops_rof (c k : M tpm Z) :
  (forall s, stops_at_failure (status (c s)) (log (c s))) ->
  (forall s, stops_at_failure (status (k s)) (log (k s))) ->
  forall s,
    stops_at_failure (status ((RETURN_ON_FAILURE (c);; k) s))
      (log ((RETURN_ON_FAILURE (c);; k) s)).
Proof.
  intros Hc Hk s.
  destruct (Z.eq_dec (status (c s)) TPM_SUCCESS) as [Hok|Hne].
  - rewrite (rof_step_ok _ _ _ Hok). cbn [status log fst snd].
    destruct (Hc s) as (pre1 & c1 & -> & H1).
    destruct (Hk (final (c s))) as (pre2 & c2 & -> & H2).
    exists (pre1 ++ [Ev c1 (status (c s))] ++ pre2), c2.
    split; [by rewrite <- !app_assoc|].
    apply Forall_app_2; [done|].
    apply Forall_app_2; [|done].
    apply List.Forall_cons; [by left | done].
  - erewrite rof_fail; [|by rewrite run_no_out|done].
    cbn [status log fst snd]. apply Hc.
Qed.

Lemma stops_rof_last (c : M tpm Z) :
  (forall s, stops_at_failure (status (c s)) (log (c s))) ->
  forall s,
    stops_at_failure
      (status ((RETURN_ON_FAILURE (c);; ret TPM_SUCCESS) s))
      (log ((RETURN_ON_FAILURE (c);; ret TPM_SUCCESS) s)).
Proof. intros Hc s. rewrite rof_last. apply Hc. Qed.

(** X2: InitializeSpaces starts with SetNvLocked and returns the status
    of the last command it issues: every command before the last either
    succeeded or was a write that answered MaxNVWrites, so the first
    command that fails otherwise ends the provisioning with its status. *)
Theorem InitializeSpaces_stops_at_first_failure s :
  let r := InitializeSpaces s in
  stops_at_failure (status r) (log r)
  /\ exists rc rest, log r = Ev SetNvLocked rc :: rest.
Proof.
  split.
  - revert s. unfold InitializeSpaces, InitializeKernelVersionsSpaces,
      TlclSetNvLocked, TlclDefineSpace; cbv zeta.
    repeat first
      [ apply stops_rof_last
      | apply stops_rof
      | intros s; apply stops_status_of
      | intros s; apply stops_SafeWrite ].
  - unfold InitializeSpaces; cbv zeta.
    match goal with
    | |- context [return_on_failure ?c ?e ?k s] =>
        destruct (rof_log_prefix c e k s) as [rest ->]
    end.
    unfold TlclSetNvLocked. rewrite run_no_out, run_status_of.
    cbn [log snd app]. eauto.
Qed.
End StopAtFailure.

(** ** Reading the versions back *)

Section ReadVersions.
Context {tpm : Type} {T : Tlcl tpm} {K : Constants}.
Implicit Types s : machine tpm.

Lemma split_word w :
  0 <= w < 2 ^ 32 ->
  let kv := to_uint16 (Z.shiftr w 16) in
  let v := to_uint16 (Z.land w 65535) in
  0 <= kv < 2 ^ 16 /\ 0 <= v < 2 ^ 16 /\ kv * 2 ^ 16 + v = w.
Proof.
  intros Hw. unfold to_uint16.
  change 65535 with (Z.ones 16). rewrite Z.land_ones by lia.
  rewrite Z.shiftr_div_pow2 by lia.
  rewrite Z.mod_mod by lia.
  assert (0 <= w / 2 ^ 16 < 2 ^ 16).
  { split; [apply Z.div_pos; lia|].
    apply Z.div_lt_upper_bound; lia. }
  rewrite (Z.mod_small (w / 2 ^ 16)) by lia.
  pose proof (Z.mod_pos_bound w (2 ^ 16) ltac:(lia)).
  pose proof (Z.div_mod w (2 ^ 16) ltac:(lia)). lia.
Qed.

Lemma read_versions_run index key_version version s :
  let rd := TlclRead index sizeof_uint32 s in
  let r :=
    return_on_failure (TlclRead index sizeof_uint32)
      (fun r => (r, (key_version, version)))
      (fun buf =>
         let word := uint32_of_bytes buf in
         ret (TPM_SUCCESS,
              (to_uint16 (Z.shiftr word 16),
               to_uint16 (Z.land word 65535)))) s in
  final r = final rd
  /\ log r = [Ev (Read index sizeof_uint32) (status rd).1]
  /\ ((status rd).1 <> TPM_SUCCESS ->
      status r = ((status rd).1, (key_version, version)))
  /\ ((status rd).1 = TPM_SUCCESS ->
      exists kv v,
        status r = (TPM_SUCCESS, (kv, v))
        /\ 0 <= kv < 2 ^ 16 /\ 0 <= v < 2 ^ 16
        /\ kv * 2 ^ 16 + v = uint32_of_bytes (status rd).2).
Proof.
  intros rd r. subst rd r.
  pose proof (split_word _ (uint32_of_bytes_range
    (status (TlclRead index sizeof_uint32 s)).2)) as Hsplit.
  revert Hsplit.
  unfold TlclRead. unfold_monad.
  destruct (tlcl_exec _ _) as [[rc out] t]. simpl.
  destruct (Z.eqb_spec rc TPM_SUCCESS) as [->|Hne]; simpl; intros Hsplit.
  - repeat split; [done|]. intros _. eauto.
  - repeat split; done.
Qed.

(** X3: RollbackFirmwareRead issues one 4-byte read of FIRMWARE_VERSIONS
    and nothing else.  If the read fails, its status is returned and the
    two outputs keep their values.  If it succeeds, the outputs are two
    16-bit values with key_version * 2^16 + version equal to the word
    read: nothing of the stored counter is lost. *)
Theorem RollbackFirmwareRead_split key_version version s :
  let rd := TlclRead FIRMWARE_VERSIONS_NV_INDEX sizeof_uint32 s in
  let r := RollbackFirmwareRead key_version version s in
  final r = final rd
  /\ log r = [Ev (Read FIRMWARE_VERSIONS_NV_INDEX sizeof_uint32)
               (status rd).1]
  /\ ((status rd).1 <> TPM_SUCCESS ->
      status r = ((status rd).1, (key_version, version)))
  /\ ((status rd).1 = TPM_SUCCESS ->
      exists kv v,
        status r = (TPM_SUCCESS, (kv, v))
        /\ 0 <= kv < 2 ^ 16 /\ 0 <= v < 2 ^ 16
        /\ kv * 2 ^ 16 + v = uint32_of_bytes (status rd).2).
Proof. apply read_versions_run. Qed.

(** X4: outside recovery mode RollbackKernelRead does the same on
    KERNEL_VERSIONS: one 4-byte read; on failure the status of the read
    with the outputs untouched; on success the two 16-bit halves of the
    word read. *)
Theorem RollbackKernelRead_split key_version version s :
  g_rollback_recovery_mode s = 0 ->
  let rd := TlclRead KERNEL_VERSIONS_NV_INDEX sizeof_uint32 s in
  let r := RollbackKernelRead key_version version s in
  final r = final rd
  /\ log r = [Ev (Read KERNEL_VERSIONS_NV_INDEX sizeof_uint32)
               (status rd).1]
  /\ ((status rd).1 <> TPM_SUCCESS ->
      status r = ((status rd).1, (key_version, version)))
  /\ ((status rd).1 = TPM_SUCCESS ->
      exists kv v,
        status r = (TPM_SUCCESS, (kv, v))
        /\ 0 <= kv < 2 ^ 16 /\ 0 <= v < 2 ^ 16
        /\ kv * 2 ^ 16 + v = uint32_of_bytes (status rd).2).
Proof.
  intros Hg rd r.
  pose proof (read_versions_run KERNEL_VERSIONS_NV_INDEX key_version
                version s) as H.
  cbv zeta in H. subst rd r. unfold RollbackKernelRead.
  rewrite run_bind. unfold get_recovery_mode.
  cbn [status final log fst snd app]. rewrite Hg.
  change (negb (0 =? 0)) with false. cbv iota.
  unfold status, final, log in *.
  destruct (return_on_failure _ _ _ s) as [[a s1] e1]. simpl in *.
  exact H.
Qed.
End ReadVersions.

(** ** What the functions leave in NVRAM *)

Section Nvram.
Context {tpm : Type} {T : Tlcl tpm} {K : Constants}.
Context (nv : tpm -> Z -> list byte) (C : nv_contract nv).
Implicit Types s : machine tpm.

Lemma TlclRead_nv index len s :
  let r := TlclRead index len s in
  (forall j, nv (tpm_state (final r)) j = nv (tpm_state s) j)
  /\ ((status r).1 = TPM_SUCCESS ->
      (status r).2 = take (Z.to_nat len) (nv (tpm_state s) index)).
Proof.
  unfold TlclRead. unfold_monad.
  destruct (tlcl_exec _ _) as [[rc out] t] eqn:E. simpl. split.
  - intros j. apply (nv_frame _ C _ _ _ _ _ j E). simpl. tauto.
  - intros ->. apply (nv_read _ C _ _ _ _ _ E).
Qed.

Lemma read_counter index s :
  let r := TlclRead index sizeof_uint32 s in
  (status r).1 = TPM_SUCCESS ->
  uint32_of_bytes (status r).2 = counter nv s index.
Proof.
  intros r Hok. destruct (TlclRead_nv index sizeof_uint32 s) as [_ H].
  fold r in H. rewrite (H Hok). apply uint32_of_bytes_take.
Qed.

Lemma TPMClearAndReenable_nv s j :
  nv (tpm_state (final (TPMClearAndReenable s))) j = nv (tpm_state s) j.
Proof.
  unfold TPMClearAndReenable, TlclForceClear, TlclSetEnable,
    TlclSetDeactivated.
  unfold_monad. split_run; simpl.
  all: repeat match goal with
       | H : tlcl_exec _ _ = _ |- _ =>
           rewrite (nv_frame _ C _ _ _ _ _ j H) by (simpl; tauto); clear H
       end.
  all: reflexivity.
Qed.

(** A successful SafeWrite of a whole counter. *)
Lemma SafeWrite_counter index x s :
  0 <= x < 2 ^ 32 ->
  let r := SafeWrite index (uint32_bytes x) sizeof_uint32 s in
  status r = TPM_SUCCESS ->
  counter nv (final r) index = x
  /\ forall j, j <> index ->
       nv (tpm_state (final r)) j = nv (tpm_state s) j.
Proof.
  intros Hx r Hok. subst r.
  destruct (SafeWrite_nv nv index (uint32_bytes x) sizeof_uint32 s C
              ltac:(unfold sizeof_uint32, uint32_bytes; simpl; lia) Hok)
    as [Hw Hframe].
  split; [|exact Hframe].
  unfold counter. rewrite <- uint32_of_bytes_take.
  change 4%nat with (Z.to_nat sizeof_uint32). rewrite Hw.
  change (Z.to_nat sizeof_uint32) with 4%nat.
  by rewrite uint32_of_bytes_take, uint32_roundtrip.
Qed.

(** A successful SafeWrite of length 0 changes no space, when failed
    writes change nothing either. *)
Lemma SafeWrite_nothing index data s j :
  failed_write_keeps nv ->
  status (SafeWrite index data 0 s) = TPM_SUCCESS ->
  nv (tpm_state (final (SafeWrite index data 0 s))) j = nv (tpm_state s) j.
Proof.
  intros Hfail.
  assert (Hw : forall t rc o t',
            tlcl_exec (Write index data 0) t = (rc, o, t') ->
            nv t' j = nv t j).
  { intros t rc o t' E. destruct (Z.eq_dec rc TPM_SUCCESS) as [->|Hne].
    - destruct (Z.eq_dec j index) as [->|Hj].
      + by rewrite (nv_write _ C _ _ _ _ _ _ E).
      + by apply (nv_write_frame _ C _ _ _ _ _ _ _ j E).
    - by apply (Hfail _ _ _ _ _ _ _ j E). }
  unfold SafeWrite, TPMClearAndReenable, TlclForceClear, TlclSetEnable,
    TlclSetDeactivated, TlclWrite.
  unfold_monad. split_run; simpl; intros Hok.
  all: repeat match goal with
       | H : tlcl_exec (Write _ _ _) _ = _ |- _ =>
           rewrite (Hw _ _ _ _ H); clear H
       | H : tlcl_exec _ _ = _ |- _ =>
           rewrite (nv_frame _ C _ _ _ _ _ j H) by (simpl; tauto); clear H
       end.
  all: reflexivity.
Qed.
End Nvram.

(** ** The distrust flag and the developer-mode flag *)

Section Flags.
Context {tpm : Type} {T : Tlcl tpm} {K : Constants}.
Implicit Types s : machine tpm.

Lemma SetDistrustKernelSpaceAtNextBoot_run distrust s :
  let rd := TlclRead KERNEL_MUST_USE_BACKUP_NV_INDEX sizeof_uint32 s in
  let r := SetDistrustKernelSpaceAtNextBoot distrust s in
  ((status rd).1 <> TPM_SUCCESS -> r = ((status rd).1, final rd, log rd))
  /\ ((status rd).1 = TPM_SUCCESS ->
      uint32_of_bytes (status rd).2 = distrust ->
      r = (TPM_SUCCESS, final rd, log rd))
  /\ ((status rd).1 = TPM_SUCCESS ->
      uint32_of_bytes (status rd).2 <> distrust ->
      let w := SafeWrite KERNEL_MUST_USE_BACKUP_NV_INDEX
                 (uint32_bytes distrust) sizeof_uint32 (final rd) in
      r = (status w, final w, log rd ++ log w)).
Proof.
  intros rd r. subst rd r. unfold SetDistrustKernelSpaceAtNextBoot.
  split; [|split].
  - intros Hne. by rewrite run_rof_fail.
  - intros Hok Heq. rewrite run_rof_ok by done.
    rewrite Heq, Z.eqb_refl. unfold ret.
    cbn [negb status final log fst snd]. by rewrite app_nil_r.
  - intros Hok Hne. rewrite run_rof_ok by done.
    apply Z.eqb_neq in Hne. rewrite Hne. cbn [negb].
    by rewrite rof_last.
Qed.

Lemma SetDistrustKernelSpaceAtNextBoot_nv nv distrust s :
  nv_contract nv -> 0 <= distrust < 2 ^ 32 ->
  let r := SetDistrustKernelSpaceAtNextBoot distrust s in
  status r = TPM_SUCCESS ->
  counter nv (final r) KERNEL_MUST_USE_BACKUP_NV_INDEX = distrust
  /\ forall j, j <> KERNEL_MUST_USE_BACKUP_NV_INDEX ->
       nv (tpm_state (final r)) j = nv (tpm_state s) j.
Proof.
  intros C Hd r. subst r.
  destruct (SetDistrustKernelSpaceAtNextBoot_run distrust s)
    as (Hfail & Hsame & Hdiff).
  set (rd := TlclRead KERNEL_MUST_USE_BACKUP_NV_INDEX sizeof_uint32 s) in *.
  destruct (TlclRead_nv nv C KERNEL_MUST_USE_BACKUP_NV_INDEX
              sizeof_uint32 s) as [Hframe _].
  fold rd in Hframe.
  pose proof (read_counter nv C KERNEL_MUST_USE_BACKUP_NV_INDEX s) as Hcnt.
  fold rd in Hcnt. cbv zeta in Hcnt.
  destruct (Z.eq_dec (status rd).1 TPM_SUCCESS) as [Hok|Hne].
  2:{ rewrite (Hfail Hne). cbn [status fst]. done. }
  destruct (Z.eq_dec (uint32_of_bytes (status rd).2) distrust) as [Heq|Hneq].
  - rewrite (Hsame Hok Heq). intros _. cbn [final fst snd]. split.
    + unfold counter. rewrite Hframe. rewrite <- Heq. symmetry.
      by apply Hcnt.
    + intros j _. apply Hframe.
  - cbv zeta in Hdiff. rewrite (Hdiff Hok Hneq).
    cbn [status final fst snd]. intros Hw.
    destruct (SafeWrite_counter nv C KERNEL_MUST_USE_BACKUP_NV_INDEX
                distrust (final rd) Hd Hw) as [Hc Hf].
    split; [exact Hc|]. intros j Hj. by rewrite Hf, Hframe.
Qed.

(** X5: SetDistrustKernelSpaceAtNextBoot reads KERNEL_MUST_USE_BACKUP and
    issues no other command when the flag read already equals the
    argument; a failed read is returned as it is.  On a TPM that keeps
    the NVRAM contract, after a successful call the flag stored is the
    argument and every other space is as before. *)
Theorem SetDistrustKernelSpaceAtNextBoot_effect distrust s :
  let rd := TlclRead KERNEL_MUST_USE_BACKUP_NV_INDEX sizeof_uint32 s in
  let r := SetDistrustKernelSpaceAtNextBoot distrust s in
  ((status rd).1 <> TPM_SUCCESS -> r = ((status rd).1, final rd, log rd))
  /\ ((status rd).1 = TPM_SUCCESS ->
      uint32_of_bytes (status rd).2 = distrust ->
      r = (TPM_SUCCESS, final rd,
           [Ev (Read KERNEL_MUST_USE_BACKUP_NV_INDEX sizeof_uint32)
               TPM_SUCCESS]))
  /\ (forall nv,
        nv_contract nv -> 0 <= distrust < 2 ^ 32 ->
        status r = TPM_SUCCESS ->
        counter nv (final r) KERNEL_MUST_USE_BACKUP_NV_INDEX = distrust
        /\ forall j, j <> KERNEL_MUST_USE_BACKUP_NV_INDEX ->
             nv (tpm_state (final r)) j = nv (tpm_state s) j).
Proof.
  intros rd r.
  destruct (SetDistrustKernelSpaceAtNextBoot_run distrust s)
    as (Hfail & Hsame & _).
  split; [exact Hfail|]. split.
  - intros Hok Heq. fold rd in Hsame. subst r. rewrite (Hsame Hok Heq).
    f_equal. subst rd. unfold TlclRead in *.
    rewrite run_bind, run_call in *. unfold status, log, ret in *.
    simpl in *. by rewrite Hok.
  - intros nv C Hd. by apply SetDistrustKernelSpaceAtNextBoot_nv.
Qed.

Lemma CheckDeveloperModeTransition_run current_developer s :
  let rd := TlclRead DEVELOPER_MODE_NV_INDEX sizeof_uint32 s in
  let r := CheckDeveloperModeTransition current_developer s in
  ((status rd).1 <> TPM_SUCCESS -> r = ((status rd).1, final rd, log rd))
  /\ ((status rd).1 = TPM_SUCCESS ->
      uint32_of_bytes (status rd).2 = current_developer ->
      r = (TPM_SUCCESS, final rd, log rd))
  /\ ((status rd).1 = TPM_SUCCESS ->
      uint32_of_bytes (status rd).2 <> current_developer ->
      let clr := TPMClearAndReenable (final rd) in
      (status clr <> TPM_SUCCESS ->
       r = (status clr, final clr, log rd ++ log clr))
      /\ (status clr = TPM_SUCCESS ->
          let w := SafeWrite DEVELOPER_MODE_NV_INDEX
                     (uint32_bytes current_developer) sizeof_uint32
                     (final clr) in
          r = (status w, final w, log rd ++ log clr ++ log w))).
Proof.
  intros rd r. subst rd r. unfold CheckDeveloperModeTransition.
  split; [|split].
  - intros Hne. by rewrite run_rof_fail.
  - intros Hok Heq. rewrite run_rof_ok by done.
    rewrite Heq, Z.eqb_refl. unfold ret.
    cbn [negb status final log fst snd]. by rewrite app_nil_r.
  - intros Hok Hne. rewrite run_rof_ok by done.
    apply Z.eqb_neq in Hne. rewrite Hne. cbn [negb]. split.
    + intros Hclr. erewrite rof_fail; [done|by rewrite run_no_out|done].
    + intros Hclr. rewrite (rof_step_ok _ _ _ Hclr), rof_last.
      by cbn [status final log fst snd].
Qed.

Lemma CheckDeveloperModeTransition_nv nv current_developer s :
  nv_contract nv -> 0 <= current_developer < 2 ^ 32 ->
  let r := CheckDeveloperModeTransition current_developer s in
  status r = TPM_SUCCESS ->
  counter nv (final r) DEVELOPER_MODE_NV_INDEX = current_developer
  /\ forall j, j <> DEVELOPER_MODE_NV_INDEX ->
       nv (tpm_state (final r)) j = nv (tpm_state s) j.
Proof.
  intros C Hd r. subst r.
  destruct (CheckDeveloperModeTransition_run current_developer s)
    as (Hfail & Hsame & Hdiff).
  set (rd := TlclRead DEVELOPER_MODE_NV_INDEX sizeof_uint32 s) in *.
  destruct (TlclRead_nv nv C DEVELOPER_MODE_NV_INDEX sizeof_uint32 s)
    as [Hframe _].
  fold rd in Hframe.
  pose proof (read_counter nv C DEVELOPER_MODE_NV_INDEX s) as Hcnt.
  fold rd in Hcnt. cbv zeta in Hcnt.
  destruct (Z.eq_dec (status rd).1 TPM_SUCCESS) as [Hok|Hne].
  2:{ rewrite (Hfail Hne). cbn [status fst]. done. }
  destruct (Z.eq_dec (uint32_of_bytes (status rd).2) current_developer)
    as [Heq|Hneq].
  - rewrite (Hsame Hok Heq). intros _. cbn [final fst snd]. split.
    + unfold counter. rewrite Hframe. rewrite <- Heq. symmetry.
      by apply Hcnt.
    + intros j _. apply Hframe.
  - cbv zeta in Hdiff. destruct (Hdiff Hok Hneq) as [Hcf Hcs].
    destruct (Z.eq_dec (status (TPMClearAndReenable (final rd)))
                TPM_SUCCESS) as [Hclr|Hclr].
    2:{ rewrite (Hcf Hclr). cbn [status fst]. done. }
    rewrite (Hcs Hclr). cbn [status final fst snd]. intros Hw.
    destruct (SafeWrite_counter nv C DEVELOPER_MODE_NV_INDEX
                current_developer _ Hd Hw) as [Hc Hf].
    split; [exact Hc|]. intros j Hj.
    by rewrite Hf, TPMClearAndReenable_nv, Hframe.
Qed.

(** X6: CheckDeveloperModeTransition reads DEVELOPER_MODE.  When the
    value read equals the argument it issues nothing else: no clear, no
    write.  When it differs, the TPM clear sequence comes first, a failing
    clear ends the function with its status before any write, and only
    after a successful clear is the new value handed to SafeWrite.  On a
    TPM that keeps the NVRAM contract, after a successful call
    DEVELOPER_MODE holds the argument and every other space is as
    before. *)
Theorem CheckDeveloperModeTransition_effect current_developer s :
  let rd := TlclRead DEVELOPER_MODE_NV_INDEX sizeof_uint32 s in
  let r := CheckDeveloperModeTransition current_developer s in
  ((status rd).1 = TPM_SUCCESS ->
   uint32_of_bytes (status rd).2 = current_developer ->
   r = (TPM_SUCCESS, final rd,
        [Ev (Read DEVELOPER_MODE_NV_INDEX sizeof_uint32) TPM_SUCCESS]))
  /\ ((status rd).1 = TPM_SUCCESS ->
      uint32_of_bytes (status rd).2 <> current_developer ->
      let clr := TPMClearAndReenable (final rd) in
      (status clr <> TPM_SUCCESS ->
       r = (status clr, final clr, log rd ++ log clr))
      /\ (status clr = TPM_SUCCESS ->
          let w := SafeWrite DEVELOPER_MODE_NV_INDEX
                     (uint32_bytes current_developer) sizeof_uint32
                     (final clr) in
          r = (status w, final w, log rd ++ log clr ++ log w)))
  /\ (forall nv,
        nv_contract nv -> 0 <= current_developer < 2 ^ 32 ->
        status r = TPM_SUCCESS ->
        counter nv (final r) DEVELOPER_MODE_NV_INDEX = current_developer
        /\ forall j, j <> DEVELOPER_MODE_NV_INDEX ->
             nv (tpm_state (final r)) j = nv (tpm_state s) j).
Proof.
  intros rd r.
  destruct (CheckDeveloperModeTransition_run current_developer s)
    as (_ & Hsame & Hdiff).
  split; [|split].
  - intros Hok Heq. fold rd in Hsame. subst r. rewrite (Hsame Hok Heq).
    f_equal. subst rd. unfold TlclRead in *.
    rewrite run_bind, run_call in *. unfold status, log, ret in *.
    simpl in *. by rewrite Hok.
  - exact Hdiff.
  - intros nv C Hd. by apply CheckDeveloperModeTransition_nv.
Qed.
End Flags.

(** ** SetupTPM: what a success leaves behind *)

Section Outcome.
Context {tpm : Type} {T : Tlcl tpm} {K : Constants}.
Context (Q : Z -> Z -> machine tpm -> Prop) (HQ : fails_freely Q).
Implicit Types s : machine tpm.

Lemma outcome_ret r : r <> TPM_SUCCESS -> outcome Q (ret r).
Proof. intros Hr s. by apply HQ. Qed.

Lemma outcome_rof {A} (c : M tpm (Z * A)) (k : A -> M tpm Z) :
  respects eq any_cmd c -> (forall a, outcome Q (k a)) ->
  outcome Q (return_on_failure c (fun r : Z => r) k).
Proof.
  intros Hc Hk s. destruct (Hc s) as [Hg _].
  destruct (Z.eq_dec (status (c s)).1 TPM_SUCCESS) as [Hok|Hne].
  - rewrite run_rof_ok by done. cbn [status final fst snd].
    rewrite Hg. apply Hk.
  - rewrite run_rof_fail by done. cbn [status final fst snd].
    rewrite Hg. by apply HQ.
Qed.

Lemma outcome_bind {A} (m : M tpm A) (k : A -> M tpm Z) :
  respects eq any_cmd m -> (forall a, outcome Q (k a)) ->
  outcome Q (bind m k).
Proof.
  intros Hm Hk s. destruct (Hm s) as [Hg _].
  rewrite run_bind. cbn [status final fst snd]. rewrite Hg. apply Hk.
Qed.

Lemma outcome_if (b : bool) (m1 m2 : M tpm Z) :
  outcome Q m1 -> outcome Q m2 -> outcome Q (if b then m1 else m2).
Proof. by destruct b. Qed.

Lemma outcome_SetupTPM recovery_mode developer_mode :
  TPM_E_MUST_REBOOT <> TPM_SUCCESS ->
  TPM_E_ALREADY_INITIALIZED <> TPM_SUCCESS ->
  outcome Q (SetupTPM_tail recovery_mode developer_mode) ->
  outcome Q (SetupTPM recovery_mode developer_mode).
Proof.
  intros Hreboot Halready Htail.
  assert (Hall : forall c : tlcl_cmd,
             c <> SetGlobalLock -> c <> LockPhysicalPresence -> any_cmd c)
    by done.
  unfold SetupTPM.
  apply outcome_bind; [respects_with ltac:(exact I)|intros _].
  apply outcome_rof; [respects_with ltac:(exact I)|intros _].
  apply outcome_rof; [respects_with ltac:(exact I)|intros _].
  apply outcome_rof; [respects_with ltac:(exact I)|intros _].
  apply outcome_rof; [respects_with ltac:(exact I)|intros flags].
  cbv zeta. apply outcome_if.
  - apply outcome_rof; [respects_with ltac:(exact I)|intros _].
    apply outcome_rof; [respects_with ltac:(exact I)|intros _].
    by apply outcome_ret.
  - apply outcome_bind;
      [apply RecoverKernelSpace_respects; [exact _ | done]|].
    intros recovered. apply outcome_if; [|done]. cbv zeta.
    apply outcome_rof;
      [apply GetSpacesInitialized_respects; [exact _ | done]|].
    intros initialized. apply outcome_if; [by apply outcome_ret|].
    apply outcome_rof;
      [apply respects_no_out; [exact _|];
       apply InitializeSpaces_respects; [exact _ | done]|intros _].
    apply outcome_rof;
      [apply respects_no_out; [exact _|];
       apply RecoverKernelSpace_respects; [exact _ | done]|intros _].
    done.
Qed.
End Outcome.

Section SetupSuccess.
Context {tpm : Type} {T : Tlcl tpm} {K : Constants}.
Implicit Types s : machine tpm.

Lemma BackupKernelSpace_nv nv s :
  nv_contract nv ->
  KERNEL_VERSIONS_NV_INDEX <> KERNEL_VERSIONS_BACKUP_NV_INDEX ->
  TPM_E_INTERNAL_INCONSISTENCY <> TPM_SUCCESS ->
  let r := BackupKernelSpace s in
  status r = TPM_SUCCESS ->
  counter nv (final r) KERNEL_VERSIONS_BACKUP_NV_INDEX
    <= counter nv (final r) KERNEL_VERSIONS_NV_INDEX
  /\ forall j, j <> KERNEL_VERSIONS_BACKUP_NV_INDEX ->
       nv (tpm_state (final r)) j = nv (tpm_state s) j.
Proof.
  intros C Hidx Hcode r. subst r. unfold BackupKernelSpace.
  set (rd0 := TlclRead KERNEL_VERSIONS_NV_INDEX sizeof_uint32 s).
  destruct (TlclRead_nv nv C KERNEL_VERSIONS_NV_INDEX sizeof_uint32 s)
    as [F0 _].
  pose proof (read_counter nv C KERNEL_VERSIONS_NV_INDEX s) as C0.
  fold rd0 in F0, C0. cbv zeta in C0.
  destruct (Z.eq_dec (status rd0).1 TPM_SUCCESS) as [H0|H0].
  2:{ rewrite run_rof_fail by done. cbn [status fst]. done. }
  rewrite run_rof_ok by done. fold rd0.
  set (rd1 := TlclRead KERNEL_VERSIONS_BACKUP_NV_INDEX sizeof_uint32
                (final rd0)).
  destruct (TlclRead_nv nv C KERNEL_VERSIONS_BACKUP_NV_INDEX sizeof_uint32
              (final rd0)) as [F1 _].
  pose proof (read_counter nv C KERNEL_VERSIONS_BACKUP_NV_INDEX (final rd0))
    as C1.
  fold rd1 in F1, C1. cbv zeta in C1.
  destruct (Z.eq_dec (status rd1).1 TPM_SUCCESS) as [H1|H1].
  2:{ rewrite run_rof_fail by done. cbn [status fst]. done. }
  rewrite run_rof_ok by done. fold rd1.
  rewrite (C0 H0), (C1 H1).
  assert (Hp : counter nv (final rd1) KERNEL_VERSIONS_NV_INDEX
               = counter nv s KERNEL_VERSIONS_NV_INDEX).
  { unfold counter. by rewrite F1, F0. }
  assert (Hb : counter nv (final rd1) KERNEL_VERSIONS_BACKUP_NV_INDEX
               = counter nv (final rd0) KERNEL_VERSIONS_BACKUP_NV_INDEX).
  { unfold counter. by rewrite F1. }
  assert (Hrange : 0 <= counter nv s KERNEL_VERSIONS_NV_INDEX < 2 ^ 32)
    by apply uint32_of_bytes_range.
  destruct (Z.eqb_spec (counter nv s KERNEL_VERSIONS_NV_INDEX)
              (counter nv (final rd0) KERNEL_VERSIONS_BACKUP_NV_INDEX))
    as [Heq|Hne].
  { unfold ret. cbn [status final log fst snd]. intros _. split.
    - rewrite Hp, Hb. lia.
    - intros j _. by rewrite F1, F0. }
  destruct (Z.ltb_spec (counter nv s KERNEL_VERSIONS_NV_INDEX)
              (counter nv (final rd0) KERNEL_VERSIONS_BACKUP_NV_INDEX)).
  { unfold ret. cbn [status final log fst snd]. done. }
  rewrite rof_last. cbn [status final log fst snd]. intros Hw.
  destruct (SafeWrite_counter nv C KERNEL_VERSIONS_BACKUP_NV_INDEX
              _ (final rd1) Hrange Hw) as [Hc Hf].
  split.
  - rewrite Hc. unfold counter. rewrite Hf, F1, F0 by done. lia.
  - intros j Hj. by rewrite Hf, F1, F0.
Qed.

Lemma SetupTPM_tail_flag recovery_mode developer_mode :
  outcome (flag_after recovery_mode)
    (SetupTPM_tail recovery_mode developer_mode).
Proof.
  assert (HQ : fails_freely (tpm:=tpm) (flag_after recovery_mode)).
  { intros r s Hr. split; [done|]. by intros ->. }
  assert (Hall : forall c : tlcl_cmd,
             c <> SetGlobalLock -> c <> LockPhysicalPresence -> any_cmd c)
    by done.
  unfold SetupTPM_tail.
  apply outcome_rof;
    [done | apply respects_no_out; [exact _|];
            apply BackupKernelSpace_respects; [exact _ | done]
    | intros _].
  apply outcome_rof;
    [done | apply respects_no_out; [exact _|];
            apply SetDistrustKernelSpaceAtNextBoot_respects;
            [exact _ | done]
    | intros _].
  apply outcome_rof;
    [done | apply respects_no_out; [exact _|];
            apply CheckDeveloperModeTransition_respects; [exact _ | done]
    | intros _].
  intros s. rewrite run_bind. unfold flag_after.
  destruct (recovery_mode =? 0); unfold set_recovery_mode, ret;
    cbn [negb status final fst snd g_rollback_recovery_mode];
    by split.
Qed.

Lemma RollbackKernelRecovery_flag developer_mode s :
  g_rollback_recovery_mode (final (RollbackKernelRecovery developer_mode s))
  = g_rollback_recovery_mode (final (SetupTPM 1 developer_mode s)).
Proof.
  unfold RollbackKernelRecovery. rewrite run_bind.
  cbn [final fst snd]. apply keeps_flag.
  respects_with ltac:(exact I).
Qed.

(** X7: the recovery flag changes only when SetupTPM succeeds.  After a
    failed SetupTPM the flag is what it was; after a successful one it is
    what it was if recovery_mode is 0, and 1 otherwise.  So
    RollbackKernelRecovery sets the flag exactly when its SetupTPM
    succeeded: after a failed SetupTPM the kernel read, write and lock
    functions are not turned into no-ops. *)
Theorem SetupTPM_sets_flag_on_success recovery_mode developer_mode s :
  TPM_E_MUST_REBOOT <> TPM_SUCCESS ->
  TPM_E_ALREADY_INITIALIZED <> TPM_SUCCESS ->
  let r := SetupTPM recovery_mode developer_mode s in
  (status r <> TPM_SUCCESS ->
   g_rollback_recovery_mode (final r) = g_rollback_recovery_mode s)
  /\ (status r = TPM_SUCCESS ->
      g_rollback_recovery_mode (final r)
      = if recovery_mode =? 0 then g_rollback_recovery_mode s else 1)
  /\ g_rollback_recovery_mode
       (final (RollbackKernelRecovery developer_mode s))
     = (if status (SetupTPM 1 developer_mode s) =? TPM_SUCCESS then 1
        else g_rollback_recovery_mode s).
Proof.
  intros Hreboot Halready r.
  assert (HQ : forall rec, fails_freely (tpm:=tpm) (flag_after rec)).
  { intros rec r0 s0 Hr. split; [done|]. by intros ->. }
  assert (H : forall rec,
             flag_after rec (g_rollback_recovery_mode s)
               (status (SetupTPM rec developer_mode s))
               (final (SetupTPM rec developer_mode s))).
  { intros rec.
    apply (outcome_SetupTPM (flag_after rec) (HQ rec) rec developer_mode
             Hreboot Halready (SetupTPM_tail_flag rec developer_mode)). }
  destruct (H recovery_mode) as [Hf Hs]. split; [exact Hf|].
  split; [exact Hs|].
  rewrite RollbackKernelRecovery_flag.
  destruct (H 1) as [Hf1 Hs1].
  destruct (Z.eqb_spec (status (SetupTPM 1 developer_mode s)) TPM_SUCCESS)
    as [Hok|Hne]; [by rewrite (Hs1 Hok) | by apply Hf1].
Qed.

Lemma SetupTPM_tail_nvram nv recovery_mode developer_mode :
  nv_contract nv -> setup_indices_distinct ->
  TPM_E_INTERNAL_INCONSISTENCY <> TPM_SUCCESS ->
  outcome (nvram_after nv recovery_mode developer_mode)
    (SetupTPM_tail recovery_mode developer_mode).
Proof.
  intros C (Hkb & Hkm & Hbm & Hkd & Hbd & Hmd) Hcode s.
  unfold SetupTPM_tail.
  set (b := BackupKernelSpace s).
  destruct (Z.eq_dec (status b) TPM_SUCCESS) as [Hb|Hb].
  2:{ erewrite rof_fail; [|by rewrite run_no_out|done].
      cbn [status final fst snd]. by intros ?. }
  rewrite (rof_step_ok _ _ _ Hb). fold b.
  destruct (BackupKernelSpace_nv nv s C Hkb Hcode Hb) as [Hle _].
  fold b in Hle.
  set (d := SetDistrustKernelSpaceAtNextBoot (to_uint32 recovery_mode)
              (final b)).
  destruct (Z.eq_dec (status d) TPM_SUCCESS) as [Hd|Hd].
  2:{ erewrite rof_fail; [|by rewrite run_no_out|done].
      cbn [status final fst snd]. by intros ?. }
  rewrite (rof_step_ok _ _ _ Hd). fold d.
  assert (Hr32 : forall z, 0 <= to_uint32 z < 2 ^ 32).
  { intros z. unfold to_uint32. apply Z.mod_pos_bound. lia. }
  destruct (SetDistrustKernelSpaceAtNextBoot_nv nv _ (final b) C
              (Hr32 recovery_mode) Hd) as [Hdc Hdf].
  fold d in Hdc, Hdf.
  set (c := CheckDeveloperModeTransition (to_uint32 developer_mode)
              (final d)).
  destruct (Z.eq_dec (status c) TPM_SUCCESS) as [Hc|Hc].
  2:{ erewrite rof_fail; [|by rewrite run_no_out|done].
      cbn [status final fst snd]. by intros ?. }
  rewrite (rof_step_ok _ _ _ Hc). fold c.
  destruct (CheckDeveloperModeTransition_nv nv _ (final d) C
              (Hr32 developer_mode) Hc) as [Hcc Hcf].
  fold c in Hcc, Hcf.
  rewrite run_bind. cbn [status final fst snd]. intros _.
  assert (Hsame : forall j,
            counter nv
              (final (ret TPM_SUCCESS
                 (final ((if negb (recovery_mode =? 0)
                          then set_recovery_mode 1 else ret tt)
                           (final c))))) j
            = counter nv (final c) j).
  { intros j. by destruct (recovery_mode =? 0). }
  rewrite !Hsame. unfold counter in *.
  rewrite (Hcf KERNEL_VERSIONS_NV_INDEX),
    (Hcf KERNEL_VERSIONS_BACKUP_NV_INDEX),
    (Hcf KERNEL_MUST_USE_BACKUP_NV_INDEX) by done.
  rewrite (Hdf KERNEL_VERSIONS_NV_INDEX),
    (Hdf KERNEL_VERSIONS_BACKUP_NV_INDEX) by done.
  done.
Qed.

(** X8: on a TPM that keeps the NVRAM contract, when SetupTPM returns
    success the backup counter is at most the primary counter, the
    distrust flag stored is recovery_mode, and DEVELOPER_MODE holds
    developer_mode. *)
Theorem SetupTPM_success_nvram nv recovery_mode developer_mode s :
  nv_contract nv -> setup_indices_distinct ->
  TPM_E_INTERNAL_INCONSISTENCY <> TPM_SUCCESS ->
  TPM_E_MUST_REBOOT <> TPM_SUCCESS ->
  TPM_E_ALREADY_INITIALIZED <> TPM_SUCCESS ->
  let r := SetupTPM recovery_mode developer_mode s in
  status r = TPM_SUCCESS ->
  counter nv (final r) KERNEL_VERSIONS_BACKUP_NV_INDEX
    <= counter nv (final r) KERNEL_VERSIONS_NV_INDEX
  /\ counter nv (final r) KERNEL_MUST_USE_BACKUP_NV_INDEX
     = to_uint32 recovery_mode
  /\ counter nv (final r) DEVELOPER_MODE_NV_INDEX
     = to_uint32 developer_mode.
Proof.
  intros C Hidx Hcode Hreboot Halready r.
  assert (HQ : fails_freely
                 (nvram_after nv recovery_mode developer_mode)).
  { intros r0 s0 Hr. by intros ->. }
  apply (outcome_SetupTPM _ HQ recovery_mode developer_mode
           Hreboot Halready
           (SetupTPM_tail_nvram nv recovery_mode developer_mode
              C Hidx Hcode) s).
Qed.
End SetupSuccess.

(** ** RecoverKernelSpace on a TPM that keeps the contract *)

Section Restore.
Context {tpm : Type} {T : Tlcl tpm} {K : Constants}.
Implicit Types s : machine tpm.

Lemma TlclGetPermissions_nv nv index s j :
  nv_contract nv ->
  nv (tpm_state (final (TlclGetPermissions index s))) j
  = nv (tpm_state s) j.
Proof.
  intros C. unfold TlclGetPermissions. unfold_monad.
  destruct (tlcl_exec _ _) as [[rc o] t] eqn:E. simpl.
  apply (nv_frame _ C _ _ _ _ _ j E). simpl. tauto.
Qed.

(** X9: on a TPM that keeps the NVRAM contract and whose failed writes
    change nothing, a successful RecoverKernelSpace that finds the
    distrust flag set leaves KERNEL_VERSIONS holding the backup counter,
    and leaves the backup and the distrust flag as they were: the flag is
    still set afterwards.  One that finds the flag at 0 changes no
    space. *)
Theorem RecoverKernelSpace_restores_primary nv s :
  nv_contract nv -> failed_write_keeps nv ->
  KERNEL_VERSIONS_NV_INDEX <> KERNEL_VERSIONS_BACKUP_NV_INDEX ->
  KERNEL_VERSIONS_NV_INDEX <> KERNEL_MUST_USE_BACKUP_NV_INDEX ->
  TPM_E_CORRUPTED_STATE <> TPM_SUCCESS ->
  let r := RecoverKernelSpace s in
  status r = TPM_SUCCESS ->
  (counter nv s KERNEL_MUST_USE_BACKUP_NV_INDEX <> 0 ->
   counter nv (final r) KERNEL_VERSIONS_NV_INDEX
     = counter nv s KERNEL_VERSIONS_BACKUP_NV_INDEX
   /\ nv (tpm_state (final r)) KERNEL_VERSIONS_BACKUP_NV_INDEX
      = nv (tpm_state s) KERNEL_VERSIONS_BACKUP_NV_INDEX
   /\ nv (tpm_state (final r)) KERNEL_MUST_USE_BACKUP_NV_INDEX
      = nv (tpm_state s) KERNEL_MUST_USE_BACKUP_NV_INDEX)
  /\ (counter nv s KERNEL_MUST_USE_BACKUP_NV_INDEX = 0 ->
      forall j, nv (tpm_state (final r)) j = nv (tpm_state s) j).
Proof.
  intros C Hfail Hkb Hkm Hcode r. subst r.
  unfold RecoverKernelSpace; cbv zeta.
  set (rd0 := TlclRead KERNEL_MUST_USE_BACKUP_NV_INDEX sizeof_uint32 s).
  destruct (TlclRead_nv nv C KERNEL_MUST_USE_BACKUP_NV_INDEX sizeof_uint32 s)
    as [F0 _].
  pose proof (read_counter nv C KERNEL_MUST_USE_BACKUP_NV_INDEX s) as C0.
  fold rd0 in F0, C0. cbv zeta in C0.
  destruct (Z.eq_dec (status rd0).1 TPM_SUCCESS) as [H0|H0].
  2:{ rewrite run_rof_fail by done. cbn [status fst]. done. }
  rewrite run_rof_ok by done. fold rd0. rewrite (C0 H0).
  set (rd1 := TlclRead KERNEL_VERSIONS_NV_INDEX KERNEL_SPACE_SIZE
                (final rd0)).
  destruct (TlclRead_nv nv C KERNEL_VERSIONS_NV_INDEX KERNEL_SPACE_SIZE
              (final rd0)) as [F1 _].
  fold rd1 in F1.
  destruct (Z.eq_dec (status rd1).1 TPM_SUCCESS) as [H1|H1].
  2:{ rewrite run_rof_fail by done. cbn [status fst]. done. }
  rewrite run_rof_ok by done. fold rd1.
  set (gp := TlclGetPermissions KERNEL_VERSIONS_NV_INDEX (final rd1)).
  pose proof (fun j => TlclGetPermissions_nv nv KERNEL_VERSIONS_NV_INDEX
                         (final rd1) j C) as F2.
  fold gp in F2.
  destruct (Z.eq_dec (status gp).1 TPM_SUCCESS) as [H2|H2].
  2:{ rewrite run_rof_fail by done. cbn [status fst]. done. }
  rewrite run_rof_ok by done. fold gp.
  destruct (negb _ || _).
  { unfold ret. cbn [status fst]. done. }
  assert (Fgp : forall j, nv (tpm_state (final gp)) j = nv (tpm_state s) j).
  { intros j. by rewrite F2, F1, F0. }
  destruct (Z.eqb_spec (counter nv s KERNEL_MUST_USE_BACKUP_NV_INDEX) 0)
    as [Hz|Hnz]; cbn [negb].
  { unfold ret. cbn [status final fst snd]. intros _.
    split; [done|]. intros _ j. apply Fgp. }
  set (rd2 := TlclRead KERNEL_VERSIONS_BACKUP_NV_INDEX sizeof_uint32
                (final gp)).
  destruct (TlclRead_nv nv C KERNEL_VERSIONS_BACKUP_NV_INDEX sizeof_uint32
              (final gp)) as [F3 _].
  pose proof (read_counter nv C KERNEL_VERSIONS_BACKUP_NV_INDEX (final gp))
    as C3.
  fold rd2 in F3, C3. cbv zeta in C3.
  destruct (Z.eq_dec (status rd2).1 TPM_SUCCESS) as [H3|H3].
  2:{ rewrite run_rof_fail by done. cbn [status fst]. done. }
  rewrite run_rof_ok by done. fold rd2. rewrite (C3 H3).
  set (w1 := SafeWrite KERNEL_VERSIONS_NV_INDEX
               (uint32_bytes
                  (counter nv (final gp) KERNEL_VERSIONS_BACKUP_NV_INDEX))
               sizeof_uint32 (final rd2)).
  destruct (Z.eq_dec (status w1) TPM_SUCCESS) as [H4|H4].
  2:{ erewrite rof_fail; [|by rewrite run_no_out|done].
      cbn [status fst]. done. }
  rewrite (rof_step_ok _ _ _ H4). fold w1. rewrite rof_last.
  cbn [status final fst snd]. intros H5.
  destruct (SafeWrite_counter nv C KERNEL_VERSIONS_NV_INDEX
              (counter nv (final gp) KERNEL_VERSIONS_BACKUP_NV_INDEX)
              (final rd2) (uint32_of_bytes_range _) H4) as [Hc Hf].
  fold w1 in Hc, Hf.
  pose proof (fun j => SafeWrite_nothing nv C
                KERNEL_MUST_USE_BACKUP_NV_INDEX (uint32_bytes 0) (final w1)
                j Hfail H5) as F5.
  split; [|done]. intros _. unfold counter in *.
  rewrite !F5. split; [|split].
  - rewrite Hc. by rewrite Fgp.
  - rewrite Hf by done. by rewrite F3, Fgp.
  - rewrite Hf by done. by rewrite F3, Fgp.
Qed.
End Restore.

(** ** Writing the versions and reading them back *)

Section WriteThenRead.
Context {tpm : Type} {T : Tlcl tpm} {K : Constants}.
Implicit Types s : machine tpm.

Lemma read_back_zero nv index key_version version s :
  nv_contract nv ->
  counter nv s index = 0 ->
  let r :=
    return_on_failure (TlclRead index sizeof_uint32)
      (fun r => (r, (key_version, version)))
      (fun buf =>
         let word := uint32_of_bytes buf in
         ret (TPM_SUCCESS,
              (to_uint16 (Z.shiftr word 16),
               to_uint16 (Z.land word 65535)))) s in
  (status r).1 = TPM_SUCCESS -> status r = (TPM_SUCCESS, (0, 0)).
Proof.
  intros C Hzero r Hok.
  destruct (read_versions_run index key_version version s)
    as (_ & _ & Hfail & Hsplit).
  fold r in Hfail, Hsplit.
  pose proof (read_counter nv C index s) as Hcnt. cbv zeta in Hcnt.
  destruct (Z.eq_dec (status (TlclRead index sizeof_uint32 s)).1
              TPM_SUCCESS) as [Hrd|Hrd].
  - destruct (Hsplit Hrd) as (kv & v & Hst & Hkv & Hv & Hsum).
    rewrite (Hcnt Hrd), Hzero in Hsum. rewrite Hst.
    assert (kv = 0) by lia. assert (v = 0) by lia. by subst.
  - rewrite (Hfail Hrd) in Hok. done.
Qed.

Lemma RollbackKernelRead_run key_version version s :
  g_rollback_recovery_mode s = 0 ->
  RollbackKernelRead key_version version s =
  return_on_failure (TlclRead KERNEL_VERSIONS_NV_INDEX sizeof_uint32)
    (fun r => (r, (key_version, version)))
    (fun buf =>
       let word := uint32_of_bytes buf in
       ret (TPM_SUCCESS,
            (to_uint16 (Z.shiftr word 16),
             to_uint16 (Z.land word 65535)))) s.
Proof.
  intros Hg. unfold RollbackKernelRead.
  rewrite run_bind. unfold get_recovery_mode.
  cbn [status final log fst snd app]. rewrite Hg.
  change (negb (0 =? 0)) with false. cbv iota.
  unfold status, final, log.
  by destruct (return_on_failure _ _ _ s) as [[a s1] e1].
Qed.

(** X10: on a TPM that keeps the NVRAM contract, after a successful
    RollbackFirmwareWrite of any key_version and any 16-bit version, a
    successful RollbackFirmwareRead returns key_version = 0 and
    version = 0; outside recovery mode the same holds for
    RollbackKernelWrite followed by RollbackKernelRead. *)
Theorem Rollback_Write_then_Read nv key_version version kv0 v0 s :
  nv_contract nv ->
  0 <= version < 2 ^ 16 ->
  (let w := RollbackFirmwareWrite key_version version s in
   let r := RollbackFirmwareRead kv0 v0 (final w) in
   status w = TPM_SUCCESS -> (status r).1 = TPM_SUCCESS ->
   status r = (TPM_SUCCESS, (0, 0)))
  /\ (g_rollback_recovery_mode s = 0 ->
      let w := RollbackKernelWrite key_version version s in
      let r := RollbackKernelRead kv0 v0 (final w) in
      status w = TPM_SUCCESS -> (status r).1 = TPM_SUCCESS ->
      status r = (TPM_SUCCESS, (0, 0))).
Proof.
  intros C Hv.
  assert (Hz : 0 <= 0 < 2 ^ 32) by lia.
  split.
  - intros w r Hw Hr. subst w r.
    unfold RollbackFirmwareWrite in *.
    rewrite (combined_version_zero _ _ Hv) in *.
    destruct (SafeWrite_counter nv C FIRMWARE_VERSIONS_NV_INDEX 0 s Hz Hw)
      as [Hc _].
    by apply (read_back_zero nv FIRMWARE_VERSIONS_NV_INDEX kv0 v0 _ C Hc).
  - intros Hg w r Hw Hr. subst w r.
    assert (Hrun : RollbackKernelWrite key_version version s =
                   SafeWrite KERNEL_VERSIONS_NV_INDEX (uint32_bytes 0)
                     sizeof_uint32 s).
    { unfold RollbackKernelWrite. rewrite run_bind.
      unfold get_recovery_mode. cbn [status final log fst snd app].
      rewrite Hg, (combined_version_zero _ _ Hv).
      change (0 =? 0) with true. cbv iota.
      unfold status, final, log.
      by destruct (SafeWrite _ _ _ s) as [[a s1] e1]. }
    rewrite Hrun in *.
    destruct (SafeWrite_counter nv C KERNEL_VERSIONS_NV_INDEX 0 s Hz Hw)
      as [Hc _].
    assert (Hg' : g_rollback_recovery_mode
                    (final (SafeWrite KERNEL_VERSIONS_NV_INDEX
                              (uint32_bytes 0) sizeof_uint32 s)) = 0).
    { rewrite <- Hg. apply keeps_flag.
      apply SafeWrite_respects; [exact _ | done]. }
    rewrite (RollbackKernelRead_run _ _ _ Hg') in *.
    by apply (read_back_zero nv KERNEL_VERSIONS_NV_INDEX kv0 v0 _ C Hc).
Qed.
End WriteThenRead.

(** ** Which functions lock *)

Section Locks.
Context {tpm : Type} {T : Tlcl tpm} {K : Constants}.
Implicit Types s : machine tpm.

Lemma respects_log {A} G P (m : M tpm A) s e :
  respects G P m -> e ∈ log (m s) -> P (ev_cmd e).
Proof.
  intros H He. destruct (H s) as [_ Hl].
  rewrite Forall_forall in Hl. by apply Hl.
Qed.

(** X11: SetGlobalLock is issued only by RollbackFirmwareLock and by
    RollbackKernelRecovery called with developer_mode = 0, and
    LockPhysicalPresence only by RollbackKernelLock outside recovery
    mode: no setup, read or write function ever locks the TPM. *)
Theorem locks_only_in_lock_functions a s e :
  e ∈ api_log a s ->
  (ev_cmd e = SetGlobalLock ->
   a = CallRollbackFirmwareLock \/ a = CallRollbackKernelRecovery 0)
  /\ (ev_cmd e = LockPhysicalPresence ->
      a = CallRollbackKernelLock /\ g_rollback_recovery_mode s = 0).
Proof.
  intros He.
  assert (Hsafe : forall G (m : M tpm Z),
            respects G not_a_lock m -> e ∈ log (m s) ->
            ev_cmd e <> SetGlobalLock /\ ev_cmd e <> LockPhysicalPresence).
  { intros G m Hm Hin. apply (respects_log G not_a_lock m s e Hm Hin). }
  assert (Hall : forall c : tlcl_cmd,
             c <> SetGlobalLock -> c <> LockPhysicalPresence ->
             not_a_lock c) by done.
  assert (Hlpp : forall c : tlcl_cmd,
             c <> SetGlobalLock -> c <> LockPhysicalPresence ->
             c <> LockPhysicalPresence) by done.
  destruct a; simpl in He.
  - destruct (Hsafe eq _ (RecoverKernelSpace_respects eq not_a_lock Hall)
                He). by split.
  - destruct (Hsafe eq _
                (SetupTPM_respects eq not_a_lock Hall 0 developer_mode
                   ltac:(done)) He). by split.
  - assert (Hl : respects eq not_a_lock
                   (RollbackFirmwareRead key_version version)).
    { unfold RollbackFirmwareRead.
      respects_with ltac:(split; discriminate). }
    destruct (respects_log _ _ _ s e Hl He). by split.
  - destruct (Hsafe eq _ (SafeWrite_respects eq not_a_lock Hall _ _ _) He).
    by split.
  - split; [by left|]. intros Hcmd.
    unfold RollbackFirmwareLock, TlclSetGlobalLock in He.
    rewrite run_status_of in He. cbn [log snd] in He.
    apply list_elem_of_singleton in He. by subst e.
  - destruct (Z.eq_dec developer_mode 0) as [->|Hdev].
    + split; [by right|]. intros Hcmd. exfalso.
      assert (Hl : respects may_set (fun c => c <> LockPhysicalPresence)
                     (RollbackKernelRecovery 0)).
      { unfold RollbackKernelRecovery.
        respects_with
          ltac:(first [ apply SetupTPM_respects;
                          [exact _ | done | by right]
                      | discriminate ]). }
      by apply (respects_log _ _ _ s e Hl He).
    + assert (Hl : respects may_set not_a_lock
                     (RollbackKernelRecovery developer_mode)).
      { unfold RollbackKernelRecovery.
        apply respects_bind;
          [exact _
          | apply SetupTPM_respects; [exact _ | done | by right]
          | intros _].
        destruct (Z.eqb_spec developer_mode 0); [done|].
        apply respects_ret; exact _. }
      destruct (respects_log _ _ _ s e Hl He). by split.
  - assert (Hl : respects eq not_a_lock
                   (RollbackKernelRead key_version version)).
    { unfold RollbackKernelRead.
      respects_with ltac:(split; discriminate). }
    destruct (respects_log _ _ _ s e Hl He). by split.
  - assert (Hl : respects eq not_a_lock
                   (RollbackKernelWrite key_version version)).
    { unfold RollbackKernelWrite.
      respects_with
        ltac:(first [ apply SafeWrite_respects; [exact _ | done]
                    | split; discriminate ]). }
    destruct (respects_log _ _ _ s e Hl He). by split.
  - unfold RollbackKernelLock in He. rewrite run_bind in He.
    unfold get_recovery_mode in He. cbn [status final log fst snd app] in He.
    destruct (Z.eqb_spec (g_rollback_recovery_mode s) 0) as [Hg|Hg].
    + unfold TlclLockPhysicalPresence in He.
      rewrite run_status_of in He. cbn [log snd] in He.
      apply list_elem_of_singleton in He. subst e. by split.
    + unfold ret in He. cbn [log snd] in He. by apply elem_of_nil in He.
Qed.
End Locks.

(** ** SetupTPM: the first commands, and a failed recovery *)

Section SetupSteps.
Context {tpm : Type} {T : Tlcl tpm} {K : Constants}.
Implicit Types s : machine tpm.

(** X12: SetupTPM starts with LibInit, Startup, ContinueSelfTest,
    AssertPhysicalPresence and GetFlags, in this order.  The first of
    the last four that fails ends SetupTPM with its status, as its last
    command and with the recovery flag untouched; no other command is
    issued before all four have succeeded. *)
Theorem SetupTPM_prologue recovery_mode developer_mode s :
  let r := SetupTPM recovery_mode developer_mode s in
  exists r0,
    (status r <> TPM_SUCCESS
     /\ g_rollback_recovery_mode (final r) = g_rollback_recovery_mode s
     /\ (log r = [Ev LibInit r0; Ev Startup (status r)]
         \/ log r = [Ev LibInit r0; Ev Startup TPM_SUCCESS;
                     Ev ContinueSelfTest (status r)]
         \/ log r = [Ev LibInit r0; Ev Startup TPM_SUCCESS;
                     Ev ContinueSelfTest TPM_SUCCESS;
                     Ev AssertPhysicalPresence (status r)]
         \/ log r = [Ev LibInit r0; Ev Startup TPM_SUCCESS;
                     Ev ContinueSelfTest TPM_SUCCESS;
                     Ev AssertPhysicalPresence TPM_SUCCESS;
                     Ev GetFlags (status r)]))
    \/ (exists rest,
          log r = [Ev LibInit r0; Ev Startup TPM_SUCCESS;
                   Ev ContinueSelfTest TPM_SUCCESS;
                   Ev AssertPhysicalPresence TPM_SUCCESS;
                   Ev GetFlags TPM_SUCCESS] ++ rest).
Proof.
  unfold SetupTPM, TlclLibInit, TlclStartup, TlclContinueSelfTest,
    TlclAssertPhysicalPresence, TlclGetFlags.
  match goal with
  | |- context [return_on_failure (call GetFlags) ?e ?k0] =>
      generalize k0; intros k
  end.
  unfold_monad.
  destruct (tlcl_exec LibInit _) as [[r0 o0] t1]. simpl. exists r0.
  destruct (tlcl_exec Startup _) as [[r1 o1] t2]. simpl.
  destruct (Z.eqb_spec r1 TPM_SUCCESS) as [->|H1]; simpl; [|left; auto].
  destruct (tlcl_exec ContinueSelfTest _) as [[r2 o2] t3]. simpl.
  destruct (Z.eqb_spec r2 TPM_SUCCESS) as [->|H2]; simpl;
    [|left; auto 6].
  destruct (tlcl_exec AssertPhysicalPresence _) as [[r3 o3] t4]. simpl.
  destruct (Z.eqb_spec r3 TPM_SUCCESS) as [->|H3]; simpl;
    [|left; auto 7].
  destruct (tlcl_exec GetFlags _) as [[r4 o4] t5]. simpl.
  destruct (Z.eqb_spec r4 TPM_SUCCESS) as [->|H4]; simpl;
    [|left; auto 8].
  destruct (k o4 _) as [[b s2] e2]. simpl. right. eauto.
Qed.

(** X13: when the enable check has passed and RecoverKernelSpace fails,
    SetupTPM asks GetSpacesInitialized.  If that fails, its status is
    returned.  If it reports the spaces initialized, SetupTPM returns
    AlreadyInitialized without provisioning anything.  If it reports them
    missing, InitializeSpaces runs and then RecoverKernelSpace again; a
    failure of either is the result of SetupTPM. *)
Theorem SetupTPM_after_failed_recovery recovery_mode developer_mode g
    (t0 t1 t2 t3 t4 t5 : tpm) r0 :
  tlcl_exec LibInit t0 = (r0, tt, t1) ->
  tlcl_exec Startup t1 = (TPM_SUCCESS, tt, t2) ->
  tlcl_exec ContinueSelfTest t2 = (TPM_SUCCESS, tt, t3) ->
  tlcl_exec AssertPhysicalPresence t3 = (TPM_SUCCESS, tt, t4) ->
  tlcl_exec GetFlags t4 = (TPM_SUCCESS, (x00, x00), t5) ->
  let prologue :=
    [Ev LibInit r0; Ev Startup TPM_SUCCESS; Ev ContinueSelfTest TPM_SUCCESS;
     Ev AssertPhysicalPresence TPM_SUCCESS; Ev GetFlags TPM_SUCCESS] in
  let run := SetupTPM recovery_mode developer_mode (Machine t0 g) in
  let rec1 := RecoverKernelSpace (Machine t5 g) in
  let gsi := GetSpacesInitialized 0 (final rec1) in
  let init := InitializeSpaces (final gsi) in
  let rec2 := RecoverKernelSpace (final init) in
  status rec1 <> TPM_SUCCESS ->
  ((status gsi).1 <> TPM_SUCCESS ->
   run = ((status gsi).1, final gsi, prologue ++ log rec1 ++ log gsi))
  /\ ((status gsi).1 = TPM_SUCCESS -> (status gsi).2 <> 0 ->
      run = (TPM_E_ALREADY_INITIALIZED, final gsi,
             prologue ++ log rec1 ++ log gsi))
  /\ ((status gsi).1 = TPM_SUCCESS -> (status gsi).2 = 0 ->
      (status init <> TPM_SUCCESS ->
       run = (status init, final init,
              prologue ++ log rec1 ++ log gsi ++ log init))
      /\ (status init = TPM_SUCCESS -> status rec2 <> TPM_SUCCESS ->
          run = (status rec2, final rec2,
                 prologue ++ log rec1 ++ log gsi ++ log init ++ log rec2))).
Proof.
  intros E0 E1 E2 E3 E4 prologue run rec1 gsi init rec2 Hrec.
  assert (Hrun :
    run =
    (status
       ((RETURN_ON_FAILURE (GetSpacesInitialized 0) as initialized;;
         if negb (initialized =? 0) then ret TPM_E_ALREADY_INITIALIZED
         else
           RETURN_ON_FAILURE (InitializeSpaces);;
           RETURN_ON_FAILURE (RecoverKernelSpace);;
           SetupTPM_tail recovery_mode developer_mode) (final rec1)),
     final
       ((RETURN_ON_FAILURE (GetSpacesInitialized 0) as initialized;;
         if negb (initialized =? 0) then ret TPM_E_ALREADY_INITIALIZED
         else
           RETURN_ON_FAILURE (InitializeSpaces);;
           RETURN_ON_FAILURE (RecoverKernelSpace);;
           SetupTPM_tail recovery_mode developer_mode) (final rec1)),
     prologue ++ log rec1 ++
     log
       ((RETURN_ON_FAILURE (GetSpacesInitialized 0) as initialized;;
         if negb (initialized =? 0) then ret TPM_E_ALREADY_INITIALIZED
         else
           RETURN_ON_FAILURE (InitializeSpaces);;
           RETURN_ON_FAILURE (RecoverKernelSpace);;
           SetupTPM_tail recovery_mode developer_mode) (final rec1)))).
  { subst run prologue. unfold SetupTPM, TlclStartup, TlclContinueSelfTest,
      TlclAssertPhysicalPresence, TlclGetFlags.
    rewrite run_bind, (exec_LibInit (Machine t0 g) _ _ _ E0).
    cbn [status final log fst snd app tpm_state g_rollback_recovery_mode].
    exec_ok Startup E1. exec_ok ContinueSelfTest E2.
    exec_ok AssertPhysicalPresence E3. exec_ok GetFlags E4.
    change (negb (Z_of_byte "000" =? 0) || negb (Z_of_byte "000" =? 0))
      with false. cbv iota.
    rewrite run_bind. fold rec1.
    destruct (Z.eqb_spec (status rec1) TPM_SUCCESS) as [|_]; [done|].
    cbn [negb]. cbv zeta.
    cbn [status final log fst snd app]. reflexivity. }
  rewrite Hrun. clear Hrun. split; [|split].
  - intros Hg. rewrite run_rof_fail by done.
    by cbn [status final log fst snd].
  - intros Hg Hi. rewrite run_rof_ok by done. fold gsi.
    apply Z.eqb_neq in Hi. rewrite Hi. unfold ret.
    cbn [negb status final log fst snd]. by rewrite app_nil_r.
  - intros Hg Hi. rewrite run_rof_ok by done. fold gsi.
    rewrite Hi. change (negb (0 =? 0)) with false. cbv iota. split.
    + intros Hinit. fold init.
      erewrite rof_fail; [|by rewrite run_no_out|done].
      by cbn [status final log fst snd].
    + intros Hinit Hrec2. rewrite (rof_step_ok _ _ _ Hinit). fold init.
      erewrite rof_fail; [|by rewrite run_no_out|done].
      by cbn [status final log fst snd].
Qed.
End SetupSteps.

(** ** The spaces each function writes *)

Section Footprint.
Context {tpm : Type} {T : Tlcl tpm} {K : Constants}.
Implicit Types s : machine tpm.

Local Ltac footprint :=
  respects_with ltac:(first [exact I | simpl; tauto]).

(** X14: none of the following thirteen functions defines a space, and
    each writes only to the spaces listed for it: BackupKernelSpace only to
    KERNEL_VERSIONS_BACKUP (never to the primary counter),
    RecoverKernelSpace only to KERNEL_VERSIONS and KERNEL_MUST_USE_BACKUP
    (never to the backup), SetDistrustKernelSpaceAtNextBoot only to
    KERNEL_MUST_USE_BACKUP, CheckDeveloperModeTransition only to
    DEVELOPER_MODE, SafeWrite only to the index it is given,
    RollbackFirmwareWrite only to FIRMWARE_VERSIONS, RollbackKernelWrite
    only to KERNEL_VERSIONS; GetSpacesInitialized, RollbackFirmwareRead,
    RollbackKernelRead, TPMClearAndReenable, RollbackFirmwareLock and
    RollbackKernelLock write to no space. *)
Theorem nvram_footprint s distrust current_developer initialized kv v
    index data length :
  Forall (fun e => touches_only [KERNEL_VERSIONS_BACKUP_NV_INDEX] (ev_cmd e))
    (log (BackupKernelSpace s))
  /\ Forall (fun e => touches_only [KERNEL_VERSIONS_NV_INDEX;
                                    KERNEL_MUST_USE_BACKUP_NV_INDEX]
                        (ev_cmd e))
       (log (RecoverKernelSpace s))
  /\ Forall (fun e => touches_only [KERNEL_MUST_USE_BACKUP_NV_INDEX]
                        (ev_cmd e))
       (log (SetDistrustKernelSpaceAtNextBoot distrust s))
  /\ Forall (fun e => touches_only [DEVELOPER_MODE_NV_INDEX] (ev_cmd e))
       (log (CheckDeveloperModeTransition current_developer s))
  /\ Forall (fun e => touches_only [] (ev_cmd e))
       (log (GetSpacesInitialized initialized s))
  /\ Forall (fun e => touches_only [] (ev_cmd e))
       (log (RollbackFirmwareRead kv v s))
  /\ Forall (fun e => touches_only [] (ev_cmd e))
       (log (RollbackKernelRead kv v s))
  /\ Forall (fun e => touches_only [] (ev_cmd e))
       (log (TPMClearAndReenable s))
  /\ Forall (fun e => touches_only [index] (ev_cmd e))
       (log (SafeWrite index data length s))
  /\ Forall (fun e => touches_only [FIRMWARE_VERSIONS_NV_INDEX] (ev_cmd e))
       (log (RollbackFirmwareWrite kv v s))
  /\ Forall (fun e => touches_only [KERNEL_VERSIONS_NV_INDEX] (ev_cmd e))
       (log (RollbackKernelWrite kv v s))
  /\ Forall (fun e => touches_only [] (ev_cmd e))
       (log (RollbackFirmwareLock s))
  /\ Forall (fun e => touches_only [] (ev_cmd e))
       (log (RollbackKernelLock s)).
Proof.
  assert (Hfoot : forall l (m : M tpm Z),
            respects eq (touches_only l) m ->
            Forall (fun e => touches_only l (ev_cmd e)) (log (m s))).
  { intros l m H. apply (H s). }
  assert (Hfoot2 : forall l (m : M tpm (Z * (Z * Z))),
            respects eq (touches_only l) m ->
            Forall (fun e => touches_only l (ev_cmd e)) (log (m s))).
  { intros l m H. apply (H s). }
  assert (Hfoot1 : forall l (m : M tpm (Z * Z)),
            respects eq (touches_only l) m ->
            Forall (fun e => touches_only l (ev_cmd e)) (log (m s))).
  { intros l m H. apply (H s). }
  repeat split;
    first [apply Hfoot | apply Hfoot1 | apply Hfoot2];
    unfold BackupKernelSpace, RecoverKernelSpace,
      SetDistrustKernelSpaceAtNextBoot, CheckDeveloperModeTransition,
      GetSpacesInitialized, RollbackFirmwareRead, RollbackKernelRead,
      RollbackFirmwareWrite, RollbackKernelWrite, RollbackFirmwareLock,
      RollbackKernelLock, SafeWrite, TPMClearAndReenable;
    footprint.
Qed.
End Footprint.

(** ** The further properties at concrete devices *)

Lemma ref_failed_write_keeps : failed_write_keeps (T:=ref_tlcl) ref_nv.
Proof.
  intros t i d len rc o t' j E Hrc. unfold tlcl_exec, ref_tlcl in E.
  destruct (ref_exec_cases (Write i d len) t)
    as [(rc' & t0 & _ & Hnv & E')|(t0 & Hnv & E')]; rewrite E' in E.
  - simplify_eq. unfold ref_nv. by rewrite Hnv.
  - assert (t' = t0); [|subst t'; unfold ref_nv; by rewrite Hnv].
    simpl in E. destruct (nvram t0 !! i); [|by simplify_eq].
    destruct (_ && _); by simplify_eq.
Qed.

Section MoreExamples.
Local Existing Instance ref_tlcl.
Local Existing Instance vboot_constants.

Lemma RollbackKernelRead_split_witness :
  g_rollback_recovery_mode (boot versioned_tpm) = 0
  /\ status (RollbackKernelRead 0 0 (boot versioned_tpm))
     = (TPM_SUCCESS, (5, 3)).
Proof.
  split; [reflexivity|].
  destruct (RollbackKernelRead_split 0 0 (boot versioned_tpm) eq_refl)
    as (_ & _ & _ & H).
  destruct (H eq_refl) as (kv & v & Hst & _).
  rewrite Hst. symmetry. rewrite <- Hst. by vm_compute.
Defined.

Lemma SetDistrustKernelSpaceAtNextBoot_effect_witness :
  counter ref_nv
    (final (SetDistrustKernelSpaceAtNextBoot 0 (boot tampered_tpm)))
    KERNEL_MUST_USE_BACKUP_NV_INDEX = 0.
Proof.
  destruct (SetDistrustKernelSpaceAtNextBoot_effect 0 (boot tampered_tpm))
    as (_ & _ & H).
  apply (H ref_nv ref_nv_contract); [lia | by vm_compute].
Defined.

Lemma CheckDeveloperModeTransition_effect_witness :
  counter ref_nv
    (final (CheckDeveloperModeTransition 1 (boot tampered_tpm)))
    DEVELOPER_MODE_NV_INDEX = 1.
Proof.
  destruct (CheckDeveloperModeTransition_effect 1 (boot tampered_tpm))
    as (_ & _ & H).
  apply (H ref_nv ref_nv_contract); [lia | by vm_compute].
Defined.

Lemma SetupTPM_sets_flag_on_success_witness :
  status (SetupTPM 1 0 (boot tampered_tpm)) = TPM_SUCCESS
  /\ g_rollback_recovery_mode (final (SetupTPM 1 0 (boot tampered_tpm))) = 1
  /\ g_rollback_recovery_mode
       (final (RollbackKernelRecovery 0 (boot ref_empty))) = 0.
Proof.
  assert (H1 : TPM_E_MUST_REBOOT <> TPM_SUCCESS) by discriminate.
  assert (H2 : TPM_E_ALREADY_INITIALIZED <> TPM_SUCCESS) by discriminate.
  assert (Hok : status (SetupTPM 1 0 (boot tampered_tpm)) = TPM_SUCCESS)
    by (by vm_compute).
  split; [exact Hok|]. split.
  - destruct (SetupTPM_sets_flag_on_success 1 0 (boot tampered_tpm) H1 H2)
      as (_ & H & _).
    exact (H Hok).
  - destruct (SetupTPM_sets_flag_on_success 1 0 (boot ref_empty) H1 H2)
      as (_ & _ & H).
    rewrite H. by vm_compute.
Defined.

Lemma SetupTPM_success_nvram_witness :
  status (SetupTPM 0 0 (boot tampered_tpm)) = TPM_SUCCESS
  /\ counter ref_nv (final (SetupTPM 0 0 (boot tampered_tpm)))
       KERNEL_VERSIONS_BACKUP_NV_INDEX
     <= counter ref_nv (final (SetupTPM 0 0 (boot tampered_tpm)))
          KERNEL_VERSIONS_NV_INDEX.
Proof.
  assert (Hok : status (SetupTPM 0 0 (boot tampered_tpm)) = TPM_SUCCESS)
    by (by vm_compute).
  split; [exact Hok|].
  assert (Hidx : setup_indices_distinct) by (repeat split; discriminate).
  assert (H1 : TPM_E_INTERNAL_INCONSISTENCY <> TPM_SUCCESS)
    by discriminate.
  assert (H2 : TPM_E_MUST_REBOOT <> TPM_SUCCESS) by discriminate.
  assert (H3 : TPM_E_ALREADY_INITIALIZED <> TPM_SUCCESS) by discriminate.
  destruct (SetupTPM_success_nvram ref_nv 0 0 (boot tampered_tpm)
              ref_nv_contract Hidx H1 H2 H3 Hok) as [H _].
  exact H.
Defined.

Lemma RecoverKernelSpace_restores_primary_witness :
  counter ref_nv (boot distrusted_tpm) KERNEL_MUST_USE_BACKUP_NV_INDEX <> 0
  /\ counter ref_nv (final (RecoverKernelSpace (boot distrusted_tpm)))
       KERNEL_VERSIONS_NV_INDEX = 5
  /\ ref_nv (tpm_state (final (RecoverKernelSpace (boot distrusted_tpm))))
       KERNEL_MUST_USE_BACKUP_NV_INDEX = uint32_bytes 1.
Proof.
  assert (Hflag : counter ref_nv (boot distrusted_tpm)
                    KERNEL_MUST_USE_BACKUP_NV_INDEX <> 0)
    by (by vm_compute).
  split; [exact Hflag|].
  assert (H1 : KERNEL_VERSIONS_NV_INDEX <> KERNEL_VERSIONS_BACKUP_NV_INDEX)
    by discriminate.
  assert (H2 : KERNEL_VERSIONS_NV_INDEX <> KERNEL_MUST_USE_BACKUP_NV_INDEX)
    by discriminate.
  assert (H3 : TPM_E_CORRUPTED_STATE <> TPM_SUCCESS) by discriminate.
  assert (Hok : status (RecoverKernelSpace (boot distrusted_tpm))
                = TPM_SUCCESS) by (by vm_compute).
  destruct (RecoverKernelSpace_restores_primary ref_nv (boot distrusted_tpm)
              ref_nv_contract ref_failed_write_keeps H1 H2 H3 Hok)
    as [H _].
  destruct (H Hflag) as (Hp & _ & Hm).
  split; [rewrite Hp; by vm_compute | rewrite Hm; by vm_compute].
Defined.

Lemma Rollback_Write_then_Read_witness :
  status (RollbackFirmwareRead 9 9
            (final (RollbackFirmwareWrite 2 7 (boot provisioned_tpm))))
  = (TPM_SUCCESS, (0, 0)).
Proof.
  assert (Hv : 0 <= 7 < 2 ^ 16) by lia.
  destruct (Rollback_Write_then_Read ref_nv 2 7 9 9 (boot provisioned_tpm)
              ref_nv_contract Hv) as [H _].
  apply H; by vm_compute.
Defined.

Lemma locks_only_in_lock_functions_witness :
  Ev SetGlobalLock TPM_SUCCESS
    ∈ api_log CallRollbackFirmwareLock (boot ref_empty)
  /\ (CallRollbackFirmwareLock = CallRollbackFirmwareLock
      \/ CallRollbackFirmwareLock = CallRollbackKernelRecovery 0).
Proof.
  assert (He : Ev SetGlobalLock TPM_SUCCESS
                 ∈ api_log CallRollbackFirmwareLock (boot ref_empty))
    by (vm_compute; left).
  split; [exact He|].
  destruct (locks_only_in_lock_functions CallRollbackFirmwareLock
              (boot ref_empty) _ He) as [H _].
  exact (H eq_refl).
Defined.

Lemma SetupTPM_after_failed_recovery_witness :
  SetupTPM 0 0 (boot provisioned_tpm) =
  (TPM_E_ALREADY_INITIALIZED, boot provisioned_tpm,
   [Ev LibInit TPM_SUCCESS; Ev Startup TPM_SUCCESS;
    Ev ContinueSelfTest TPM_SUCCESS; Ev AssertPhysicalPresence TPM_SUCCESS;
    Ev GetFlags TPM_SUCCESS;
    Ev (Read KERNEL_MUST_USE_BACKUP_NV_INDEX sizeof_uint32) TPM_SUCCESS;
    Ev (Read KERNEL_VERSIONS_NV_INDEX KERNEL_SPACE_SIZE) TPM_SUCCESS;
    Ev (GetPermissions KERNEL_VERSIONS_NV_INDEX) TPM_SUCCESS;
    Ev (Read TPM_IS_INITIALIZED_NV_INDEX sizeof_uint32) TPM_SUCCESS]).
Proof.
  destruct (SetupTPM_after_failed_recovery 0 0 0 provisioned_tpm
              provisioned_tpm provisioned_tpm provisioned_tpm
              provisioned_tpm provisioned_tpm TPM_SUCCESS
              eq_refl eq_refl eq_refl eq_refl eq_refl)
    as (_ & H & _); [by vm_compute|].
  etrans; [apply H; by vm_compute|]. by vm_compute.
Defined.
End MoreExamples.
